(** * Shim DMA buffer descriptors and profiling sessions of the AI engine array

    A shallow embedding of [zynqaie::Aie] (edge shim, [aie.cpp]): the
    buffer-descriptor queues behind [sync_bo], [sync_bo_nb] and [wait_gmio],
    and the profiling sessions behind [start_profiling], [read_profiling]
    and [stop_profiling].

    The object's fields are a record, the member functions are computations
    in a small state-and-exception monad, and every call to a collaborator
    (the vendor driver, the kernel, the buffer API, the resource pool) is
    recorded in a trace.  Answers the hardware gives are read from a script
    that is part of the world the computation runs in.

    The constructor, [reset] and [getDevInst] follow, and the pure text
    functions of [xrt_core::utils] ([utils.cpp]) and of [xrt_core::query]
    ([query_requests.cpp]) close the file. *)

From Stdlib Require Import ZArith Lia String Ascii DecimalString.
From stdpp Require Import base list.

Local Open Scope string_scope.
Local Open Scope Z_scope.

(** ** Values the absent headers supply *)

(** [aie.cpp] takes these from [aie.h], the vendor driver headers and
    [xrt.h], which are outside the embedded sources; the whole development
    is parametric in them. *)
Record Headers := {
  (** [#ifndef __AIESIM__]: [true] selects the simulation build. *)
  AIESIM : bool;
  XAIEDMA_SHIM_TXFER_LEN32_MASK : Z;
  CONVERT_LCHANL_TO_PCHANL : Z -> Z;
  IO_STREAM_RUNNING_EVENT_COUNT : Z;
  XRT_NULL_BO_EXPORT : Z;
}.

(** [<cerrno>] on Linux. *)
Definition EINVAL : Z := 22.
Definition EAGAIN : Z := 11.

(** ** Data *)

Record XAie_LocType := { Row : Z; Col : Z }.

Definition XAie_TileLoc (col row : Z) : XAie_LocType :=
  {| Row := row; Col := col |}.

Inductive XAie_DmaDirection := DMA_S2MM | DMA_MM2S.

Inductive XAie_StrmPortIntf := XAIE_STRMSW_SLAVE | XAIE_STRMSW_MASTER.

(** The two enumerators [submit_sync_bo] names, and every other value of
    the enumeration (the [default:] label). *)
Inductive xclBOSyncDirection :=
| XCL_BO_SYNC_BO_GMIO_TO_AIE
| XCL_BO_SYNC_BO_AIE_TO_GMIO
| XCL_BO_SYNC_BO_OTHER.

Record gmio_type := {
  gmio_name : string;
  gmio_type_ : Z;              (* type 0: GM->AIE; type 1: AIE->GM *)
  gmio_shim_col : Z;
  gmio_channel_number : Z;
  gmio_stream_id : Z;
  gmio_burst_len : Z;
}.

Record plio_type := {
  plio_name : string;
  plio_logical_name : string;
  plio_shim_col : Z;
  plio_stream_id : Z;
  plio_is_master : bool;
}.

(** What the buffer API answers for a handle: [xrtBOExport], [xrtBOSize],
    [xrtBOAddress]. *)
Record xrtBufferHandle := {
  bo_export : Z;
  bo_size : Z;
  bo_address : Z;
}.

(** One hardware buffer descriptor; [vaddr = 0] is [nullptr]. *)
Record BD := {
  bd_num : Z;
  buf_fd : Z;
  size : Z;
  vaddr : Z;
}.

(** A [std::queue<BD>] is a list: [push] appends, [front] and [pop] work at
    the head. *)
Record DMAChannel := {
  idle_bds : list BD;
  pend_bds : list BD;
}.

Record ShimDMA := {
  configured : bool;
  maxqSize : Z;                (* uint8_t *)
  dma_chan : list DMAChannel;  (* a C array, indexed without check *)
}.

Inductive module_type := core_module | memory_module | pl_module.

(** The two kinds [aie.cpp] names; [other_resource] stands for the further
    members of the enumeration. *)
Inductive resource_type :=
| performance_counter
| stream_switch_event_port
| other_resource.

Record AcquiredResource := {
  loc : XAie_LocType;
  module : module_type;
  resource : resource_type;
  id : Z;                      (* size_t *)
}.

Record EventRecord := {
  option_ : Z;                 (* int *)
  acquiredResources : list AcquiredResource;
}.

Record Aie := {
  devInst : bool;              (* the pointer is not null *)
  fd : Z;
  gmios : list gmio_type;
  plios : list plio_type;
  numCols : Z;
  shim_dma : list ShimDMA;
  eventRecords : list EventRecord;
}.

#[global] Instance module_type_eq_dec : EqDecision module_type.
Proof. solve_decision. Defined.
#[global] Instance resource_type_eq_dec : EqDecision resource_type.
Proof. solve_decision. Defined.

(** ** The resource pool *)

(** Modelled from the spec: [Resources::AIE] (declared in [aie_event.h],
    which is absent).  The hardware resource pool is scoped to a tile
    location and a module; a request names the session handle as the
    requesting owner, and a release gives the resource back to the pool of
    its owning tile.  Each counter and each event port is a slot that is
    free or holds its owner's handle; a request answers the index of the
    slot it took, or [-1]. *)
Record PLModule := {
  pl_performanceCounters : list (option Z);
  pl_streamEventPorts : list (option Z);
}.

Record CoreModule := {
  core_performanceCounters : list (option Z);
}.

Record ResourcePool := {
  shimTiles : list PLModule;            (* by column *)
  aieTiles : list (list CoreModule);    (* by column, then row *)
}.

(** Modelled from the spec: the first free slot goes to [owner]. *)
Fixpoint requestResource (slots : list (option Z)) (owner : Z)
  : option (nat * list (option Z)) :=
  match slots with
  | [] => None
  | None :: rest => Some (0%nat, Some owner :: rest)
  | Some o :: rest =>
      match requestResource rest owner with
      | Some (i, rest') => Some (S i, Some o :: rest')
      | None => None
      end
  end.

(** Modelled from the spec: a slot goes back to the pool when [owner] holds
    it; any other release changes nothing. *)
Definition releaseResource (slots : list (option Z)) (owner : Z) (i : Z)
  : list (option Z) :=
  if i <? 0 then slots else
  match slots !! Z.to_nat i with
  | Some (Some o) => if o =? owner then <[Z.to_nat i := None]> slots else slots
  | _ => slots
  end.

(** ** Calls to the collaborators *)

Inductive Event :=
| XAie_DmaGetPendingBdCount (tile : XAie_LocType) (pchan : Z) (dir : XAie_DmaDirection)
| XAie_DmaWaitForDone (tile : XAie_LocType) (pchan : Z) (dir : XAie_DmaDirection) (timeout : Z)
| XAie_DmaSetAddrLen (addr len : Z)
| XAie_DmaSetLock (acq rel : Z)
| XAie_DmaEnableBd
| XAie_DmaWriteBd (tile : XAie_LocType) (bd : Z)
| XAie_DmaChannelPushBdToQueue (tile : XAie_LocType) (pchan : Z) (dir : XAie_DmaDirection) (bd : Z)
| xrtBOExport (bo : xrtBufferHandle)
| ioctl_AIE_ATTACH_DMABUF (buf : Z)
| mmap (len buf : Z)
| munmap (addr len : Z)
| ioctl_AIE_DETACH_DMABUF (buf : Z)
| call_prepare_bd (bd : BD) (bo : xrtBufferHandle)
| call_clear_bd (bd : BD)
| requestStreamEventPort (col handle : Z)
| requestPerformanceCounter (col handle : Z)
| releasePerformanceCounter (m : module_type) (at_ : XAie_LocType) (handle counter : Z)
| releaseStreamEventPort (col handle port : Z)
| XAie_EventSelectStrmPort (tile : XAie_LocType) (port : Z) (mode : XAie_StrmPortIntf) (stream : Z)
| XAie_PerfCounterControlSet (tile : XAie_LocType) (counter port : Z)
| XAie_PerfCounterGet (tile : XAie_LocType) (m : module_type) (counter : Z)
| XAie_PerfCounterReset (tile : XAie_LocType) (m : module_type) (counter : Z)
| XAie_PerfCounterResetControlReset (tile : XAie_LocType) (m : module_type) (counter : Z)
| XAie_EventSelectStrmPortReset (tile : XAie_LocType) (port : Z)
| getPartitionFd (partition_id uid : Z)
| XAie_CfgInitialize
| XAie_DmaDescInit (tile : XAie_LocType)
| XAie_DmaChannelEnable (tile : XAie_LocType) (pchan : Z) (dir : XAie_DmaDirection)
| XAie_DmaSetAxi (smid burst_len qos cache secure : Z)
| XAie_DmaGetMaxQueueSize (tile : XAie_LocType)
| Resources_AIE_initialize (cols rows : Z)
| XAie_Finish
| resetAIEArray (partition_id : Z).

(** ** The world a member function runs in *)

Record World := {
  aie : Aie;
  pool : ResourcePool;       (* the static [Resources::AIE] *)
  script : list Z;           (* answers of the hardware and the kernel, in call order *)
  errno : Z;
  trace : list Event;        (* calls made so far, oldest first *)
}.

Inductive exn :=
| xrt_core_error (code : Z) (what : string)
| std_out_of_range.

Inductive outcome (A : Type) :=
| Returns (a : A) (w : World)
| Throws (e : exn) (w : World)
| Undefined                  (* the C++ standard gives the program no meaning *)
| Stalled (w : World).       (* the script has no answer left: still polling *)

Arguments Returns {A} a w.
Arguments Throws {A} e w.
Arguments Undefined {A}.
Arguments Stalled {A} w.

Definition M (A : Type) : Type := World -> outcome A.

#[global] Instance M_ret : MRet M := fun A a w => Returns a w.

#[global] Instance M_bind : MBind M := fun A B k m w =>
  match m w with
  | Returns a w' => k a w'
  | Throws e w' => Throws e w'
  | Undefined => Undefined
  | Stalled w' => Stalled w'
  end.

Definition throw {A} (e : exn) : M A := fun w => Throws e w.
Definition undefined {A} : M A := fun _ => Undefined.
Definition stalled {A} : M A := fun w => Stalled w.

Definition get_aie : M Aie := fun w => Returns (aie w) w.
Definition get_pool : M ResourcePool := fun w => Returns (pool w) w.
Definition get_errno : M Z := fun w => Returns (errno w) w.

Definition put_aie (a : Aie) : M unit := fun w =>
  Returns tt {| aie := a; pool := pool w; script := script w;
                errno := errno w; trace := trace w |}.

Definition put_pool (p : ResourcePool) : M unit := fun w =>
  Returns tt {| aie := aie w; pool := p; script := script w;
                errno := errno w; trace := trace w |}.

(** A call that answers nothing the caller looks at. *)
Definition call (e : Event) : M unit := fun w =>
  Returns tt {| aie := aie w; pool := pool w; script := script w;
                errno := errno w; trace := trace w ++ [e] |}.

(** A call whose answer the caller reads: the next entry of the script. *)
Definition ask (e : Event) : M Z := fun w =>
  match script w with
  | [] => Stalled w
  | a :: rest =>
      Returns a {| aie := aie w; pool := pool w; script := rest;
                   errno := errno w; trace := trace w ++ [e] |}
  end.

(** ** Integer conversions *)

Definition to_size_t (z : Z) : Z := z mod 2 ^ 64.
Definition to_int (z : Z) : Z := (z + 2 ^ 31) mod 2 ^ 32 - 2 ^ 31.
Definition to_u8 (z : Z) : Z := z mod 2 ^ 8.
Definition to_u32 (z : Z) : Z := z mod 2 ^ 32.

(** [v[i]] and [v.at(i)] on a vector or array, the index converted to
    [size_t]. *)
Definition index {A} (v : list A) (i : Z) : option A :=
  v !! Z.to_nat (to_size_t i).

(** ** Field updates *)

Definition with_shim_dma (a : Aie) (v : list ShimDMA) : Aie :=
  {| devInst := devInst a; fd := fd a; gmios := gmios a; plios := plios a;
     numCols := numCols a; shim_dma := v; eventRecords := eventRecords a |}.

Definition with_eventRecords (a : Aie) (v : list EventRecord) : Aie :=
  {| devInst := devInst a; fd := fd a; gmios := gmios a; plios := plios a;
     numCols := numCols a; shim_dma := shim_dma a; eventRecords := v |}.

Definition with_dma_chan (d : ShimDMA) (v : list DMAChannel) : ShimDMA :=
  {| configured := configured d; maxqSize := maxqSize d; dma_chan := v |}.

Definition with_buf_fd (b : BD) (v : Z) : BD :=
  {| bd_num := bd_num b; buf_fd := v; size := size b; vaddr := vaddr b |}.

Definition with_size (b : BD) (v : Z) : BD :=
  {| bd_num := bd_num b; buf_fd := buf_fd b; size := v; vaddr := vaddr b |}.

Definition with_vaddr (b : BD) (v : Z) : BD :=
  {| bd_num := bd_num b; buf_fd := buf_fd b; size := size b; vaddr := v |}.

(** ** The queues of a channel *)

(** [dmap->dma_chan[chan]], read through the pointer [&shim_dma.at(col)]. *)
Definition chan_get (col chan : Z) : M DMAChannel :=
  a ← get_aie;
  match index (shim_dma a) col with
  | Some d =>
      match index (dma_chan d) chan with
      | Some c => mret c
      | None => undefined
      end
  | None => undefined
  end.

Definition chan_put (col chan : Z) (c : DMAChannel) : M unit :=
  a ← get_aie;
  match index (shim_dma a) col with
  | Some d =>
      match index (dma_chan d) chan with
      | Some _ =>
          put_aie (with_shim_dma a
            (<[Z.to_nat (to_size_t col) :=
                 with_dma_chan d (<[Z.to_nat (to_size_t chan) := c]> (dma_chan d))]>
               (shim_dma a)))
      | None => undefined
      end
  | None => undefined
  end.

(** [q.front()]: undefined on an empty queue. *)
Definition front (q : list BD) : M BD :=
  match q with
  | [] => undefined
  | b :: _ => mret b
  end.

(** [q.pop()]. *)
Definition pop (q : list BD) : M (list BD) :=
  match q with
  | [] => undefined
  | _ :: rest => mret rest
  end.

(** [q.push(b)]. *)
Definition push (q : list BD) (b : BD) : list BD := q ++ [b].

Definition pop_idle (col chan : Z) : M unit :=
  c ← chan_get col chan;
  q ← pop (idle_bds c);
  chan_put col chan {| idle_bds := q; pend_bds := pend_bds c |}.

Definition pop_pend (col chan : Z) : M unit :=
  c ← chan_get col chan;
  q ← pop (pend_bds c);
  chan_put col chan {| idle_bds := idle_bds c; pend_bds := q |}.

Definition push_idle (col chan : Z) (b : BD) : M unit :=
  c ← chan_get col chan;
  chan_put col chan {| idle_bds := push (idle_bds c) b; pend_bds := pend_bds c |}.

Definition push_pend (col chan : Z) (b : BD) : M unit :=
  c ← chan_get col chan;
  chan_put col chan {| idle_bds := idle_bds c; pend_bds := push (pend_bds c) b |}.

(** ** The member functions *)

Section Members.

Variable hdr : Headers.

(** [Aie::prepare_bd]; the descriptor is passed by reference, so the model
    answers the descriptor as the function leaves it. *)
Definition prepare_bd (bd : BD) (bo : xrtBufferHandle) : M BD :=
  call (call_prepare_bd bd bo);;
  if AIESIM hdr then mret bd else
  call (xrtBOExport bo);;
  let buf := bo_export bo in
  if buf =? XRT_NULL_BO_EXPORT hdr then
    e ← get_errno;
    throw (xrt_core_error (- e) "Sync AIE Bo: fail to export BO.")
  else
  let bd := with_buf_fd bd buf in
  ret ← ask (ioctl_AIE_ATTACH_DMABUF buf);
  if negb (ret =? 0) then
    e ← get_errno;
    throw (xrt_core_error (- e) "Sync AIE Bo: fail to attach DMA buf.")
  else
  let bosize := bo_size bo in
  let bd := with_size bd bosize in
  addr ← ask (mmap bosize buf);
  mret (with_vaddr bd addr).

(** [Aie::clear_bd]. *)
Definition clear_bd (bd : BD) : M BD :=
  call (call_clear_bd bd);;
  if AIESIM hdr then mret bd else
  call (munmap (vaddr bd) (size bd));;
  let bd := with_vaddr bd 0 in
  ret ← ask (ioctl_AIE_DETACH_DMABUF (buf_fd bd));
  if negb (ret =? 0) then
    e ← get_errno;
    throw (xrt_core_error (- e) "Sync AIE Bo: fail to detach DMA buf.")
  else mret bd.

(** The body both drain loops share:
    [bd = pend_bds.front(); clear_bd(bd); pend_bds.pop(); idle_bds.push(bd);] *)
Definition drain_front (col chan : Z) : M unit :=
  c ← chan_get col chan;
  bd ← front (pend_bds c);
  bd ← clear_bd bd;
  pop_pend col chan;;
  push_idle col chan bd.

(** [for (int i = 0; i < num_comp; ++i)] *)
Fixpoint drain_completed (num_comp : nat) (col chan : Z) : M unit :=
  match num_comp with
  | O => mret tt
  | S n => drain_front col chan;; drain_completed n col chan
  end.

Definition gm_direction (g : gmio_type) : XAie_DmaDirection :=
  if gmio_type_ g =? 0 then DMA_MM2S else DMA_S2MM.

(** [while (dmap->dma_chan[chan].idle_bds.empty())]: every round asks the
    hardware once, so the rounds are bounded by the answers the script
    holds. *)
Fixpoint find_free_bd (rounds : nat) (col chan : Z) (tile : XAie_LocType)
    (pchan : Z) (gmdir : XAie_DmaDirection) : M unit :=
  c ← chan_get col chan;
  match idle_bds c with
  | _ :: _ => mret tt
  | [] =>
      match rounds with
      | O => stalled
      | S rounds =>
          npend ← ask (XAie_DmaGetPendingBdCount tile pchan gmdir);
          a ← get_aie;
          match index (shim_dma a) col with
          | None => undefined
          | Some dmap =>
              let num_comp := maxqSize dmap - to_u8 npend in
              drain_completed (Z.to_nat num_comp) col chan;;
              find_free_bd rounds col chan tile pchan gmdir
          end
      end
  end.

(** The alignment test as the compiler reads it: [!=] binds tighter than
    [&], so the right operand of [&] is the truth value of
    [XAIEDMA_SHIM_TXFER_LEN32_MASK != 0]. *)
Definition size_check (size : Z) : bool :=
  negb (Z.land size (if negb (XAIEDMA_SHIM_TXFER_LEN32_MASK hdr =? 0) then 1 else 0) =? 0).

(** [Aie::submit_sync_bo] *)
Definition submit_sync_bo (bo : xrtBufferHandle) (gmio : gmio_type)
    (dir : xclBOSyncDirection) (size offset : Z) : M unit :=
  match dir with
  | XCL_BO_SYNC_BO_GMIO_TO_AIE =>
      if negb (gmio_type_ gmio =? 0)
      then throw (xrt_core_error (- EINVAL) "Sync BO direction does not match GMIO type")
      else mret tt
  | XCL_BO_SYNC_BO_AIE_TO_GMIO =>
      if negb (gmio_type_ gmio =? 1)
      then throw (xrt_core_error (- EINVAL) "Sync BO direction does not match GMIO type")
      else mret tt
  | XCL_BO_SYNC_BO_OTHER =>
      throw (xrt_core_error (- EINVAL) "Can't sync BO: unknown direction.")
  end;;
  (if size_check size
   then throw (xrt_core_error (- EINVAL) "Sync AIE Bo fails: size is not 32 bits aligned.")
   else mret tt);;
  a ← get_aie;
  match index (shim_dma a) (gmio_shim_col gmio) with
  | None => throw std_out_of_range
  | Some _ =>
      let col := gmio_shim_col gmio in
      let chan := gmio_channel_number gmio in
      let shim_tile := XAie_TileLoc col 0 in
      let gmdir := gm_direction gmio in
      let pchan := to_u32 (CONVERT_LCHANL_TO_PCHANL hdr chan) in
      (* Find a free BD. Busy wait until we get one. *)
      (fun w => find_free_bd (length (script w)) col chan shim_tile pchan gmdir w);;
      c ← chan_get col chan;
      bd ← front (idle_bds c);
      pop_idle col chan;;
      bd ← prepare_bd bd bo;
      (* the length parameter of the driver has 32 bits *)
      call (XAie_DmaSetAddrLen
              (to_size_t ((if AIESIM hdr then bo_address bo else vaddr bd) + offset))
              (to_u32 size));;
      (* Set BD lock *)
      call (XAie_DmaSetLock (bd_num bd) (bd_num bd));;
      call XAie_DmaEnableBd;;
      (* Write BD *)
      call (XAie_DmaWriteBd shim_tile (bd_num bd));;
      (* Enqueue BD *)
      call (XAie_DmaChannelPushBdToQueue shim_tile pchan gmdir (bd_num bd));;
      push_pend col chan bd
  end.

(** [while (XAie_DmaWaitForDone(...) != XAIE_OK);] *)
Fixpoint wait_for_done (rounds : nat) (tile : XAie_LocType) (pchan : Z)
    (gmdir : XAie_DmaDirection) (timeout : Z) : M unit :=
  match rounds with
  | O => stalled
  | S rounds =>
      rc ← ask (XAie_DmaWaitForDone tile pchan gmdir timeout);
      if rc =? 0 then mret tt
      else wait_for_done rounds tile pchan gmdir timeout
  end.

(** [while (!dmap->dma_chan[chan].pend_bds.empty())]: every round pops one
    descriptor, so the length of the queue bounds the rounds. *)
Fixpoint drain_pending (rounds : nat) (col chan : Z) : M unit :=
  c ← chan_get col chan;
  match pend_bds c with
  | [] => mret tt
  | _ :: _ =>
      match rounds with
      | O => stalled
      | S rounds => drain_front col chan;; drain_pending rounds col chan
      end
  end.

(** [Aie::wait_sync_bo]; [col] stands for the pointer [dmap]. *)
Definition wait_sync_bo (col chan : Z) (tile : XAie_LocType)
    (gmdir : XAie_DmaDirection) (timeout : Z) : M unit :=
  (fun w => wait_for_done (length (script w)) tile
              (CONVERT_LCHANL_TO_PCHANL hdr chan) gmdir timeout w);;
  c ← chan_get col chan;
  drain_pending (length (pend_bds c)) col chan.

Definition find_gmio (name : string) (l : list gmio_type) : option gmio_type :=
  List.find (fun it => String.eqb (gmio_name it) name) l.

(** [Aie::sync_bo] *)
Definition sync_bo (bo : xrtBufferHandle) (gmioName : string)
    (dir : xclBOSyncDirection) (size offset : Z) : M unit :=
  a ← get_aie;
  if negb (devInst a)
  then throw (xrt_core_error (- EINVAL) "Can't sync BO: AIE is not initialized")
  else
  match find_gmio gmioName (gmios a) with
  | None => throw (xrt_core_error (- EINVAL) "Can't sync BO: GMIO name not found")
  | Some gmio =>
      submit_sync_bo bo gmio dir size offset;;
      a ← get_aie;
      match index (shim_dma a) (gmio_shim_col gmio) with
      | None => throw std_out_of_range
      | Some _ =>
          let chan := gmio_channel_number gmio in
          let shim_tile := XAie_TileLoc (gmio_shim_col gmio) 0 in
          let gmdir := gm_direction gmio in
          wait_sync_bo (gmio_shim_col gmio) chan shim_tile gmdir 0
      end
  end.

(** [Aie::sync_bo_nb] *)
Definition sync_bo_nb (bo : xrtBufferHandle) (gmioName : string)
    (dir : xclBOSyncDirection) (size offset : Z) : M unit :=
  a ← get_aie;
  if negb (devInst a)
  then throw (xrt_core_error (- EINVAL) "Can't sync BO: AIE is not initialized")
  else
  match find_gmio gmioName (gmios a) with
  | None => throw (xrt_core_error (- EINVAL) "Can't sync BO: GMIO name not found")
  | Some gmio => submit_sync_bo bo gmio dir size offset
  end.

(** [Aie::wait_gmio] *)
Definition wait_gmio (gmioName : string) : M unit :=
  a ← get_aie;
  if negb (devInst a)
  then throw (xrt_core_error (- EINVAL) "Can't wait GMIO: AIE is not initialized")
  else
  match find_gmio gmioName (gmios a) with
  | None => throw (xrt_core_error (- EINVAL) "Can't wait GMIO: GMIO name not found")
  | Some gmio =>
      match index (shim_dma a) (gmio_shim_col gmio) with
      | None => throw std_out_of_range
      | Some _ =>
          let chan := gmio_channel_number gmio in
          let shim_tile := XAie_TileLoc (gmio_shim_col gmio) 0 in
          let gmdir := gm_direction gmio in
          wait_sync_bo (gmio_shim_col gmio) chan shim_tile gmdir 0
      end
  end.

(** *** Profiling *)

Definition with_shimTiles (p : ResourcePool) (v : list PLModule) : ResourcePool :=
  {| shimTiles := v; aieTiles := aieTiles p |}.

Definition with_aieTiles (p : ResourcePool) (v : list (list CoreModule)) : ResourcePool :=
  {| shimTiles := shimTiles p; aieTiles := v |}.

(** Modelled from the spec:
    [Resources::AIE::getShimTile(col)->plModule.requestStreamEventPort(handle)]. *)
Definition plModule_requestStreamEventPort (col handle : Z) : M Z :=
  call (requestStreamEventPort col handle);;
  p ← get_pool;
  match index (shimTiles p) col with
  | None => undefined
  | Some t =>
      match requestResource (pl_streamEventPorts t) handle with
      | None => mret (-1)
      | Some (i, slots) =>
          put_pool (with_shimTiles p
            (<[Z.to_nat (to_size_t col) :=
                 {| pl_performanceCounters := pl_performanceCounters t;
                    pl_streamEventPorts := slots |}]> (shimTiles p)));;
          mret (Z.of_nat i)
      end
  end.

(** Modelled from the spec:
    [Resources::AIE::getShimTile(col)->plModule.requestPerformanceCounter(handle)]. *)
Definition plModule_requestPerformanceCounter (col handle : Z) : M Z :=
  call (requestPerformanceCounter col handle);;
  p ← get_pool;
  match index (shimTiles p) col with
  | None => undefined
  | Some t =>
      match requestResource (pl_performanceCounters t) handle with
      | None => mret (-1)
      | Some (i, slots) =>
          put_pool (with_shimTiles p
            (<[Z.to_nat (to_size_t col) :=
                 {| pl_performanceCounters := slots;
                    pl_streamEventPorts := pl_streamEventPorts t |}]> (shimTiles p)));;
          mret (Z.of_nat i)
      end
  end.

(** Modelled from the spec:
    [Resources::AIE::getShimTile(col)->plModule.releasePerformanceCounter(handle, id)]. *)
Definition plModule_releasePerformanceCounter (at_ : XAie_LocType) (handle counter : Z)
  : M unit :=
  call (releasePerformanceCounter pl_module at_ handle counter);;
  p ← get_pool;
  match index (shimTiles p) (Col at_) with
  | None => undefined
  | Some t =>
      put_pool (with_shimTiles p
        (<[Z.to_nat (to_size_t (Col at_)) :=
             {| pl_performanceCounters :=
                  releaseResource (pl_performanceCounters t) handle counter;
                pl_streamEventPorts := pl_streamEventPorts t |}]> (shimTiles p)))
  end.

(** Modelled from the spec:
    [Resources::AIE::getShimTile(col)->plModule.releaseStreamEventPort(handle, id)]. *)
Definition plModule_releaseStreamEventPort (col handle port : Z) : M unit :=
  call (releaseStreamEventPort col handle port);;
  p ← get_pool;
  match index (shimTiles p) col with
  | None => undefined
  | Some t =>
      put_pool (with_shimTiles p
        (<[Z.to_nat (to_size_t col) :=
             {| pl_performanceCounters := pl_performanceCounters t;
                pl_streamEventPorts :=
                  releaseResource (pl_streamEventPorts t) handle port |}]> (shimTiles p)))
  end.

(** Modelled from the spec:
    [Resources::AIE::getAIETile(col, row)->coreModule.releasePerformanceCounter(handle, id)]. *)
Definition coreModule_releasePerformanceCounter (at_ : XAie_LocType) (col row handle counter : Z)
  : M unit :=
  call (releasePerformanceCounter core_module at_ handle counter);;
  p ← get_pool;
  match index (aieTiles p) col with
  | None => undefined
  | Some column =>
      match index column row with
      | None => undefined
      | Some t =>
          put_pool (with_aieTiles p
            (<[Z.to_nat (to_size_t col) :=
                 <[Z.to_nat (to_size_t row) :=
                     {| core_performanceCounters :=
                          releaseResource (core_performanceCounters t) handle counter |}]>
                   column]> (aieTiles p)))
      end
  end.

(** The lookup of [port1_name] among the PLIOs: by name, and when no name
    matches, by logical name. *)
Definition find_plio (name : string) (l : list plio_type) : option plio_type :=
  match List.find (fun it => String.eqb (plio_name it) name) l with
  | Some p => Some p
  | None => List.find (fun it => String.eqb (plio_logical_name it) name) l
  end.

(** [Aie::start_profiling] from [int handleId = eventRecords.size();] on. *)
Definition acquire_and_record (option : Z) (shim_tile : XAie_LocType)
    (mode : XAie_StrmPortIntf) (stream_id : Z) : M Z :=
  a ← get_aie;
  let handleId := to_int (Z.of_nat (length (eventRecords a))) in
  eventPortId ← plModule_requestStreamEventPort (Col shim_tile) handleId;
  counterId ← plModule_requestPerformanceCounter (Col shim_tile) handleId;
  if (0 <=? counterId) && (0 <=? eventPortId) then
    call (XAie_EventSelectStrmPort shim_tile (to_u8 eventPortId) mode stream_id);;
    call (XAie_PerfCounterControlSet shim_tile (to_u8 counterId) eventPortId);;
    a ← get_aie;
    put_aie (with_eventRecords a (eventRecords a ++
      [{| option_ := option;
          acquiredResources :=
            [ {| loc := shim_tile; module := pl_module;
                 resource := performance_counter; id := to_size_t counterId |};
              {| loc := shim_tile; module := pl_module;
                 resource := stream_switch_event_port; id := to_size_t eventPortId |} ] |}]));;
    mret handleId
  else
    (if 0 <=? counterId
     then plModule_releasePerformanceCounter shim_tile handleId counterId
     else mret tt);;
    (if 0 <=? eventPortId
     then plModule_releaseStreamEventPort (Col shim_tile) handleId eventPortId
     else mret tt);;
    throw (xrt_core_error (- EAGAIN)
      "Can't start profiling: Failed to request performance counter or stream switch event port resources.").

(** [Aie::start_profiling]; [port2_name] and [value] are not used. *)
Definition start_profiling (option : Z) (port1_name port2_name : string) (value : Z)
  : M Z :=
  a ← get_aie;
  if negb (devInst a)
  then throw (xrt_core_error (- EINVAL) "Start profiling fails: AIE is not initialized")
  else
  if negb (option =? IO_STREAM_RUNNING_EVENT_COUNT hdr)
  then throw (xrt_core_error (- EINVAL) "Start profiling fails: unknown profiling option.")
  else
  match find_gmio port1_name (gmios a), find_plio port1_name (plios a) with
  | None, None =>
      throw (xrt_core_error (- EINVAL)
        ("Can't start profiling: port name '" ++ port1_name ++ "' not found"))
  | Some _, Some _ =>
      throw (xrt_core_error (- EINVAL)
        ("Can't start profiling: ambiguous port name '" ++ port1_name ++ "'"))
  | Some gmio, None =>
      acquire_and_record option (XAie_TileLoc (gmio_shim_col gmio) 0)
        (* type 0: GM->AIE; type 1: AIE->GM *)
        (if gmio_type_ gmio =? 1 then XAIE_STRMSW_MASTER else XAIE_STRMSW_SLAVE)
        (to_u8 (gmio_stream_id gmio))
  | None, Some plio =>
      acquire_and_record option (XAie_TileLoc (plio_shim_col plio) 0)
        (if plio_is_master plio then XAIE_STRMSW_MASTER else XAIE_STRMSW_SLAVE)
        (to_u8 (plio_stream_id plio))
  end.

(** [Aie::read_profiling]: the 64-bit result starts as zero and the driver
    writes the counter into its low 32 bits. *)
Definition read_profiling (phdl : Z) : M Z :=
  a ← get_aie;
  match index (eventRecords a) phdl with
  | None => undefined
  | Some record =>
      match index (acquiredResources record) 0 with
      | None => undefined
      | Some acquiredResource =>
          if decide (resource acquiredResource = performance_counter) then
            value ← ask (XAie_PerfCounterGet (loc acquiredResource)
                           (module acquiredResource) (to_u8 (id acquiredResource)));
            mret (to_u32 value)
          else
            throw (xrt_core_error (- EAGAIN)
              "Can't read profiling: The acquired resources order does not match the profiling option.")
      end
  end.

(** The body of the loop of [Aie::stop_profiling]. *)
Definition release_acquired (phdl : Z) (acquiredResource : AcquiredResource) : M unit :=
  let at_ := loc acquiredResource in
  if decide (resource acquiredResource = performance_counter) then
    let counterId := to_u8 (id acquiredResource) in
    call (XAie_PerfCounterReset at_ (module acquiredResource) counterId);;
    call (XAie_PerfCounterResetControlReset at_ (module acquiredResource) counterId);;
    if decide (module acquiredResource = pl_module) then
      plModule_releasePerformanceCounter at_ phdl counterId
    else if decide (module acquiredResource = core_module) then
      coreModule_releasePerformanceCounter at_ (Col at_) (Row at_ - 1) phdl counterId
    else mret tt
  else if decide (resource acquiredResource = stream_switch_event_port) then
    let eventPortId := to_u8 (id acquiredResource) in
    call (XAie_EventSelectStrmPortReset at_ eventPortId);;
    if decide (module acquiredResource = pl_module) then
      plModule_releaseStreamEventPort (Col at_) phdl eventPortId
    else mret tt
  else mret tt.

(** [for (int i = 0; i < acquiredResourcesForThisHandle.size(); i++)] *)
Fixpoint release_all (phdl : Z) (l : list AcquiredResource) : M unit :=
  match l with
  | [] => mret tt
  | r :: rest => release_acquired phdl r;; release_all phdl rest
  end.

(** [Aie::stop_profiling]; the comparison with [size()] is unsigned. *)
Definition stop_profiling (phdl : Z) : M unit :=
  a ← get_aie;
  if to_size_t phdl <? Z.of_nat (length (eventRecords a)) then
    match index (eventRecords a) phdl with
    | None => undefined
    | Some record =>
        if 0 <=? option_ record
        then release_all phdl (acquiredResources record)
        else mret tt
    end
  else mret tt.

End Members.

(** ** Views of the state used in the statements *)

Local Close Scope string_scope.

Definition with_aie (w : World) (a : Aie) : World :=
  {| aie := a; pool := pool w; script := script w; errno := errno w; trace := trace w |}.

Definition with_pool (w : World) (p : ResourcePool) : World :=
  {| aie := aie w; pool := p; script := script w; errno := errno w; trace := trace w |}.

Definition logged (w : World) (evs : list Event) : World :=
  {| aie := aie w; pool := pool w; script := script w; errno := errno w;
     trace := trace w ++ evs |}.

Definition answered (w : World) (rest : list Z) (evs : list Event) : World :=
  {| aie := aie w; pool := pool w; script := rest; errno := errno w;
     trace := trace w ++ evs |}.

Definition chan_of (a : Aie) (col chan : Z) : option DMAChannel :=
  match index (shim_dma a) col with
  | Some d => index (dma_chan d) chan
  | None => None
  end.

Definition set_chan (a : Aie) (col chan : Z) (c : DMAChannel) : Aie :=
  match index (shim_dma a) col with
  | Some d =>
      with_shim_dma a
        (<[Z.to_nat (to_size_t col) :=
             with_dma_chan d (<[Z.to_nat (to_size_t chan) := c]> (dma_chan d))]>
           (shim_dma a))
  | None => a
  end.

(** The number of descriptors a channel holds. *)
Definition slots (c : DMAChannel) : nat :=
  (length (idle_bds c) + length (pend_bds c))%nat.

(** The descriptor as [clear_bd] leaves it. *)
Definition unbound (hdr : Headers) (bd : BD) : BD :=
  if AIESIM hdr then bd else with_vaddr bd 0.

(** The descriptors handed to [clear_bd], oldest first. *)
Definition cleared (t : list Event) : list BD :=
  omap (fun e => match e with call_clear_bd bd => Some bd | _ => None end) t.

(** Whatever becomes of [clear_bd], it touches neither the object nor the
    pool. *)
Definition same_object (w w' : World) : Prop :=
  aie w' = aie w /\ pool w' = pool w /\ errno w' = errno w.

(** A channel after its [n] oldest pending descriptors went back to idle. *)
Definition drained (hdr : Headers) (c : DMAChannel) (n : nat) : DMAChannel :=
  {| idle_bds := idle_bds c ++ map (unbound hdr) (take n (pend_bds c));
     pend_bds := drop n (pend_bds c) |}.


(** The direction of a transfer agrees with the type of the GMIO: the
    [switch] of [submit_sync_bo] falls through. *)
Definition direction_matches (dir : xclBOSyncDirection) (g : gmio_type) : bool :=
  match dir with
  | XCL_BO_SYNC_BO_GMIO_TO_AIE => gmio_type_ g =? 0
  | XCL_BO_SYNC_BO_AIE_TO_GMIO => gmio_type_ g =? 1
  | XCL_BO_SYNC_BO_OTHER => false
  end.

(** The pool with the PL module of one shim tile replaced. *)
Definition set_shim (p : ResourcePool) (col : Z) (t : PLModule) : ResourcePool :=
  with_shimTiles p (<[Z.to_nat (to_size_t col) := t]> (shimTiles p)).

(** The tile [start_profiling] monitors for a port name that one table, and
    only one, knows. *)
Definition monitored_tile (a : Aie) (name : string) : option XAie_LocType :=
  match find_gmio name (gmios a), find_plio name (plios a) with
  | Some gmio, None => Some (XAie_TileLoc (gmio_shim_col gmio) 0)
  | None, Some plio => Some (XAie_TileLoc (plio_shim_col plio) 0)
  | _, _ => None
  end.

(** The handle the next session gets: [int handleId = eventRecords.size()]. *)
Definition next_handle (a : Aie) : Z :=
  to_int (Z.of_nat (length (eventRecords a))).

(** The record [start_profiling] appends for counter [counter] and event
    port [port]. *)
Definition session_record (option : Z) (tile : XAie_LocType) (counter port : nat)
  : EventRecord :=
  {| option_ := option;
     acquiredResources :=
       [ {| loc := tile; module := pl_module; resource := performance_counter;
            id := to_size_t (Z.of_nat counter) |};
         {| loc := tile; module := pl_module; resource := stream_switch_event_port;
            id := to_size_t (Z.of_nat port) |} ] |}.

(** The calls of a start that does not get both resources: the two
    requests, then the release of what was granted. *)
Definition unwinding (tile : XAie_LocType) (handle : Z)
    (port counter : option (nat * list (option Z))) : list Event :=
  [requestStreamEventPort (Col tile) handle; requestPerformanceCounter (Col tile) handle]
  ++ match counter with
     | Some (j, _) => [releasePerformanceCounter pl_module tile handle (Z.of_nat j)]
     | None => []
     end
  ++ match port with
     | Some (i, _) => [releaseStreamEventPort (Col tile) handle (Z.of_nat i)]
     | None => []
     end.

(** The failure of a start that does not get both resources. *)
Definition exhausted : exn :=
  xrt_core_error (- EAGAIN)
    "Can't start profiling: Failed to request performance counter or stream switch event port resources.".

(** The failure of [read_profiling] on a record that does not begin with a
    performance counter. *)
Definition order_mismatch : exn :=
  xrt_core_error (- EAGAIN)
    "Can't read profiling: The acquired resources order does not match the profiling option.".

(** The integer an [xrt_core::error] carries. *)
Definition error_code (e : exn) : option Z :=
  match e with
  | xrt_core_error code _ => Some code
  | std_out_of_range => None
  end.

(** A computation that leaves the fields of the object as they are,
    however it ends. *)
Definition keeps_object {A} (m : M A) : Prop :=
  forall w,
    match m w with
    | Returns _ w' | Throws _ w' | Stalled w' => aie w' = aie w
    | Undefined => True
    end.

(** The calls of the profiling interface, and the world a sequence of them
    leaves behind, whether the calls return or throw. *)
Inductive profiling_call :=
| Start (option : Z) (port1_name port2_name : string) (value : Z)
| Read (phdl : Z)
| Stop (phdl : Z).

Definition world_after {A} (o : outcome A) : option World :=
  match o with
  | Returns _ w | Throws _ w | Stalled w => Some w
  | Undefined => None
  end.

Definition run_call (hdr : Headers) (c : profiling_call) (w : World) : option World :=
  match c with
  | Start option port1_name port2_name value =>
      world_after (start_profiling hdr option port1_name port2_name value w)
  | Read phdl => world_after (read_profiling phdl w)
  | Stop phdl => world_after (stop_profiling phdl w)
  end.

Fixpoint run_calls (hdr : Headers) (cs : list profiling_call) (w : World) : option World :=
  match cs with
  | [] => Some w
  | c :: cs =>
      match run_call hdr c w with
      | Some w' => run_calls hdr cs w'
      | None => None
      end
  end.

(** The calls one round of the loop of [stop_profiling] makes. *)
Definition release_calls (phdl : Z) (r : AcquiredResource) : list Event :=
  match resource r with
  | performance_counter =>
      [ XAie_PerfCounterReset (loc r) (module r) (to_u8 (id r));
        XAie_PerfCounterResetControlReset (loc r) (module r) (to_u8 (id r)) ] ++
      match module r with
      | pl_module => [releasePerformanceCounter pl_module (loc r) phdl (to_u8 (id r))]
      | core_module => [releasePerformanceCounter core_module (loc r) phdl (to_u8 (id r))]
      | memory_module => []
      end
  | stream_switch_event_port =>
      [ XAie_EventSelectStrmPortReset (loc r) (to_u8 (id r)) ] ++
      match module r with
      | pl_module => [releaseStreamEventPort (Col (loc r)) phdl (to_u8 (id r))]
      | _ => []
      end
  | other_resource => []
  end.

(** The calls [stop_profiling] makes for a handle, read off the session
    list. *)
Definition stop_trace (a : Aie) (phdl : Z) : list Event :=
  if to_size_t phdl <? Z.of_nat (length (eventRecords a)) then
    match index (eventRecords a) phdl with
    | Some record =>
        if 0 <=? option_ record
        then flat_map (release_calls phdl) (acquiredResources record)
        else []
    | None => []
    end
  else [].

(** ** A sample array *)

(** The hardware build.  [aie.h] gives the transfer-length mask as 3 (the
    diagnostic of [submit_sync_bo] reads "size is not 32 bits aligned") and
    maps the logical channels 2 and 3 to the physical channels 0 and 1;
    [IO_STREAM_RUNNING_EVENT_COUNT] is the fourth profiling option and
    [XRT_NULL_BO_EXPORT] is [-1]. *)
Definition hardware : Headers :=
  {| AIESIM := false;
     XAIEDMA_SHIM_TXFER_LEN32_MASK := 3;
     CONVERT_LCHANL_TO_PCHANL := fun l => if 1 <? l then l - 2 else l;
     IO_STREAM_RUNNING_EVENT_COUNT := 3;
     XRT_NULL_BO_EXPORT := -1 |}.

(** The simulation build. *)
Definition simulation : Headers :=
  {| AIESIM := true;
     XAIEDMA_SHIM_TXFER_LEN32_MASK := 3;
     CONVERT_LCHANL_TO_PCHANL := fun l => if 1 <? l then l - 2 else l;
     IO_STREAM_RUNNING_EVENT_COUNT := 3;
     XRT_NULL_BO_EXPORT := -1 |}.

(** A descriptor as the constructor makes it: only the number is set. *)
Definition fresh_bd (n : Z) : BD :=
  {| bd_num := n; buf_fd := 0; size := 0; vaddr := 0 |}.

(** One GMIO toward the array on channel 0 of shim column 0. *)
Definition gmio0 : gmio_type :=
  {| gmio_name := "gmio0"%string; gmio_type_ := 0; gmio_shim_col := 0;
     gmio_channel_number := 0; gmio_stream_id := 2; gmio_burst_len := 4 |}.

(** One PLIO on the same column, known by its name and by a logical name. *)
Definition plio0 : plio_type :=
  {| plio_name := "plio0"%string; plio_logical_name := "out0"%string; plio_shim_col := 0;
     plio_stream_id := 5; plio_is_master := true |}.

(** The object after construction: the four descriptors of channel 0 idle,
    no session recorded. *)
Definition sample_aie : Aie :=
  {| devInst := true; fd := 3; gmios := [gmio0]; plios := [plio0]; numCols := 1;
     shim_dma :=
       [ {| configured := true; maxqSize := 4;
            dma_chan :=
              [ {| idle_bds := [fresh_bd 0; fresh_bd 1; fresh_bd 2; fresh_bd 3];
                   pend_bds := [] |};
                {| idle_bds := []; pend_bds := [] |};
                {| idle_bds := []; pend_bds := [] |};
                {| idle_bds := []; pend_bds := [] |} ] |} ];
     eventRecords := [] |}.

(** A pool with two counters and two event ports on the shim tile. *)
Definition sample_pool : ResourcePool :=
  {| shimTiles := [ {| pl_performanceCounters := [None; None];
                       pl_streamEventPorts := [None; None] |} ];
     aieTiles := [] |}.

Definition sample_world (answers : list Z) : World :=
  {| aie := sample_aie; pool := sample_pool; script := answers; errno := 5;
     trace := [] |}.

(** A buffer of 256 bytes that exports as descriptor 7. *)
Definition sample_bo : xrtBufferHandle :=
  {| bo_export := 7; bo_size := 256; bo_address := 65536 |}.

(** A buffer handle the export of which fails. *)
Definition stale_bo : xrtBufferHandle :=
  {| bo_export := -1; bo_size := 256; bo_address := 65536 |}.

(** Two transfers in flight on channel 0: [bd_A] was submitted before
    [bd_B]. *)
Definition bd_A : BD := {| bd_num := 0; buf_fd := 7; size := 256; vaddr := 4096 |}.
Definition bd_B : BD := {| bd_num := 1; buf_fd := 8; size := 128; vaddr := 8192 |}.

Definition busy_channel : DMAChannel :=
  {| idle_bds := [fresh_bd 2; fresh_bd 3]; pend_bds := [bd_A; bd_B] |}.

Definition busy_world (answers : list Z) : World :=
  {| aie := set_chan sample_aie 0 0 busy_channel; pool := sample_pool;
     script := answers; errno := 5; trace := [] |}.

(** The port name ["gmio0"] is also the logical name of a PLIO. *)
Definition ambiguous_world : World :=
  {| aie := {| devInst := true; fd := 3; gmios := [gmio0];
               plios := [ plio0;
                          {| plio_name := "plio1"%string; plio_logical_name := "gmio0"%string;
                             plio_shim_col := 0; plio_stream_id := 6;
                             plio_is_master := false |} ];
               numCols := 1; shim_dma := shim_dma sample_aie; eventRecords := [] |};
     pool := sample_pool; script := []; errno := 5; trace := [] |}.

(** Both counters of the shim tile are held by the sessions 7 and 8 of
    another client; the event ports are free. *)
Definition no_counter_world : World :=
  {| aie := sample_aie;
     pool := {| shimTiles := [ {| pl_performanceCounters := [Some 7; Some 8];
                                  pl_streamEventPorts := [None; None] |} ];
                aieTiles := [] |};
     script := []; errno := 5; trace := [] |}.

(** One session recorded as [start_profiling] records it, and one record
    that begins with the event port. *)
Definition recorded_world (answers : list Z) : World :=
  {| aie := with_eventRecords sample_aie
              [ session_record 3 (XAie_TileLoc 0 0) 0 0;
                {| option_ := 3;
                   acquiredResources :=
                     [ {| loc := XAie_TileLoc 0 0; module := pl_module;
                          resource := stream_switch_event_port; id := 1 |};
                       {| loc := XAie_TileLoc 0 0; module := pl_module;
                          resource := performance_counter; id := 1 |} ] |} ];
     pool := {| shimTiles := [ {| pl_performanceCounters := [Some 0; Some 1];
                                  pl_streamEventPorts := [Some 0; Some 1] |} ];
                aieTiles := [] |};
     script := answers; errno := 5; trace := [] |}.

(** The sample array after [start_profiling] on ["gmio0"] returned
    handle 0. *)
Definition session_world : World :=
  {| aie := with_eventRecords sample_aie [session_record 3 (XAie_TileLoc 0 0) 0 0];
     pool := {| shimTiles := [ {| pl_performanceCounters := [Some 0; None];
                                  pl_streamEventPorts := [Some 0; None] |} ];
                aieTiles := [] |};
     script := []; errno := 5;
     trace := [ requestStreamEventPort 0 0; requestPerformanceCounter 0 0;
                XAie_EventSelectStrmPort (XAie_TileLoc 0 0) 0 XAIE_STRMSW_SLAVE 2;
                XAie_PerfCounterControlSet (XAie_TileLoc 0 0) 0 0 ] |}.

(** What [stop_profiling] does for the session of handle 0 on the sample
    array. *)
Definition stop_calls : list Event :=
  [ XAie_PerfCounterReset (XAie_TileLoc 0 0) pl_module 0;
    XAie_PerfCounterResetControlReset (XAie_TileLoc 0 0) pl_module 0;
    releasePerformanceCounter pl_module (XAie_TileLoc 0 0) 0 0;
    XAie_EventSelectStrmPortReset (XAie_TileLoc 0 0) 0;
    releaseStreamEventPort 0 0 0 ].

(** ** Further views and samples *)

Definition with_devInst (a : Aie) (v : bool) : Aie :=
  {| devInst := v; fd := fd a; gmios := gmios a; plios := plios a;
     numCols := numCols a; shim_dma := shim_dma a; eventRecords := eventRecords a |}.

(** The diagnostic of the [switch] of [submit_sync_bo] for a direction that
    does not fall through. *)
Definition direction_diagnostic (dir : xclBOSyncDirection) : string :=
  match dir with
  | XCL_BO_SYNC_BO_OTHER => "Can't sync BO: unknown direction."
  | _ => "Sync BO direction does not match GMIO type"
  end.

(** The descriptor [bd] bound to the buffer [bo], mapped at [addr], as
    [prepare_bd] of the hardware build leaves it. *)
Definition bound_to (bd : BD) (bo : xrtBufferHandle) (addr : Z) : BD :=
  {| bd_num := bd_num bd; buf_fd := bo_export bo; size := bo_size bo; vaddr := addr |}.

(** The calls of [submit_sync_bo] after [prepare_bd], for the descriptor
    numbered [n], the address [addr] and the length [len]. *)
Definition queueing_calls (hdr : Headers) (gmio : gmio_type) (n addr len : Z)
  : list Event :=
  [ XAie_DmaSetAddrLen addr len;
    XAie_DmaSetLock n n;
    XAie_DmaEnableBd;
    XAie_DmaWriteBd (XAie_TileLoc (gmio_shim_col gmio) 0) n;
    XAie_DmaChannelPushBdToQueue (XAie_TileLoc (gmio_shim_col gmio) 0)
      (to_u32 (CONVERT_LCHANL_TO_PCHANL hdr (gmio_channel_number gmio)))
      (gm_direction gmio) n ].

(** The calls of the transfer interface, and the world a sequence of them
    leaves behind when every call returns. *)
Inductive dma_call :=
| Sync (bo : xrtBufferHandle) (gmioName : string) (dir : xclBOSyncDirection) (size offset : Z)
| SyncNb (bo : xrtBufferHandle) (gmioName : string) (dir : xclBOSyncDirection) (size offset : Z)
| WaitGmio (gmioName : string).

Definition run_dma_call (hdr : Headers) (c : dma_call) : M unit :=
  match c with
  | Sync bo name dir size offset => sync_bo hdr bo name dir size offset
  | SyncNb bo name dir size offset => sync_bo_nb hdr bo name dir size offset
  | WaitGmio name => wait_gmio hdr name
  end.

Fixpoint run_dma_calls (hdr : Headers) (cs : list dma_call) : M unit :=
  match cs with
  | [] => mret tt
  | c :: cs => run_dma_call hdr c;; run_dma_calls hdr cs
  end.

(** The sample array with all four descriptors of channel 0 in flight. *)
Definition full_channel : DMAChannel :=
  {| idle_bds := [];
     pend_bds := [ {| bd_num := 0; buf_fd := 7; size := 256; vaddr := 4096 |};
                   {| bd_num := 1; buf_fd := 8; size := 256; vaddr := 8192 |};
                   {| bd_num := 2; buf_fd := 9; size := 256; vaddr := 12288 |};
                   {| bd_num := 3; buf_fd := 10; size := 256; vaddr := 16384 |} ] |}.

Definition full_world (answers : list Z) : World :=
  {| aie := set_chan sample_aie 0 0 full_channel; pool := sample_pool;
     script := answers; errno := 5; trace := [] |}.

(** What [start_profiling] monitors for a port name that one table, and
    only one, knows: the shim tile, the side of the stream switch (a GMIO
    of type 1 and a master PLIO are masters) and the stream, cut to 8
    bits. *)
Definition monitored_port (a : Aie) (name : string)
  : option (XAie_LocType * XAie_StrmPortIntf * Z) :=
  match find_gmio name (gmios a), find_plio name (plios a) with
  | Some gmio, None =>
      Some (XAie_TileLoc (gmio_shim_col gmio) 0,
            if gmio_type_ gmio =? 1 then XAIE_STRMSW_MASTER else XAIE_STRMSW_SLAVE,
            to_u8 (gmio_stream_id gmio))
  | None, Some plio =>
      Some (XAie_TileLoc (plio_shim_col plio) 0,
            if plio_is_master plio then XAIE_STRMSW_MASTER else XAIE_STRMSW_SLAVE,
            to_u8 (plio_stream_id plio))
  | _, _ => None
  end.


(** A computation that neither throws nor waits for an answer, and that
    leaves the object and the script as they are when it returns. *)
Definition quiet {A} (m : M A) : Prop :=
  forall w,
    match m w with
    | Returns _ w' => aie w' = aie w /\ script w' = script w /\ errno w' = errno w
    | Undefined => True
    | Throws _ _ | Stalled _ => False
    end.

(** Two PLIOs: the logical name of the first is the name of the second. *)
Definition shadowing_plios : list plio_type :=
  [ {| plio_name := "in0"%string; plio_logical_name := "out1"%string; plio_shim_col := 2;
       plio_stream_id := 1; plio_is_master := false |};
    {| plio_name := "out1"%string; plio_logical_name := "graph.out"%string;
       plio_shim_col := 5; plio_stream_id := 3; plio_is_master := true |} ].

(** The sample array with a null [devInst]. *)
Definition uninitialised_world : World :=
  {| aie := with_devInst sample_aie false; pool := sample_pool; script := [];
     errno := 5; trace := [] |}.

(** ** Construction, reset and [getDevInst] *)

(** What [Aie::Aie] takes from the vendor configuration header and from
    [aie.h], and the pool [Resources::AIE::initialize] sets up for an array
    of that many columns and rows. *)
Record Geometry := {
  XAIE_NUM_COLS : Z;
  XAIE_NUM_ROWS : Z;
  XAIEDMA_SHIM_MAX_NUM_CHANNELS : nat;     (* the length of [dma_chan] *)
  Resources_initialize : Z -> Z -> ResourcePool;
}.

(** [std::to_string] on an integer. *)
Definition to_string (z : Z) : string := NilZero.string_of_int (Z.to_int z).

(** A value a call just made has written through a pointer it was given:
    the next entry of the script. *)
Definition answer : M Z := fun w =>
  match script w with
  | [] => Stalled w
  | a :: rest =>
      Returns a {| aie := aie w; pool := pool w; script := rest;
                   errno := errno w; trace := trace w |}
  end.

Definition with_configured (d : ShimDMA) (v : bool) : ShimDMA :=
  {| configured := v; maxqSize := maxqSize d; dma_chan := dma_chan d |}.

Definition with_maxqSize (d : ShimDMA) (v : Z) : ShimDMA :=
  {| configured := configured d; maxqSize := v; dma_chan := dma_chan d |}.

(** An element [shim_dma.resize] makes. *)
Definition blank_shim_dma (geo : Geometry) : ShimDMA :=
  {| configured := false; maxqSize := 0;
     dma_chan := replicate (XAIEDMA_SHIM_MAX_NUM_CHANNELS geo)
                   {| idle_bds := []; pend_bds := [] |} |}.

(** [for (int i = 0; i < dma->maxqSize; ++i)] of the constructor, [n]
    rounds from [i] on; [None] when [dma_chan[chan]] is out of bounds.  The
    fields of a descriptor the constructor does not set read as zero. *)
Fixpoint allocate_bds (n : nat) (i chan : Z) (dma : ShimDMA) : option ShimDMA :=
  match n with
  | O => Some dma
  | S n =>
      match index (dma_chan dma) chan with
      | None => None
      | Some c =>
          let bd_num := chan * maxqSize dma + i in
          allocate_bds n (i + 1) chan
            (with_dma_chan dma
               (<[Z.to_nat (to_size_t chan) :=
                    {| idle_bds := push (idle_bds c) (fresh_bd bd_num);
                       pend_bds := pend_bds c |}]> (dma_chan dma)))
      end
  end.

Section Construction.

Variable hdr : Headers.
Variable geo : Geometry.

(** The body of [for (auto& gmio : gmios)] of the constructor. *)
Definition setup_gmio (numCols : Z) (shim : list ShimDMA) (gmio : gmio_type)
  : M (list ShimDMA) :=
  if numCols <? gmio_shim_col gmio then
    throw (xrt_core_error (- EINVAL)
             ("GMIO " ++ gmio_name gmio ++ " shim column " ++
              to_string (gmio_shim_col gmio) ++ " does not exist")%string)
  else
  match index shim (gmio_shim_col gmio) with
  | None => throw std_out_of_range
  | Some dma =>
      let shimTile := XAie_TileLoc (gmio_shim_col gmio) 0 in
      dma ← (if negb (configured dma)
             then call (XAie_DmaDescInit shimTile);; mret (with_configured dma true)
             else mret dma);
      let chan := gmio_channel_number gmio in
      (* type 0: GM->AIE; type 1: AIE->GM *)
      let dir := gm_direction gmio in
      let pch := to_u8 (CONVERT_LCHANL_TO_PCHANL hdr chan) in
      call (XAie_DmaChannelEnable shimTile pch dir);;
      call (XAie_DmaSetAxi 0 (gmio_burst_len gmio) 0 0 0);;
      maxq ← ask (XAie_DmaGetMaxQueueSize shimTile);
      let dma := with_maxqSize dma (to_u8 maxq) in
      match allocate_bds (Z.to_nat (maxqSize dma)) 0 chan dma with
      | None => undefined
      | Some dma => mret (<[Z.to_nat (to_size_t (gmio_shim_col gmio)) := dma]> shim)
      end
  end.

Fixpoint setup_gmios (numCols : Z) (shim : list ShimDMA) (l : list gmio_type)
  : M (list ShimDMA) :=
  match l with
  | [] => mret shim
  | gmio :: l => shim ← setup_gmio numCols shim gmio; setup_gmios numCols shim l
  end.

(** [Aie::Aie]: the object it builds from the PLIOs and GMIOs of the
    device ([get_plios], [get_gmios]).  [XAie_SetupConfig] is a macro that
    fills the configuration and calls nothing.  The simulation build asks
    for no partition descriptor and leaves [fd] unset; nothing reads it
    there, and it reads as zero here.  [XAIE_NUM_COLS] is a count of
    columns, so [shim_dma.resize] is given a number that is not negative. *)
Definition Aie_ctor (device_plios : list plio_type) (device_gmios : list gmio_type)
  : M Aie :=
  fd ← (if AIESIM hdr then mret 0
        else
          (* partition_id = 1, uid = 0 *)
          ret ← ask (getPartitionFd 1 0);
          if negb (ret =? 0)
          then throw (xrt_core_error ret "Create AIE failed. Can not get AIE fd")
          else answer);             (* aiefd.fd *)
  rc ← ask XAie_CfgInitialize;
  if negb (rc =? 0)
  then throw (xrt_core_error (- EINVAL)
                ("Failed to initialize AIE configuration: " ++ to_string rc)%string)
  else
  let numCols := XAIE_NUM_COLS geo in
  shim ← setup_gmios numCols (replicate (Z.to_nat numCols) (blank_shim_dma geo))
           device_gmios;
  call (Resources_AIE_initialize (XAIE_NUM_COLS geo) (XAIE_NUM_ROWS geo));;
  put_pool (Resources_initialize geo (XAIE_NUM_COLS geo) (XAIE_NUM_ROWS geo));;
  mret {| devInst := true; fd := fd; gmios := device_gmios; plios := device_plios;
          numCols := numCols; shim_dma := shim; eventRecords := [] |}.

(** [Aie::getDevInst] *)
Definition getDevInst : M unit :=
  a ← get_aie;
  if negb (devInst a)
  then throw (xrt_core_error (- EINVAL) "AIE is not initialized")
  else mret tt.

(** [Aie::reset]; nothing in the simulation build. *)
Definition reset : M unit :=
  if AIESIM hdr then mret tt else
  a ← get_aie;
  if negb (devInst a)
  then throw (xrt_core_error (- EINVAL) "Can't Reset AIE: AIE is not initialized")
  else
  call XAie_Finish;;
  put_aie (with_devInst a false);;
  (* partition_id = 1 *)
  ret ← ask (resetAIEArray 1);
  if negb (ret =? 0)
  then throw (xrt_core_error ret "Fail to reset AIE Array")
  else mret tt.

End Construction.

(** The descriptors a GMIO on channel [chan] gets when the queue size is
    [maxq]. *)
Definition numbered (chan maxq : Z) : list BD :=
  (fun i => fresh_bd (chan * maxq + i)) <$> seqZ 0 maxq.

(** The idle queue of channel [chan] of column [col] after the constructor
    went through the GMIOs [l]. *)
Definition idle_after (l : list gmio_type) (maxq col chan : Z) : list BD :=
  flat_map (fun g => if (gmio_shim_col g =? col) && (gmio_channel_number g =? chan)
                     then numbered chan maxq else []) l.

(** A geometry for the samples: 50 columns, 9 rows, 4 channels for a shim
    DMA. *)
Definition sample_geometry : Geometry :=
  {| XAIE_NUM_COLS := 50; XAIE_NUM_ROWS := 9; XAIEDMA_SHIM_MAX_NUM_CHANNELS := 4;
     Resources_initialize := fun _ _ => sample_pool |}.

(** A world after the collaborators gave answers, [rest] being left. *)
Definition with_script (w : World) (rest : list Z) : World :=
  {| aie := aie w; pool := pool w; script := rest; errno := errno w; trace := trace w |}.

(** Channel [j] of the shim DMA of column [i]. *)
Definition grid (shim : list ShimDMA) (i j : nat) : option DMAChannel :=
  match shim !! i with Some d => dma_chan d !! j | None => None end.

(** The number of GMIOs on channel [chan] of column [col]. *)
Definition users (l : list gmio_type) (col chan : Z) : nat :=
  length (filter (fun g => gmio_shim_col g = col /\ gmio_channel_number g = chan) l).

(** A GMIO on a column of the array and on a channel of its shim DMA. *)
Definition within (geo : Geometry) (g : gmio_type) : Prop :=
  0 <= gmio_shim_col g < XAIE_NUM_COLS geo /\
  0 <= gmio_channel_number g < Z.of_nat (XAIEDMA_SHIM_MAX_NUM_CHANNELS geo).

(** The answers of a construction that meets no failure: the driver grants
    the partition descriptor [fdv] (hardware build), [XAie_CfgInitialize]
    answers [XAIE_OK], and the queue size is [Q] for each of [n] GMIOs. *)
Definition ctor_answers (hdr : Headers) (fdv : Z) (n : nat) (Q : Z) (rest : list Z)
  : list Z :=
  (if AIESIM hdr then [] else [0; fdv]) ++ 0 :: replicate n Q ++ rest.

Definition initial_pool (geo : Geometry) : ResourcePool :=
  Resources_initialize geo (XAIE_NUM_COLS geo) (XAIE_NUM_ROWS geo).

(** The diagnostic of the column check of the constructor. *)
Definition column_diagnostic (g : gmio_type) : string :=
  ("GMIO " ++ gmio_name g ++ " shim column " ++ to_string (gmio_shim_col g) ++
   " does not exist")%string.

(** The driver calls of the constructor for one GMIO; [first] when the shim
    DMA of its column is not configured yet. *)
Definition gmio_calls (hdr : Headers) (first : bool) (g : gmio_type) : list Event :=
  let shimTile := XAie_TileLoc (gmio_shim_col g) 0 in
  (if first then [XAie_DmaDescInit shimTile] else []) ++
  [ XAie_DmaChannelEnable shimTile
      (to_u8 (CONVERT_LCHANL_TO_PCHANL hdr (gmio_channel_number g))) (gm_direction g);
    XAie_DmaSetAxi 0 (gmio_burst_len g) 0 0 0;
    XAie_DmaGetMaxQueueSize shimTile ].

(** The driver calls of the loop over the GMIOs [l], the columns [seen]
    being configured already. *)
Fixpoint setup_calls (hdr : Headers) (seen : list Z) (l : list gmio_type)
  : list Event :=
  match l with
  | [] => []
  | g :: l =>
      gmio_calls hdr (negb (existsb (Z.eqb (gmio_shim_col g)) seen)) g ++
      setup_calls hdr (gmio_shim_col g :: seen) l
  end.

(** The calls of the constructor before the loop. *)
Definition opening_calls (hdr : Headers) : list Event :=
  (if AIESIM hdr then [] else [getPartitionFd 1 0]) ++ [XAie_CfgInitialize].

(** The calls of a construction that returns. *)
Definition construction_calls (hdr : Headers) (geo : Geometry) (l : list gmio_type)
  : list Event :=
  opening_calls hdr ++ setup_calls hdr [] l ++
  [Resources_AIE_initialize (XAIE_NUM_COLS geo) (XAIE_NUM_ROWS geo)].



(** A world in which no object is built yet. *)
Definition ctor_world (answers : list Z) : World :=
  {| aie := {| devInst := false; fd := 0; gmios := []; plios := []; numCols := 0;
               shim_dma := []; eventRecords := [] |};
     pool := {| shimTiles := []; aieTiles := [] |};
     script := answers; errno := 0; trace := [] |}.

(** A GMIO from the array on channel 2 of column 0, and one on the column
    just past the sample geometry. *)
Definition gmio1 : gmio_type :=
  {| gmio_name := "gmio1"%string; gmio_type_ := 1; gmio_shim_col := 0;
     gmio_channel_number := 2; gmio_stream_id := 3; gmio_burst_len := 4 |}.

Definition gmio_off : gmio_type :=
  {| gmio_name := "gmio_off"%string; gmio_type_ := 0; gmio_shim_col := 50;
     gmio_channel_number := 0; gmio_stream_id := 2; gmio_burst_len := 4 |}.

(** ** [xrt_core::utils]: status words and sizes *)

(** The bits of a compute-unit status word, from [ert.h]. *)
Record Ert := {
  CU_AP_START : Z;
  CU_AP_DONE : Z;
  CU_AP_IDLE : Z;
  CU_AP_READY : Z;
  CU_AP_CONTINUE : Z;
}.

(** [bit]; every call has [lsh] below 31. *)
Definition bit (lsh : Z) : Z := Z.shiftl 1 lsh.

(** [if (val & mask) { status += delim; status += name; delim = '|'; }] on
    the text so far and the delimiter. *)
Definition status_flag (val mask : Z) (name : string) (st : string * ascii)
  : string * ascii :=
  if negb (Z.land val mask =? 0)
  then ((fst st ++ String (snd st) EmptyString ++ name)%string, "|"%char)
  else st.

(** [parse_cu_status] *)
Definition parse_cu_status (ert : Ert) (val : Z) : string :=
  if val =? 2 ^ 32 - 1 then "(CRASHED)"%string
  else if val =? 0 then "(--)"%string
  else
    let st := (EmptyString, "("%char) in
    let st := status_flag val (CU_AP_START ert) "START" st in
    let st := status_flag val (CU_AP_DONE ert) "DONE" st in
    let st := status_flag val (CU_AP_IDLE ert) "IDLE" st in
    let st := status_flag val (CU_AP_READY ert) "READY" st in
    let st := status_flag val (CU_AP_CONTINUE ert) "RESTART" st in
    if negb (String.length (fst st) =? 0)%nat
    then (fst st ++ ")")%string
    else "(UNKNOWN)"%string.

(** [parse_firewall_status] *)
Definition parse_firewall_status (val : Z) : string :=
  let st := (EmptyString, "("%char) in
  let st := status_flag val (bit 0) "READ_RESPONSE_BUSY" st in
  let st := status_flag val (bit 1) "RECS_ARREADY_MAX_WAIT" st in
  let st := status_flag val (bit 2) "RECS_CONTINUOUS_RTRANSFERS_MAX_WAIT" st in
  let st := status_flag val (bit 3) "ERRS_RDATA_NUM" st in
  let st := status_flag val (bit 4) "ERRS_RID" st in
  let st := status_flag val (bit 16) "WRITE_RESPONSE_BUSY" st in
  let st := status_flag val (bit 17) "RECS_AWREADY_MAX_WAIT" st in
  let st := status_flag val (bit 18) "RECS_WREADY_MAX_WAIT" st in
  let st := status_flag val (bit 19) "RECS_WRITE_TO_BVALID_MAX_WAIT" st in
  let st := status_flag val (bit 20) "ERRS_BRESP" st in
  if negb (String.length (fst st) =? 0)%nat
  then (fst st ++ ")")%string
  else if val =? 0 then "(GOOD)"%string
  else "(UNKNOWN)"%string.

(** The units of [unit_convert]. *)
Definition unit_ : list string :=
  ["Byte"; "KB"; "MB"; "GB"; "TB"; "PB"; "EB"; "ZB"]%string.

(** [while ((size >> bit_shift) != 0 && i < 8)] of [unit_convert]; the test
    on [i] bounds the rounds by [8 - i]. *)
Fixpoint unit_loop (rounds : nat) (bit_shift size i : Z) (ret : string)
  : Z * string :=
  match rounds with
  | O => (i, ret)
  | S rounds =>
      if negb (Z.shiftr size bit_shift =? 0) && (i <? 8)
      then unit_loop rounds bit_shift (Z.shiftr size 10) (i + 1) (to_string size)
      else (i, ret)
  end.

(** [unit_convert] on a [size_t]; [None] when [unit[i-1]] is outside the
    array. *)
Definition unit_convert (size : Z) : option string :=
  if size <? 64 then
    match index unit_ 0 with
    | Some u => Some (to_string size ++ " " ++ u)%string
    | None => None
    end
  else
    let bit_shift := if Z.land size (size - 1) =? 0 then 0 else 6 in
    let '(i, ret) := unit_loop 8 bit_shift size 0 EmptyString in
    match index unit_ (i - 1) with
    | Some u => Some (ret ++ " " ++ u)%string
    | None => None
    end.

(** The names of the bits of [table] set in [val], in the order of the
    table. *)
Definition set_flags (val : Z) (table : list (Z * string)) : list string :=
  snd <$> filter (fun p => Z.land val (fst p) <> 0) table.

Definition firewall_table : list (Z * string) :=
  [ (bit 0, "READ_RESPONSE_BUSY"); (bit 1, "RECS_ARREADY_MAX_WAIT");
    (bit 2, "RECS_CONTINUOUS_RTRANSFERS_MAX_WAIT"); (bit 3, "ERRS_RDATA_NUM");
    (bit 4, "ERRS_RID"); (bit 16, "WRITE_RESPONSE_BUSY");
    (bit 17, "RECS_AWREADY_MAX_WAIT"); (bit 18, "RECS_WREADY_MAX_WAIT");
    (bit 19, "RECS_WRITE_TO_BVALID_MAX_WAIT"); (bit 20, "ERRS_BRESP") ]%string.

Definition cu_table (ert : Ert) : list (Z * string) :=
  [ (CU_AP_START ert, "START"); (CU_AP_DONE ert, "DONE"); (CU_AP_IDLE ert, "IDLE");
    (CU_AP_READY ert, "READY"); (CU_AP_CONTINUE ert, "RESTART") ]%string.

(** Each name with a bar before it. *)
Definition barred (names : list string) : string :=
  foldr (fun n acc => ("|" ++ n ++ acc)%string) EmptyString names.

(** The names between parentheses, a bar between two of them. *)
Definition joined (names : list string) : string :=
  match names with
  | [] => EmptyString
  | n :: rest => ("(" ++ n ++ barred rest ++ ")")%string
  end.

Definition fold_flags (val : Z) (table : list (Z * string)) (st : string * ascii)
  : string * ascii :=
  foldl (fun st p => status_flag val (fst p) (snd p) st) st table.

(** The bits of [ert.h]. *)
Definition sample_ert : Ert :=
  {| CU_AP_START := 1; CU_AP_DONE := 2; CU_AP_IDLE := 4; CU_AP_READY := 8;
     CU_AP_CONTINUE := 16 |}.

(** ** [xrt_core::query]: the P2P configuration *)

(** [p2p_config::value_type] *)
Inductive value_type := disabled | enabled | error | reboot | not_supported.

(** What a conversion of text to a number gives: the number, or one of the
    two exceptions of [std::stoll], [std::invalid_argument] and
    [std::out_of_range]. *)
Inductive converted (A : Type) :=
  | Converted (a : A)
  | Invalid_argument
  | Out_of_range.
Arguments Converted {A} a.
Arguments Invalid_argument {A}.
Arguments Out_of_range {A}.

(** [isspace] in the C locale. *)
Definition isspace (c : ascii) : bool :=
  let n := Z.of_N (N_of_ascii c) in
  (n =? 32) || ((9 <=? n) && (n <=? 13)).

(** The value of a decimal digit. *)
Definition digit (c : ascii) : option Z :=
  let n := Z.of_N (N_of_ascii c) in
  if (48 <=? n) && (n <=? 57) then Some (n - 48) else None.

Fixpoint skip_space (s : string) : string :=
  match s with
  | String c s' => if isspace c then skip_space s' else s
  | EmptyString => s
  end.

(** The number the leading digits of [s] spell, after [acc]. *)
Fixpoint digits (s : string) (acc : Z) : Z :=
  match s with
  | String c s' =>
      match digit c with
      | Some d => digits s' (acc * 10 + d)
      | None => acc
      end
  | EmptyString => acc
  end.

(** [std::stoll(s)]: [strtoll] in base 10 skips white space, takes a sign
    and the digits that follow, and leaves the rest of the text alone; no
    digit is [std::invalid_argument], a number outside [long long] is
    [std::out_of_range]. *)
Definition stoll (s : string) : converted Z :=
  let s := skip_space s in
  let '(negative, s) :=
    match s with
    | String "-" s' => (true, s')
    | String "+" s' => (false, s')
    | _ => (false, s)
    end in
  match s with
  | String c _ =>
      match digit c with
      | Some _ =>
          let v := digits s 0 in
          let v := if negative then - v else v in
          if (v <? - 2 ^ 63) || (2 ^ 63 - 1 <? v) then Out_of_range
          else Converted v
      | None => Invalid_argument
      end
  | EmptyString => Invalid_argument
  end.

(** [val.find(key) == 0] *)
Definition found_at_0 (key val : string) : bool :=
  match String.index 0 key val with
  | Some O => true
  | _ => false
  end.

(** [val.find(':') + 1]; [npos + 1] is zero. *)
Definition after_colon (val : string) : nat :=
  match String.index 0 ":" val with
  | Some n => S n
  | None => O
  end.

(** [val.substr(pos)] for [pos] up to the length. *)
Definition substr (val : string) (pos : nat) : string :=
  String.substring pos (String.length val - pos) val.

(** The four numbers [p2p_config::parse] collects. *)
Record bars := {
  bar : Z;
  rbar : Z;
  remap : Z;
  exp_bar : Z;
}.

(** The body of the loop over the entries of the query. *)
Definition parse_entry (val : string) (b : bars) : converted bars :=
  let pos := after_colon val in
  if found_at_0 "rbar" val then
    match stoll (substr val pos) with
    | Converted v => Converted {| bar := bar b; rbar := v; remap := remap b; exp_bar := exp_bar b |}
    | Invalid_argument => Invalid_argument
    | Out_of_range => Out_of_range
    end
  else if found_at_0 "exp_bar" val then
    match stoll (substr val pos) with
    | Converted v => Converted {| bar := bar b; rbar := rbar b; remap := remap b; exp_bar := v |}
    | Invalid_argument => Invalid_argument
    | Out_of_range => Out_of_range
    end
  else if found_at_0 "bar" val then
    match stoll (substr val pos) with
    | Converted v => Converted {| bar := v; rbar := rbar b; remap := remap b; exp_bar := exp_bar b |}
    | Invalid_argument => Invalid_argument
    | Out_of_range => Out_of_range
    end
  else if found_at_0 "remap" val then
    match stoll (substr val pos) with
    | Converted v => Converted {| bar := bar b; rbar := rbar b; remap := v; exp_bar := exp_bar b |}
    | Invalid_argument => Invalid_argument
    | Out_of_range => Out_of_range
    end
  else Converted b.

Fixpoint parse_entries (config : list string) (b : bars) : converted bars :=
  match config with
  | [] => Converted b
  | val :: config =>
      match parse_entry val b with
      | Converted b => parse_entries config b
      | Invalid_argument => Invalid_argument
      | Out_of_range => Out_of_range
      end
  end.

(** [p2p_config::parse] *)
Definition p2p_config_parse (config : list string) : converted (value_type * string) :=
  match parse_entries config {| bar := -1; rbar := -1; remap := -1; exp_bar := -1 |} with
  | Converted b =>
      Converted
        (if bar b =? -1 then
           (not_supported,
            "P2P config failed. P2P is not supported. Can't find P2P BAR."%string)
         else if negb (rbar b =? -1) && (bar b <? rbar b) then
           (reboot, "Warning:Please WARM reboot to enable p2p now."%string)
         else if (0 <? remap b) && negb (remap b =? bar b) then
           (error, "Error:P2P config failed. P2P remapper is not set correctly"%string)
         else if bar b =? exp_bar b then
           (enabled, EmptyString)
         else
           (disabled, "P2P bar is not enabled"%string))
  | Invalid_argument => Invalid_argument
  | Out_of_range => Out_of_range
  end.


(** Before any entry is read. *)
Definition no_bars : bars := {| bar := -1; rbar := -1; remap := -1; exp_bar := -1 |}.

(** * Properties *)

(** ** Running a computation *)

Lemma bind_run {A B} (m : M A) (k : A -> M B) (w : World) :
  (m ≫= k) w =
  match m w with
  | Returns a w' => k a w'
  | Throws e w' => Throws e w'
  | Undefined => Undefined
  | Stalled w' => Stalled w'
  end.
Proof. reflexivity. Qed.

Lemma bind_Returns {A B} (m : M A) (k : A -> M B) (w w' : World) (b : B) :
  (m ≫= k) w = Returns b w' <->
  exists a w1, m w = Returns a w1 /\ k a w1 = Returns b w'.
Proof.
  rewrite bind_run. split.
  - destruct (m w) as [a w1| | |]; try discriminate. eauto.
  - intros (a & w1 & -> & H). exact H.
Qed.

Lemma world_eta (w : World) :
  {| aie := aie w; pool := pool w; script := script w; errno := errno w;
     trace := trace w |} = w.
Proof. destruct w; reflexivity. Qed.

Lemma logged_logged (w : World) (e1 e2 : list Event) :
  logged (logged w e1) e2 = logged w (e1 ++ e2).
Proof. unfold logged; simpl. by rewrite app_assoc. Qed.

(** ** A channel inside the object *)

Lemma chan_get_run (col chan : Z) (w : World) :
  chan_get col chan w =
  match chan_of (aie w) col chan with
  | Some c => Returns c w
  | None => Undefined
  end.
Proof.
  unfold chan_get, chan_of. rewrite bind_run. simpl.
  destruct (index (shim_dma (aie w)) col) as [d|]; [|reflexivity].
  destruct (index (dma_chan d) chan); reflexivity.
Qed.

Lemma chan_put_run (col chan : Z) (c : DMAChannel) (w : World) :
  chan_put col chan c w =
  match chan_of (aie w) col chan with
  | Some _ => Returns tt (with_aie w (set_chan (aie w) col chan c))
  | None => Undefined
  end.
Proof.
  unfold chan_put, chan_of, set_chan. rewrite bind_run. simpl.
  destruct (index (shim_dma (aie w)) col) as [d|]; [|reflexivity].
  destruct (index (dma_chan d) chan); reflexivity.
Qed.

Lemma chan_of_set_chan (a : Aie) (col chan : Z) (c : DMAChannel) :
  is_Some (chan_of a col chan) ->
  chan_of (set_chan a col chan c) col chan = Some c.
Proof.
  unfold chan_of, set_chan, index. intros [c0 H].
  destruct (shim_dma a !! Z.to_nat (to_size_t col)) as [d|] eqn:Hd; [|discriminate].
  simpl. rewrite list_lookup_insert_eq by (eapply lookup_lt_Some; eauto).
  simpl. rewrite list_lookup_insert_eq by (eapply lookup_lt_Some; eauto).
  reflexivity.
Qed.

Lemma chan_of_set_chan_other (a : Aie) (col chan col' chan' : Z) (c : DMAChannel) :
  (Z.to_nat (to_size_t col), Z.to_nat (to_size_t chan)) <>
  (Z.to_nat (to_size_t col'), Z.to_nat (to_size_t chan')) ->
  chan_of (set_chan a col chan c) col' chan' = chan_of a col' chan'.
Proof.
  unfold chan_of, set_chan, index. intros Hne.
  destruct (shim_dma a !! Z.to_nat (to_size_t col)) as [d|] eqn:Hd; [|reflexivity].
  simpl.
  destruct (decide (Z.to_nat (to_size_t col) = Z.to_nat (to_size_t col'))) as [Heq|Hc].
  - rewrite <- Heq, Hd.
    rewrite list_lookup_insert_eq by (eapply lookup_lt_Some; eauto). simpl.
    rewrite list_lookup_insert_ne; [reflexivity|]. congruence.
  - rewrite list_lookup_insert_ne by assumption. reflexivity.
Qed.

Lemma set_chan_set_chan (a : Aie) (col chan : Z) (c1 c2 : DMAChannel) :
  set_chan (set_chan a col chan c1) col chan c2 = set_chan a col chan c2.
Proof.
  unfold set_chan, index.
  destruct (shim_dma a !! Z.to_nat (to_size_t col)) as [d|] eqn:Hd.
  - simpl. rewrite list_lookup_insert_eq by (eapply lookup_lt_Some; eauto).
    unfold with_shim_dma, with_dma_chan; simpl.
    rewrite !list_insert_insert_eq. reflexivity.
  - rewrite Hd. reflexivity.
Qed.

(** ** Releasing a descriptor *)

Section Drain.

Variable hdr : Headers.

Lemma cleared_app (t1 t2 : list Event) : cleared (t1 ++ t2) = cleared t1 ++ cleared t2.
Proof. apply omap_app. Qed.

Lemma clear_bd_run (bd : BD) (w : World) :
  clear_bd hdr bd w =
  if AIESIM hdr then Returns bd (logged w [call_clear_bd bd]) else
  match script w with
  | [] => Stalled (logged w [call_clear_bd bd; munmap (vaddr bd) (size bd)])
  | r :: rest =>
      let w' := answered w rest [call_clear_bd bd; munmap (vaddr bd) (size bd);
                                 ioctl_AIE_DETACH_DMABUF (buf_fd bd)] in
      if r =? 0 then Returns (with_vaddr bd 0) w'
      else Throws (xrt_core_error (- errno w) "Sync AIE Bo: fail to detach DMA buf."%string) w'
  end.
Proof.
  unfold clear_bd, mbind, M_bind, mret, M_ret, call, ask, get_errno, throw, logged, answered.
  simpl.
  destruct (AIESIM hdr); [reflexivity|]. simpl.
  destruct (script w) as [|r rest]; simpl.
  - rewrite <- app_assoc. reflexivity.
  - rewrite <- !app_assoc. simpl. destruct (r =? 0); reflexivity.
Qed.

Lemma clear_bd_Returns (bd bd' : BD) (w w' : World) :
  clear_bd hdr bd w = Returns bd' w' ->
  bd' = unbound hdr bd /\ same_object w w' /\
  cleared (trace w') = cleared (trace w) ++ [bd].
Proof.
  rewrite clear_bd_run. unfold unbound, same_object.
  destruct (AIESIM hdr).
  - intros [= <- <-]. simpl. rewrite cleared_app. auto.
  - destruct (script w) as [|r rest]; [discriminate|]. simpl.
    destruct (r =? 0); [|discriminate].
    intros [= <- <-]. simpl. rewrite cleared_app. auto.
Qed.

Lemma clear_bd_Throws (bd : BD) (e : exn) (w w' : World) :
  clear_bd hdr bd w = Throws e w' -> same_object w w'.
Proof.
  rewrite clear_bd_run. unfold same_object.
  destruct (AIESIM hdr); [discriminate|].
  destruct (script w) as [|r rest]; [discriminate|]. simpl.
  destruct (r =? 0); [discriminate|].
  intros [= _ <-]. simpl. auto.
Qed.

(** One round of a drain loop, in terms of what [clear_bd] does. *)
Lemma drain_front_run (col chan : Z) (w : World) :
  drain_front hdr col chan w =
  match chan_of (aie w) col chan with
  | None => Undefined
  | Some c =>
      match pend_bds c with
      | [] => Undefined
      | bd :: rest =>
          match clear_bd hdr bd w with
          | Returns bd' w1 =>
              Returns tt (with_aie w1 (set_chan (aie w) col chan
                {| idle_bds := idle_bds c ++ [bd']; pend_bds := rest |}))
          | Throws e w1 => Throws e w1
          | Undefined => Undefined
          | Stalled w1 => Stalled w1
          end
      end
  end.
Proof.
  unfold drain_front. rewrite bind_run, chan_get_run.
  destruct (chan_of (aie w) col chan) as [c|] eqn:Hc; [|reflexivity].
  rewrite bind_run. unfold front.
  destruct (pend_bds c) as [|bd rest] eqn:Hp; [reflexivity|]. simpl.
  rewrite bind_run.
  destruct (clear_bd hdr bd w) as [bd' w1| e w1 | | w1] eqn:Hclr; try reflexivity.
  apply clear_bd_Returns in Hclr as (_ & (Ha & _ & _) & _).
  rewrite bind_run. unfold pop_pend. rewrite bind_run, chan_get_run, Ha, Hc.
  rewrite bind_run, Hp. simpl. rewrite chan_put_run, Ha, Hc.
  unfold push_idle. rewrite bind_run, chan_get_run. simpl.
  rewrite chan_of_set_chan by (rewrite Hc; eauto).
  rewrite chan_put_run. simpl.
  rewrite chan_of_set_chan by (rewrite Hc; eauto). simpl.
  rewrite set_chan_set_chan. reflexivity.
Qed.

Lemma set_chan_id (a : Aie) (col chan : Z) (c : DMAChannel) :
  chan_of a col chan = Some c -> set_chan a col chan c = a.
Proof.
  unfold chan_of, set_chan, index.
  destruct (shim_dma a !! Z.to_nat (to_size_t col)) as [d|] eqn:Hd; [|discriminate].
  intros Hc. rewrite (list_insert_id (dma_chan d)) by exact Hc.
  replace (with_dma_chan d (dma_chan d)) with d by (destruct d; reflexivity).
  rewrite list_insert_id by exact Hd. destruct a; reflexivity.
Qed.

Lemma drained_0 (c : DMAChannel) : drained hdr c 0 = c.
Proof. unfold drained. simpl. rewrite app_nil_r. destruct c; reflexivity. Qed.

Lemma drained_S (c : DMAChannel) (bd : BD) (rest : list BD) (n : nat) :
  pend_bds c = bd :: rest ->
  drained hdr {| idle_bds := idle_bds c ++ [unbound hdr bd]; pend_bds := rest |} n =
  drained hdr c (S n).
Proof.
  intros Hp. unfold drained. rewrite Hp. simpl.
  rewrite <- app_assoc. reflexivity.
Qed.

Lemma drained_drained (c : DMAChannel) (n m : nat) :
  drained hdr (drained hdr c n) m = drained hdr c (n + m).
Proof.
  unfold drained. simpl.
  rewrite drop_drop, <- app_assoc, <- map_app, take_take_drop. reflexivity.
Qed.

Lemma slots_drained (c : DMAChannel) (n : nat) : slots (drained hdr c n) = slots c.
Proof.
  unfold slots, drained. simpl.
  rewrite length_app, length_map, length_take, length_drop. lia.
Qed.

Lemma drain_front_Returns (col chan : Z) (c : DMAChannel) (w w' : World) :
  chan_of (aie w) col chan = Some c ->
  drain_front hdr col chan w = Returns tt w' ->
  exists bd rest,
    pend_bds c = bd :: rest /\
    aie w' = set_chan (aie w) col chan
               {| idle_bds := idle_bds c ++ [unbound hdr bd]; pend_bds := rest |} /\
    pool w' = pool w /\ errno w' = errno w /\
    cleared (trace w') = cleared (trace w) ++ [bd].
Proof.
  intros Hc. rewrite drain_front_run, Hc.
  destruct (pend_bds c) as [|bd rest]; [discriminate|].
  destruct (clear_bd hdr bd w) as [bd' w1| | |] eqn:Hclr; try discriminate.
  apply clear_bd_Returns in Hclr as (-> & (Ha & Hp & He) & Ht).
  intros [= <-]. exists bd, rest. simpl. auto.
Qed.

(** The [for] loop of the busy wait gives back the [num_comp] oldest
    pending descriptors, oldest first. *)
Lemma drain_completed_Returns (n : nat) (col chan : Z) (c : DMAChannel) (w w' : World) :
  chan_of (aie w) col chan = Some c ->
  drain_completed hdr n col chan w = Returns tt w' ->
  (n <= length (pend_bds c))%nat /\
  aie w' = set_chan (aie w) col chan (drained hdr c n) /\
  pool w' = pool w /\ errno w' = errno w /\
  cleared (trace w') = cleared (trace w) ++ take n (pend_bds c).
Proof.
  revert c w. induction n as [|n IH]; intros c w Hc.
  - simpl. intros [= <-]. rewrite drained_0, set_chan_id by exact Hc.
    rewrite app_nil_r. repeat split; auto. lia.
  - cbn [drain_completed]. intros H.
    apply bind_Returns in H as ([] & w1 & H1 & H2).
    destruct (drain_front_Returns _ _ _ _ _ Hc H1) as (bd & rest & Hp & Ha & Hpool & He & Ht).
    assert (Hc1 : chan_of (aie w1) col chan =
                  Some {| idle_bds := idle_bds c ++ [unbound hdr bd]; pend_bds := rest |}).
    { rewrite Ha. apply chan_of_set_chan. rewrite Hc; eauto. }
    destruct (IH _ _ Hc1 H2) as (Hn & Ha' & Hpool' & He' & Ht').
    simpl in Hn. rewrite Hp. simpl.
    repeat split.
    + lia.
    + rewrite Ha', Ha, set_chan_set_chan, (drained_S c bd rest n Hp). reflexivity.
    + congruence.
    + congruence.
    + rewrite Ht', Ht. simpl. rewrite <- app_assoc. reflexivity.
Qed.

(** The busy wait of [submit_sync_bo]. *)
Lemma find_free_bd_Returns (rounds : nat) (col chan : Z) (tile : XAie_LocType)
    (pchan : Z) (gmdir : XAie_DmaDirection) (c : DMAChannel) (w w' : World) :
  chan_of (aie w) col chan = Some c ->
  find_free_bd hdr rounds col chan tile pchan gmdir w = Returns tt w' ->
  exists n,
    (n <= length (pend_bds c))%nat /\
    idle_bds (drained hdr c n) <> [] /\
    aie w' = set_chan (aie w) col chan (drained hdr c n) /\
    pool w' = pool w /\ errno w' = errno w /\
    cleared (trace w') = cleared (trace w) ++ take n (pend_bds c).
Proof.
  revert c w. induction rounds as [|rounds IH]; intros c w Hc H.
  - cbn [find_free_bd] in H. rewrite bind_run, chan_get_run, Hc in H.
    destruct (idle_bds c) as [|b q] eqn:Hi; [discriminate|].
    injection H as <-. exists 0%nat.
    rewrite drained_0, set_chan_id, app_nil_r by exact Hc.
    rewrite Hi. repeat split; auto; try lia; try discriminate.
  - cbn [find_free_bd] in H. rewrite bind_run, chan_get_run, Hc in H.
    destruct (idle_bds c) as [|b q] eqn:Hi.
    + rewrite bind_run in H. unfold ask in H.
      destruct (script w) as [|npend rest] eqn:Hs; [discriminate|].
      rewrite bind_run in H. cbn [get_aie aie] in H.
      destruct (index (shim_dma (aie w)) col) as [dmap|] eqn:Hd; [|discriminate].
      apply bind_Returns in H as ([] & w1 & H1 & H2).
      set (w0 := {| aie := aie w; pool := pool w; script := rest; errno := errno w;
                    trace := trace w ++ [XAie_DmaGetPendingBdCount tile pchan gmdir] |}) in *.
      assert (Hc0 : chan_of (aie w0) col chan = Some c) by exact Hc.
      destruct (drain_completed_Returns _ _ _ _ _ _ Hc0 H1) as (Hn & Ha & Hpool & He & Ht).
      assert (Hc1 : chan_of (aie w1) col chan = Some (drained hdr c (Z.to_nat (maxqSize dmap - to_u8 npend)))).
      { rewrite Ha. apply chan_of_set_chan. rewrite Hc0; eauto. }
      destruct (IH _ _ Hc1 H2) as (m & Hm & Hne & Ha' & Hpool' & He' & Ht').
      exists (Z.to_nat (maxqSize dmap - to_u8 npend) + m)%nat.
      rewrite drained_drained in Hne, Ha'.
      simpl in Hm. rewrite length_drop in Hm.
      repeat split.
      * lia.
      * exact Hne.
      * rewrite Ha', Ha, set_chan_set_chan. reflexivity.
      * rewrite Hpool', Hpool. reflexivity.
      * rewrite He', He. reflexivity.
      * rewrite Ht', Ht. subst w0. cbn [trace drained pend_bds].
        rewrite cleared_app. cbn [cleared omap]. rewrite app_nil_r.
        rewrite <- app_assoc, take_take_drop. reflexivity.
    + injection H as <-. exists 0%nat.
      rewrite drained_0, set_chan_id, app_nil_r by exact Hc.
      rewrite Hi. repeat split; auto; try lia; try discriminate.
Qed.

Lemma wait_for_done_Returns (rounds : nat) (tile : XAie_LocType) (pchan : Z)
    (gmdir : XAie_DmaDirection) (timeout : Z) (w w' : World) :
  wait_for_done rounds tile pchan gmdir timeout w = Returns tt w' ->
  aie w' = aie w /\ pool w' = pool w /\ errno w' = errno w /\
  cleared (trace w') = cleared (trace w).
Proof.
  revert w. induction rounds as [|rounds IH]; intros w; [discriminate|].
  cbn [wait_for_done]. rewrite bind_run. unfold ask.
  destruct (script w) as [|rc rest]; [discriminate|].
  destruct (rc =? 0).
  - intros [= <-]. simpl. rewrite cleared_app. simpl. rewrite app_nil_r. auto.
  - intros H. apply IH in H as (Ha & Hp & He & Ht). simpl in *.
    rewrite cleared_app in Ht. simpl in Ht. rewrite app_nil_r in Ht. auto.
Qed.

(** The drain loop of [wait_sync_bo] empties the pending queue, oldest
    descriptor first. *)
Lemma drain_pending_Returns (rounds : nat) (col chan : Z) (c : DMAChannel) (w w' : World) :
  chan_of (aie w) col chan = Some c ->
  drain_pending hdr rounds col chan w = Returns tt w' ->
  aie w' = set_chan (aie w) col chan (drained hdr c (length (pend_bds c))) /\
  pool w' = pool w /\ errno w' = errno w /\
  cleared (trace w') = cleared (trace w) ++ pend_bds c.
Proof.
  revert c w. induction rounds as [|rounds IH]; intros c w Hc H.
  - cbn [drain_pending] in H. rewrite bind_run, chan_get_run, Hc in H.
    destruct (pend_bds c) as [|bd rest] eqn:Hp; [|discriminate].
    injection H as <-. simpl. rewrite drained_0, set_chan_id, app_nil_r by exact Hc. auto.
  - cbn [drain_pending] in H. rewrite bind_run, chan_get_run, Hc in H.
    destruct (pend_bds c) as [|bd rest] eqn:Hp.
    + injection H as <-. simpl. rewrite drained_0, set_chan_id, app_nil_r by exact Hc. auto.
    + apply bind_Returns in H as ([] & w1 & H1 & H2).
      destruct (drain_front_Returns _ _ _ _ _ Hc H1) as (bd0 & rest0 & Hp0 & Ha & Hpool & He & Ht).
      rewrite Hp in Hp0. injection Hp0 as <- <-.
      assert (Hc1 : chan_of (aie w1) col chan =
                    Some {| idle_bds := idle_bds c ++ [unbound hdr bd]; pend_bds := rest |}).
      { rewrite Ha. apply chan_of_set_chan. rewrite Hc; eauto. }
      destruct (IH _ _ Hc1 H2) as (Ha' & Hpool' & He' & Ht').
      cbn [pend_bds] in Ha', Ht'.
      rewrite (drained_S c bd rest _ Hp) in Ha'.
      repeat split.
      * rewrite Ha', Ha, set_chan_set_chan. reflexivity.
      * congruence.
      * congruence.
      * rewrite Ht', Ht, <- app_assoc. reflexivity.
Qed.

Lemma drained_all (c : DMAChannel) :
  drained hdr c (length (pend_bds c)) =
  {| idle_bds := idle_bds c ++ map (unbound hdr) (pend_bds c); pend_bds := [] |}.
Proof. unfold drained. rewrite firstn_all, drop_all. reflexivity. Qed.

Lemma wait_sync_bo_Returns (col chan : Z) (tile : XAie_LocType)
    (gmdir : XAie_DmaDirection) (timeout : Z) (c : DMAChannel) (w w' : World) :
  chan_of (aie w) col chan = Some c ->
  wait_sync_bo hdr col chan tile gmdir timeout w = Returns tt w' ->
  aie w' = set_chan (aie w) col chan
             {| idle_bds := idle_bds c ++ map (unbound hdr) (pend_bds c); pend_bds := [] |} /\
  pool w' = pool w /\ errno w' = errno w /\
  cleared (trace w') = cleared (trace w) ++ pend_bds c.
Proof.
  intros Hc H. unfold wait_sync_bo in H.
  apply bind_Returns in H as ([] & w1 & H1 & H2).
  apply wait_for_done_Returns in H1 as (Ha & Hpool & He & Ht).
  rewrite bind_run, chan_get_run, Ha, Hc in H2.
  assert (Hc1 : chan_of (aie w1) col chan = Some c) by (rewrite Ha; exact Hc).
  destruct (drain_pending_Returns _ _ _ _ _ _ Hc1 H2) as (Ha' & Hpool' & He' & Ht').
  rewrite drained_all in Ha'.
  repeat split; congruence.
Qed.

Lemma prepare_bd_Returns (bd bd' : BD) (bo : xrtBufferHandle) (w w' : World) :
  prepare_bd hdr bd bo w = Returns bd' w' ->
  bd_num bd' = bd_num bd /\
  aie w' = aie w /\ pool w' = pool w /\ errno w' = errno w /\
  cleared (trace w') = cleared (trace w).
Proof.
  unfold prepare_bd, mbind, M_bind, mret, M_ret, call, ask, get_errno, throw. simpl.
  destruct (AIESIM hdr).
  { intros [= <- <-]. simpl. rewrite cleared_app. simpl. rewrite app_nil_r. auto. }
  simpl. destruct (bo_export bo =? XRT_NULL_BO_EXPORT hdr); [discriminate|].
  simpl. destruct (script w) as [|r rest]; [discriminate|]. simpl.
  destruct (r =? 0); [|discriminate]. simpl.
  destruct rest as [|addr rest]; [discriminate|].
  intros [= <- <-]. simpl. rewrite !cleared_app. simpl. rewrite !app_nil_r. auto.
Qed.

Lemma prepare_bd_Throws (bd : BD) (bo : xrtBufferHandle) (e : exn) (w w' : World) :
  prepare_bd hdr bd bo w = Throws e w' -> aie w' = aie w /\ pool w' = pool w.
Proof.
  unfold prepare_bd, mbind, M_bind, mret, M_ret, call, ask, get_errno, throw. simpl.
  destruct (AIESIM hdr); [discriminate|].
  simpl. destruct (bo_export bo =? XRT_NULL_BO_EXPORT hdr).
  { intros [= _ <-]. auto. }
  simpl. destruct (script w) as [|r rest]; [discriminate|]. simpl.
  destruct (r =? 0).
  - simpl. destruct rest; discriminate.
  - intros [= _ <-]. auto.
Qed.

Lemma call_run (e : Event) (w : World) : call e w = Returns tt (logged w [e]).
Proof. reflexivity. Qed.

Lemma pop_idle_run (col chan : Z) (w : World) :
  pop_idle col chan w =
  match chan_of (aie w) col chan with
  | Some c =>
      match idle_bds c with
      | [] => Undefined
      | _ :: q =>
          Returns tt (with_aie w (set_chan (aie w) col chan
                        {| idle_bds := q; pend_bds := pend_bds c |}))
      end
  | None => Undefined
  end.
Proof.
  unfold pop_idle. rewrite bind_run, chan_get_run.
  destruct (chan_of (aie w) col chan) as [c|] eqn:Hc; [|reflexivity].
  rewrite bind_run. destruct (idle_bds c); [reflexivity|].
  cbn [pop mret M_ret]. rewrite chan_put_run, Hc. reflexivity.
Qed.

Lemma push_pend_run (col chan : Z) (b : BD) (w : World) :
  push_pend col chan b w =
  match chan_of (aie w) col chan with
  | Some c =>
      Returns tt (with_aie w (set_chan (aie w) col chan
                    {| idle_bds := idle_bds c; pend_bds := pend_bds c ++ [b] |}))
  | None => Undefined
  end.
Proof.
  unfold push_pend. rewrite bind_run, chan_get_run.
  destruct (chan_of (aie w) col chan) as [c|] eqn:Hc; [|reflexivity].
  rewrite chan_put_run, Hc. reflexivity.
Qed.

(** A submission that returns has taken the descriptor at the head of the
    idle queue, after the busy wait gave back the [n] oldest pending ones,
    and has put it, bound, at the back of the pending queue. *)
Lemma submit_sync_bo_Returns (bo : xrtBufferHandle) (gmio : gmio_type)
    (dir : xclBOSyncDirection) (size offset : Z) (c : DMAChannel) (w w' : World) :
  chan_of (aie w) (gmio_shim_col gmio) (gmio_channel_number gmio) = Some c ->
  submit_sync_bo hdr bo gmio dir size offset w = Returns tt w' ->
  exists n bd0 q bd',
    (n <= length (pend_bds c))%nat /\
    idle_bds (drained hdr c n) = bd0 :: q /\
    bd_num bd' = bd_num bd0 /\
    aie w' = set_chan (aie w) (gmio_shim_col gmio) (gmio_channel_number gmio)
               {| idle_bds := q; pend_bds := drop n (pend_bds c) ++ [bd'] |} /\
    pool w' = pool w /\
    cleared (trace w') = cleared (trace w) ++ take n (pend_bds c).
Proof.
  intros Hc H. unfold submit_sync_bo in H.
  apply bind_Returns in H as ([] & w1 & Hdir & H).
  assert (w1 = w) as ->.
  { destruct dir; [destruct (negb _)| destruct (negb _)|]; try discriminate;
      by injection Hdir. }
  clear Hdir.
  apply bind_Returns in H as ([] & w1 & Hsz & H).
  assert (w1 = w) as ->.
  { destruct (size_check hdr size); [discriminate|]. by injection Hsz. }
  clear Hsz.
  rewrite bind_run in H. cbn [get_aie] in H.
  destruct (index (shim_dma (aie w)) (gmio_shim_col gmio)) as [dmap|]; [|discriminate].
  apply bind_Returns in H as ([] & w1 & Hfree & H).
  destruct (find_free_bd_Returns _ _ _ _ _ _ _ _ _ Hc Hfree)
    as (n & Hn & Hne & Ha1 & Hp1 & He1 & Ht1).
  assert (Hc1 : chan_of (aie w1) (gmio_shim_col gmio) (gmio_channel_number gmio) =
                Some (drained hdr c n)).
  { rewrite Ha1. apply chan_of_set_chan. rewrite Hc; eauto. }
  rewrite bind_run, chan_get_run, Hc1 in H.
  destruct (idle_bds (drained hdr c n)) as [|bd0 q] eqn:Hi; [done|].
  cbn [front] in H. rewrite bind_run in H. cbn [mret M_ret] in H.
  rewrite bind_run, pop_idle_run, Hc1, Hi in H.
  set (c2 := {| idle_bds := q; pend_bds := pend_bds (drained hdr c n) |}) in H.
  set (w2 := with_aie w1 (set_chan (aie w1) (gmio_shim_col gmio) (gmio_channel_number gmio) c2)) in H.
  rewrite bind_run in H.
  destruct (prepare_bd hdr bd0 bo w2) as [bd' w3| | |] eqn:Hprep; try discriminate.
  apply prepare_bd_Returns in Hprep as (Hnum & Ha3 & Hp3 & He3 & Ht3).
  repeat (rewrite bind_run, call_run in H; cbv iota beta in H).
  rewrite !logged_logged in H.
  assert (Hc3 : chan_of (aie w3) (gmio_shim_col gmio) (gmio_channel_number gmio) = Some c2).
  { rewrite Ha3. subst w2. cbn [aie with_aie]. apply chan_of_set_chan. rewrite Hc1; eauto. }
  rewrite push_pend_run in H. cbn [aie logged] in H. rewrite Hc3 in H. injection H as <-.
  exists n, bd0, q, bd'. cbn [aie pool trace with_aie logged].
  repeat split; auto.
  - rewrite Ha3. subst w2 c2. cbn [aie with_aie idle_bds pend_bds drained].
    rewrite Ha1, !set_chan_set_chan. reflexivity.
  - subst w2. cbn [pool with_aie] in Hp3. congruence.
  - rewrite cleared_app. cbn [cleared omap]. rewrite app_nil_r.
    subst w2. cbn [trace with_aie] in Ht3. congruence.
Qed.

(** *** The loops do return *)




End Drain.

(** ** The alignment test of a submission *)

(** With a mask that is not zero the test looks at bit 0 of the length and
    at nothing else. *)
Lemma size_check_tests_bit_0 (hdr : Headers) (size : Z) :
  XAIEDMA_SHIM_TXFER_LEN32_MASK hdr <> 0 ->
  size_check hdr size = Z.odd size.
Proof.
  intros Hm. unfold size_check.
  destruct (Z.eqb_spec (XAIEDMA_SHIM_TXFER_LEN32_MASK hdr) 0); [contradiction|].
  simpl. change 1 with (Z.ones 1). rewrite Z.land_ones by lia.
  rewrite Zodd_mod. change (2 ^ 1) with 2.
  destruct (Z.eqb_spec (size mod 2) 0) as [->| H]; [reflexivity|].
  destruct (Z.eqb_spec (size mod 2) 1); [reflexivity|].
  pose proof (Z.mod_pos_bound size 2). lia.
Qed.

(** A length the test refuses is refused before anything else happens. *)
Lemma submit_sync_bo_refuses (hdr : Headers) (bo : xrtBufferHandle) (gmio : gmio_type)
    (dir : xclBOSyncDirection) (size offset : Z) (w : World) :
  size_check hdr size = true ->
  exists what,
    submit_sync_bo hdr bo gmio dir size offset w = Throws (xrt_core_error (- EINVAL) what) w.
Proof.
  intros Hsz. unfold submit_sync_bo. rewrite bind_run.
  destruct dir; [destruct (negb _) | destruct (negb _) |];
    try (eexists; reflexivity);
    cbn [mret M_ret]; rewrite bind_run, Hsz; eexists; reflexivity.
Qed.

(** C1.  A transfer length that is not aligned to the transfer-length mask
    should be refused with [-EINVAL] before a descriptor is taken or memory
    is bound.  The code misses this: a length of 2 bytes, which the mask 3 of
    the hardware build does not accept, passes the test ([!=] is applied to
    the mask before [&]); the submission takes descriptor 0, binds the
    buffer and queues the transfer. *)
Theorem submit_sync_bo_accepts_misaligned_length :
  Z.land 2 (XAIEDMA_SHIM_TXFER_LEN32_MASK hardware) <> 0 /\
  size_check hardware 2 = false /\
  exists w',
    sync_bo_nb hardware sample_bo "gmio0" XCL_BO_SYNC_BO_GMIO_TO_AIE 2 0
      (sample_world [0; 4096]) = Returns tt w' /\
    chan_of (aie w') 0 0 =
      Some {| idle_bds := [fresh_bd 1; fresh_bd 2; fresh_bd 3];
              pend_bds := [ {| bd_num := 0; buf_fd := 7; size := 256; vaddr := 4096 |} ] |} /\
    trace w' =
      [ call_prepare_bd (fresh_bd 0) sample_bo; xrtBOExport sample_bo;
        ioctl_AIE_ATTACH_DMABUF 7; mmap 256 7;
        XAie_DmaSetAddrLen 4096 2; XAie_DmaSetLock 0 0; XAie_DmaEnableBd;
        XAie_DmaWriteBd (XAie_TileLoc 0 0) 0;
        XAie_DmaChannelPushBdToQueue (XAie_TileLoc 0 0) 0 DMA_MM2S 0 ] /\
    exists w'',
      sync_bo hardware sample_bo "gmio0" XCL_BO_SYNC_BO_GMIO_TO_AIE 2 0
        (sample_world [0; 4096; 0; 0]) = Returns tt w'' /\
      take 9 (trace w'') = trace w'.
Proof.
  split; [discriminate|]. split; [reflexivity|].
  eexists. split; [vm_compute; reflexivity|]. split; [reflexivity|].
  split; [reflexivity|].
  eexists. split; [vm_compute; reflexivity|]. reflexivity.
Qed.

(** ** Conservation of descriptors *)

Lemma chan_of_position (a : Aie) (col chan col' chan' : Z) :
  Z.to_nat (to_size_t col) = Z.to_nat (to_size_t col') ->
  Z.to_nat (to_size_t chan) = Z.to_nat (to_size_t chan') ->
  chan_of a col chan = chan_of a col' chan'.
Proof. unfold chan_of, index. intros -> ->. reflexivity. Qed.

(** Writing back a channel with as many descriptors as it had changes the
    count of no channel. *)
Lemma slots_set_chan (a : Aie) (col chan : Z) (c0 c : DMAChannel) :
  chan_of a col chan = Some c0 ->
  slots c = slots c0 ->
  forall col' chan',
    slots <$> chan_of (set_chan a col chan c) col' chan' = slots <$> chan_of a col' chan'.
Proof.
  intros Hc Hs col' chan'.
  destruct (decide ((Z.to_nat (to_size_t col), Z.to_nat (to_size_t chan)) =
                    (Z.to_nat (to_size_t col'), Z.to_nat (to_size_t chan')))) as [Heq|Hne].
  - injection Heq as H1 H2.
    rewrite <- (chan_of_position _ col chan col' chan' H1 H2).
    rewrite <- (chan_of_position a col chan col' chan' H1 H2).
    rewrite chan_of_set_chan by (rewrite Hc; eauto). rewrite Hc. simpl. by rewrite Hs.
  - by rewrite chan_of_set_chan_other.
Qed.

(** A submission that returns moves one descriptor from idle to pending and
    keeps the count of every channel. *)
Lemma submit_sync_bo_conserves (hdr : Headers) (bo : xrtBufferHandle) (gmio : gmio_type)
    (dir : xclBOSyncDirection) (size offset : Z) (c : DMAChannel) (w w' : World) :
  chan_of (aie w) (gmio_shim_col gmio) (gmio_channel_number gmio) = Some c ->
  submit_sync_bo hdr bo gmio dir size offset w = Returns tt w' ->
  forall col chan,
    slots <$> chan_of (aie w') col chan = slots <$> chan_of (aie w) col chan.
Proof.
  intros Hc H col chan.
  destruct (submit_sync_bo_Returns _ _ _ _ _ _ _ _ _ Hc H)
    as (n & bd0 & q & bd' & Hn & Hi & _ & Ha & _).
  rewrite Ha. apply slots_set_chan with (c0 := c); [exact Hc|].
  rewrite <- (slots_drained hdr c n). unfold slots. rewrite Hi. simpl.
  rewrite length_app. simpl. lia.
Qed.

(** A wait that returns keeps the count of every channel. *)
Lemma wait_sync_bo_conserves (hdr : Headers) (col chan : Z) (tile : XAie_LocType)
    (gmdir : XAie_DmaDirection) (timeout : Z) (c : DMAChannel) (w w' : World) :
  chan_of (aie w) col chan = Some c ->
  wait_sync_bo hdr col chan tile gmdir timeout w = Returns tt w' ->
  forall col' chan',
    slots <$> chan_of (aie w') col' chan' = slots <$> chan_of (aie w) col' chan'.
Proof.
  intros Hc H col' chan'.
  destruct (wait_sync_bo_Returns _ _ _ _ _ _ _ _ _ Hc H) as (Ha & _).
  rewrite Ha. apply slots_set_chan with (c0 := c); [exact Hc|].
  unfold slots. simpl. rewrite length_app, length_map. lia.
Qed.

(** Whenever binding the buffer fails, the descriptor taken from the idle
    queue is in neither queue afterwards. *)
Lemma submit_sync_bo_binding_failure (hdr : Headers) (bo : xrtBufferHandle)
    (gmio : gmio_type) (dir : xclBOSyncDirection) (size offset : Z)
    (c : DMAChannel) (bd0 : BD) (q : list BD) (e : exn) (w w' : World) :
  direction_matches dir gmio = true ->
  size_check hdr size = false ->
  chan_of (aie w) (gmio_shim_col gmio) (gmio_channel_number gmio) = Some c ->
  idle_bds c = bd0 :: q ->
  prepare_bd hdr bd0 bo
    (with_aie w (set_chan (aie w) (gmio_shim_col gmio) (gmio_channel_number gmio)
                   {| idle_bds := q; pend_bds := pend_bds c |})) = Throws e w' ->
  submit_sync_bo hdr bo gmio dir size offset w = Throws e w' /\
  chan_of (aie w') (gmio_shim_col gmio) (gmio_channel_number gmio) =
    Some {| idle_bds := q; pend_bds := pend_bds c |} /\
  slots c = S (length q + length (pend_bds c)).
Proof.
  intros Hdir Hsz Hc Hi Hprep.
  assert (Hd : is_Some (index (shim_dma (aie w)) (gmio_shim_col gmio))).
  { unfold chan_of in Hc. destruct (index (shim_dma (aie w)) (gmio_shim_col gmio)); [eauto|done]. }
  destruct Hd as [dmap Hd].
  split; [|split].
  - unfold submit_sync_bo. rewrite bind_run.
    assert (Hpass : forall msg1 msg2,
      match dir with
      | XCL_BO_SYNC_BO_GMIO_TO_AIE =>
          if negb (gmio_type_ gmio =? 0) then throw (xrt_core_error (- EINVAL) msg1)
          else mret tt
      | XCL_BO_SYNC_BO_AIE_TO_GMIO =>
          if negb (gmio_type_ gmio =? 1) then throw (xrt_core_error (- EINVAL) msg1)
          else mret tt
      | XCL_BO_SYNC_BO_OTHER => throw (xrt_core_error (- EINVAL) msg2)
      end w = Returns tt w).
    { intros msg1 msg2. destruct dir; cbn [direction_matches] in Hdir;
        [rewrite Hdir | rewrite Hdir | discriminate]; reflexivity. }
    rewrite Hpass. rewrite bind_run, Hsz. cbn [mret M_ret].
    rewrite bind_run. cbn [get_aie]. rewrite Hd.
    rewrite bind_run.
    replace (find_free_bd hdr (length (script w)) _ _ _ _ _ w) with (Returns tt w).
    2:{ destruct (length (script w)); cbn [find_free_bd];
          rewrite bind_run, chan_get_run, Hc, Hi; reflexivity. }
    rewrite bind_run, chan_get_run, Hc, Hi. cbn [front].
    rewrite bind_run. cbn [mret M_ret].
    rewrite bind_run, pop_idle_run, Hc, Hi.
    rewrite bind_run, Hprep. reflexivity.
  - apply prepare_bd_Throws in Hprep as [-> _]. cbn [aie with_aie].
    apply chan_of_set_chan. rewrite Hc; eauto.
  - unfold slots. rewrite Hi. reflexivity.
Qed.

(** C3.  The descriptors of a channel, idle and pending together, should
    stay as many as the channel got at construction.  The code breaks this
    when binding the buffer fails: [submit_sync_bo] has popped the
    descriptor from the idle queue before [prepare_bd] throws, and nothing
    puts it back.  Here the export of the buffer fails; channel 0 had four
    descriptors and is left with three. *)
Theorem failed_binding_loses_a_descriptor :
  exists w',
    sync_bo_nb hardware stale_bo "gmio0" XCL_BO_SYNC_BO_GMIO_TO_AIE 256 0
      (sample_world []) =
    Throws (xrt_core_error (-5) "Sync AIE Bo: fail to export BO.") w' /\
    slots <$> chan_of (aie (sample_world [])) 0 0 = Some 4%nat /\
    chan_of (aie w') 0 0 =
      Some {| idle_bds := [fresh_bd 1; fresh_bd 2; fresh_bd 3]; pend_bds := [] |} /\
    slots <$> chan_of (aie w') 0 0 = Some 3%nat.
Proof.
  eexists. split; [vm_compute; reflexivity|]. repeat split; reflexivity.
Qed.

(** ** The order of release *)



(** The scenario of the specification: submit A, submit B, then wait. *)
Example submit_A_B_then_wait :
  exists w',
    (sync_bo_nb hardware sample_bo "gmio0" XCL_BO_SYNC_BO_GMIO_TO_AIE 256 0;;
     sync_bo_nb hardware sample_bo "gmio0" XCL_BO_SYNC_BO_GMIO_TO_AIE 128 0;;
     wait_gmio hardware "gmio0") (sample_world [0; 4096; 0; 8192; 0; 0; 0]) = Returns tt w' /\
    bd_num <$> cleared (trace w') = [0; 1] /\
    chan_of (aie w') 0 0 =
      Some {| idle_bds := [fresh_bd 2; fresh_bd 3;
                           {| bd_num := 0; buf_fd := 7; size := 256; vaddr := 0 |};
                           {| bd_num := 1; buf_fd := 7; size := 256; vaddr := 0 |}];
              pend_bds := [] |}.
Proof. eexists. split; [vm_compute; reflexivity|]. split; reflexivity. Qed.

(** ** A failing release keeps the descriptor *)

(** The drain loops call [clear_bd] before they touch the queues, so a
    detach that fails leaves the descriptor at the head of the pending
    queue: a wait that throws has still only moved descriptors from pending
    to idle. *)
Lemma drain_front_Throws (hdr : Headers) (col chan : Z) (e : exn) (w w' : World) :
  drain_front hdr col chan w = Throws e w' -> aie w' = aie w.
Proof.
  rewrite drain_front_run.
  destruct (chan_of (aie w) col chan) as [c|]; [|discriminate].
  destruct (pend_bds c) as [|bd rest]; [discriminate|].
  destruct (clear_bd hdr bd w) as [bd' w1| e1 w1 | | w1] eqn:Hclr; try discriminate.
  intros [= _ <-]. by apply clear_bd_Throws in Hclr as (Ha & _).
Qed.

Lemma drain_pending_Throws (hdr : Headers) (rounds : nat) (col chan : Z) (c : DMAChannel)
    (e : exn) (w w' : World) :
  chan_of (aie w) col chan = Some c ->
  drain_pending hdr rounds col chan w = Throws e w' ->
  exists n, aie w' = set_chan (aie w) col chan (drained hdr c n).
Proof.
  revert c w. induction rounds as [|rounds IH]; intros c w Hc H.
  - cbn [drain_pending] in H. rewrite bind_run, chan_get_run, Hc in H.
    destruct (pend_bds c); discriminate.
  - cbn [drain_pending] in H. rewrite bind_run, chan_get_run, Hc in H.
    destruct (pend_bds c) as [|bd rest] eqn:Hp; [discriminate|].
    rewrite bind_run in H.
    destruct (drain_front hdr col chan w) as [[] w1| e1 w1 | | w1] eqn:Hfront;
      try discriminate.
    + destruct (drain_front_Returns _ _ _ _ _ _ Hc Hfront)
        as (bd0 & rest0 & Hp0 & Ha & _).
      rewrite Hp in Hp0. injection Hp0 as <- <-.
      assert (Hc1 : chan_of (aie w1) col chan =
                    Some {| idle_bds := idle_bds c ++ [unbound hdr bd]; pend_bds := rest |}).
      { rewrite Ha. apply chan_of_set_chan. rewrite Hc; eauto. }
      destruct (IH _ _ Hc1 H) as (n & Ha').
      exists (S n). rewrite Ha', Ha, set_chan_set_chan.
      by rewrite (drained_S hdr c bd rest n Hp).
    + injection H as _ <-. apply drain_front_Throws in Hfront.
      exists 0%nat. rewrite drained_0, set_chan_id by exact Hc. exact Hfront.
Qed.

Lemma wait_for_done_never_throws (rounds : nat) (tile : XAie_LocType) (pchan : Z)
    (gmdir : XAie_DmaDirection) (timeout : Z) (e : exn) (w w' : World) :
  wait_for_done rounds tile pchan gmdir timeout w <> Throws e w'.
Proof.
  revert w. induction rounds as [|rounds IH]; intros w; [discriminate|].
  cbn [wait_for_done]. rewrite bind_run. unfold ask.
  destruct (script w) as [|rc rest]; [discriminate|].
  destruct (rc =? 0); [discriminate | apply IH].
Qed.

Lemma wait_sync_bo_failure_conserves (hdr : Headers) (col chan : Z) (tile : XAie_LocType)
    (gmdir : XAie_DmaDirection) (timeout : Z) (c : DMAChannel) (e : exn) (w w' : World) :
  chan_of (aie w) col chan = Some c ->
  wait_sync_bo hdr col chan tile gmdir timeout w = Throws e w' ->
  forall col' chan',
    slots <$> chan_of (aie w') col' chan' = slots <$> chan_of (aie w) col' chan'.
Proof.
  intros Hc H col' chan'. unfold wait_sync_bo in H. rewrite bind_run in H.
  destruct (wait_for_done _ _ _ _ _ w) as [[] w1| e1 w1 | | w1] eqn:Hdone; try discriminate.
  - apply wait_for_done_Returns in Hdone as (Ha & _).
    rewrite bind_run, chan_get_run, Ha, Hc in H.
    assert (Hc1 : chan_of (aie w1) col chan = Some c) by (rewrite Ha; exact Hc).
    destruct (drain_pending_Throws _ _ _ _ _ _ _ _ Hc1 H) as (n & Ha').
    rewrite Ha', Ha. apply slots_set_chan with (c0 := c); [exact Hc|].
    apply slots_drained.
  - exfalso. eapply wait_for_done_never_throws; eauto.
Qed.

(** The busy wait: all four descriptors are pending and the hardware
    reports two of them still in its queue, so the submission gives the two
    oldest back, takes the first of them again and queues it behind the
    other two. *)
Example submit_on_a_full_channel :
  let pending := [ {| bd_num := 0; buf_fd := 7; size := 256; vaddr := 4096 |};
                   {| bd_num := 1; buf_fd := 8; size := 256; vaddr := 8192 |};
                   {| bd_num := 2; buf_fd := 9; size := 256; vaddr := 12288 |};
                   {| bd_num := 3; buf_fd := 10; size := 256; vaddr := 16384 |} ] in
  let w := {| aie := set_chan sample_aie 0 0 {| idle_bds := []; pend_bds := pending |};
              pool := sample_pool; script := [4; 2; 0; 0; 0; 20480]; errno := 5;
              trace := [] |} in
  exists w',
    sync_bo_nb hardware sample_bo "gmio0" XCL_BO_SYNC_BO_GMIO_TO_AIE 256 0 w =
      Returns tt w' /\
    bd_num <$> cleared (trace w') = [0; 1] /\
    option_map (fun c => (bd_num <$> idle_bds c, bd_num <$> pend_bds c))
      (chan_of (aie w') 0 0) = Some ([1], [2; 3; 0]).
Proof. eexists. split; [vm_compute; reflexivity|]. split; reflexivity. Qed.

(** ** The resource pool *)

Lemma requestResource_Some (slots slots' : list (option Z)) (owner : Z) (i : nat) :
  requestResource slots owner = Some (i, slots') ->
  slots !! i = Some None /\ slots' = <[i := Some owner]> slots.
Proof.
  revert i slots'. induction slots as [|[o|] rest IH]; intros i slots'; simpl.
  - discriminate.
  - destruct (requestResource rest owner) as [[j rest']|]; [|discriminate].
    intros [= <- <-]. destruct (IH j rest' eq_refl) as [H1 ->]. auto.
  - intros [= <- <-]. auto.
Qed.

(** Releasing what was just granted gives the slots as they were. *)
Lemma release_after_request (slots slots' : list (option Z)) (owner : Z) (i : nat) :
  requestResource slots owner = Some (i, slots') ->
  releaseResource slots' owner (Z.of_nat i) = slots.
Proof.
  intros H. apply requestResource_Some in H as [Hfree ->].
  unfold releaseResource.
  destruct (Z.ltb_spec (Z.of_nat i) 0); [lia|].
  rewrite Nat2Z.id.
  rewrite list_lookup_insert_eq by (eapply lookup_lt_Some; eauto).
  rewrite Z.eqb_refl, list_insert_insert_eq.
  apply list_insert_id. exact Hfree.
Qed.

Lemma index_set_shim (p : ResourcePool) (col : Z) (t t' : PLModule) :
  index (shimTiles p) col = Some t ->
  index (shimTiles (set_shim p col t')) col = Some t'.
Proof.
  unfold index, set_shim. simpl. intros H.
  apply list_lookup_insert_eq. eapply lookup_lt_Some; eauto.
Qed.

Lemma set_shim_set_shim (p : ResourcePool) (col : Z) (t1 t2 : PLModule) :
  set_shim (set_shim p col t1) col t2 = set_shim p col t2.
Proof. unfold set_shim, with_shimTiles. simpl. by rewrite list_insert_insert_eq. Qed.

Lemma set_shim_id (p : ResourcePool) (col : Z) (t : PLModule) :
  index (shimTiles p) col = Some t -> set_shim p col t = p.
Proof.
  unfold index, set_shim, with_shimTiles. intros H.
  rewrite list_insert_id by exact H. by destruct p.
Qed.

Lemma plModule_requestStreamEventPort_run (col handle : Z) (t : PLModule) (w : World) :
  index (shimTiles (pool w)) col = Some t ->
  plModule_requestStreamEventPort col handle w =
  match requestResource (pl_streamEventPorts t) handle with
  | None => Returns (-1) (logged w [requestStreamEventPort col handle])
  | Some (i, slots) =>
      Returns (Z.of_nat i)
        (with_pool (logged w [requestStreamEventPort col handle])
           (set_shim (pool w) col
              {| pl_performanceCounters := pl_performanceCounters t;
                 pl_streamEventPorts := slots |}))
  end.
Proof.
  intros Ht. unfold plModule_requestStreamEventPort.
  rewrite bind_run, call_run, bind_run. cbn [get_pool pool logged]. rewrite Ht.
  destruct (requestResource (pl_streamEventPorts t) handle) as [[i slots]|]; reflexivity.
Qed.

Lemma plModule_requestPerformanceCounter_run (col handle : Z) (t : PLModule) (w : World) :
  index (shimTiles (pool w)) col = Some t ->
  plModule_requestPerformanceCounter col handle w =
  match requestResource (pl_performanceCounters t) handle with
  | None => Returns (-1) (logged w [requestPerformanceCounter col handle])
  | Some (i, slots) =>
      Returns (Z.of_nat i)
        (with_pool (logged w [requestPerformanceCounter col handle])
           (set_shim (pool w) col
              {| pl_performanceCounters := slots;
                 pl_streamEventPorts := pl_streamEventPorts t |}))
  end.
Proof.
  intros Ht. unfold plModule_requestPerformanceCounter.
  rewrite bind_run, call_run, bind_run. cbn [get_pool pool logged]. rewrite Ht.
  destruct (requestResource (pl_performanceCounters t) handle) as [[i slots]|]; reflexivity.
Qed.

Lemma plModule_releasePerformanceCounter_run (at_ : XAie_LocType) (handle counter : Z)
    (t : PLModule) (w : World) :
  index (shimTiles (pool w)) (Col at_) = Some t ->
  plModule_releasePerformanceCounter at_ handle counter w =
  Returns tt
    (with_pool (logged w [releasePerformanceCounter pl_module at_ handle counter])
       (set_shim (pool w) (Col at_)
          {| pl_performanceCounters := releaseResource (pl_performanceCounters t) handle counter;
             pl_streamEventPorts := pl_streamEventPorts t |})).
Proof.
  intros Ht. unfold plModule_releasePerformanceCounter.
  rewrite bind_run, call_run, bind_run. cbn [get_pool pool logged]. rewrite Ht.
  reflexivity.
Qed.

Lemma plModule_releaseStreamEventPort_run (col handle port : Z) (t : PLModule) (w : World) :
  index (shimTiles (pool w)) col = Some t ->
  plModule_releaseStreamEventPort col handle port w =
  Returns tt
    (with_pool (logged w [releaseStreamEventPort col handle port])
       (set_shim (pool w) col
          {| pl_performanceCounters := pl_performanceCounters t;
             pl_streamEventPorts := releaseResource (pl_streamEventPorts t) handle port |})).
Proof.
  intros Ht. unfold plModule_releaseStreamEventPort.
  rewrite bind_run, call_run, bind_run. cbn [get_pool pool logged]. rewrite Ht.
  reflexivity.
Qed.

(** ** Starting a session *)

(** The second half of [start_profiling], by what the pool grants. *)
Lemma acquire_and_record_run (option : Z) (tile : XAie_LocType) (mode : XAie_StrmPortIntf)
    (stream : Z) (t : PLModule) (w : World) :
  index (shimTiles (pool w)) (Col tile) = Some t ->
  acquire_and_record option tile mode stream w =
  let h := next_handle (aie w) in
  match requestResource (pl_streamEventPorts t) h,
        requestResource (pl_performanceCounters t) h with
  | Some (i, ports), Some (j, counters) =>
      Returns h
        {| aie := with_eventRecords (aie w)
                    (eventRecords (aie w) ++ [session_record option tile j i]);
           pool := set_shim (pool w) (Col tile)
                     {| pl_performanceCounters := counters; pl_streamEventPorts := ports |};
           script := script w; errno := errno w;
           trace := trace w ++
             [ requestStreamEventPort (Col tile) h; requestPerformanceCounter (Col tile) h;
               XAie_EventSelectStrmPort tile (to_u8 (Z.of_nat i)) mode stream;
               XAie_PerfCounterControlSet tile (to_u8 (Z.of_nat j)) (Z.of_nat i) ] |}
  | port, counter => Throws exhausted (logged w (unwinding tile h port counter))
  end.
Proof.
  intros Ht. unfold acquire_and_record. rewrite bind_run. cbn [get_aie].
  fold (next_handle (aie w)). set (h := next_handle (aie w)).
  rewrite bind_run, (plModule_requestStreamEventPort_run _ _ t) by exact Ht.
  destruct (requestResource (pl_streamEventPorts t) h) as [[i ports]|] eqn:Hport.
  - rewrite bind_run.
    rewrite (plModule_requestPerformanceCounter_run _ _
               {| pl_performanceCounters := pl_performanceCounters t;
                  pl_streamEventPorts := ports |})
      by (cbn [pool with_pool]; eapply index_set_shim; eauto).
    cbn [pl_performanceCounters pl_streamEventPorts].
    destruct (requestResource (pl_performanceCounters t) h) as [[j counters]|] eqn:Hctr.
    + destruct (Z.leb_spec 0 (Z.of_nat j)); [|lia].
      destruct (Z.leb_spec 0 (Z.of_nat i)); [|lia].
      cbn [andb]. repeat (rewrite bind_run, call_run; cbv iota beta).
      rewrite bind_run. cbn [get_aie]. rewrite bind_run. cbn [put_aie mret M_ret].
      unfold with_pool, logged, session_record. cbn [aie pool script errno trace].
      rewrite set_shim_set_shim, <- !app_assoc. reflexivity.
    + destruct (Z.leb_spec 0 (-1)); [lia|]. cbn [andb].
      rewrite bind_run. cbn [mret M_ret].
      destruct (Z.leb_spec 0 (Z.of_nat i)); [|lia].
      rewrite bind_run.
      rewrite (plModule_releaseStreamEventPort_run _ _ _
                 {| pl_performanceCounters := pl_performanceCounters t;
                    pl_streamEventPorts := ports |})
        by (cbn [pool with_pool logged]; eapply index_set_shim; eauto).
      cbn [pl_performanceCounters pl_streamEventPorts].
      rewrite (release_after_request _ _ _ _ Hport).
      unfold throw, exhausted, with_pool, logged, unwinding.
      cbn [aie pool script errno trace].
      rewrite set_shim_set_shim, set_shim_id, <- !app_assoc by (destruct t; exact Ht).
      reflexivity.
  - rewrite bind_run.
    rewrite (plModule_requestPerformanceCounter_run _ _ t) by exact Ht.
    destruct (requestResource (pl_performanceCounters t) h) as [[j counters]|] eqn:Hctr.
    + destruct (Z.leb_spec 0 (-1)); [lia|].
      destruct (Z.leb_spec 0 (Z.of_nat j)); [|lia]. cbn [andb].
      rewrite bind_run.
      rewrite (plModule_releasePerformanceCounter_run _ _ _
                 {| pl_performanceCounters := counters;
                    pl_streamEventPorts := pl_streamEventPorts t |})
        by (cbn [pool with_pool logged]; eapply index_set_shim; eauto).
      cbn [pl_performanceCounters pl_streamEventPorts].
      rewrite (release_after_request _ _ _ _ Hctr).
      rewrite bind_run. cbn [mret M_ret].
      unfold throw, exhausted, with_pool, logged, unwinding.
      cbn [aie pool script errno trace].
      rewrite set_shim_set_shim, set_shim_id, <- !app_assoc by (destruct t; exact Ht).
      reflexivity.
    + destruct (Z.leb_spec 0 (-1)); [lia|]. cbn [andb].
      rewrite !bind_run. cbn [mret M_ret].
      unfold throw, exhausted, logged, unwinding. cbn [aie pool script errno trace].
      rewrite <- !app_assoc. reflexivity.
Qed.

(** ** Computations that leave the object alone *)

Lemma keeps_object_ret {A} (a : A) : keeps_object (mret a).
Proof. intros w. reflexivity. Qed.

Lemma keeps_object_throw {A} (e : exn) : keeps_object (@throw A e).
Proof. intros w. reflexivity. Qed.

Lemma keeps_object_undefined {A} : keeps_object (@undefined A).
Proof. intros w. exact I. Qed.

Lemma keeps_object_call (e : Event) : keeps_object (call e).
Proof. intros w. reflexivity. Qed.

Lemma keeps_object_ask (e : Event) : keeps_object (ask e).
Proof. intros w. unfold ask. destruct (script w); reflexivity. Qed.

Lemma keeps_object_put_pool (p : ResourcePool) : keeps_object (put_pool p).
Proof. intros w. reflexivity. Qed.

Lemma keeps_object_bind {A B} (m : M A) (k : A -> M B) :
  keeps_object m -> (forall a, keeps_object (k a)) -> keeps_object (m ≫= k).
Proof.
  intros Hm Hk w. rewrite bind_run. specialize (Hm w).
  destruct (m w) as [a w1| e w1 | | w1]; auto.
  specialize (Hk a w1). destruct (k a w1); congruence.
Qed.

Create HintDb object discriminated.

#[local] Hint Resolve keeps_object_ret keeps_object_throw keeps_object_undefined
  keeps_object_call keeps_object_ask keeps_object_put_pool : object.

Ltac keeps_object_step :=
  first
    [ apply keeps_object_bind; [| intro]
    | match goal with
      | |- keeps_object (match ?x with _ => _ end) => destruct x
      | |- keeps_object (if ?b then _ else _) => destruct b
      | |- keeps_object (let '(_, _) := ?x in _) => destruct x
      end
    | solve [auto with object]
    | intros w; reflexivity ].

Lemma keeps_object_release_acquired (phdl : Z) (r : AcquiredResource) :
  keeps_object (release_acquired phdl r).
Proof.
  unfold release_acquired, plModule_releasePerformanceCounter,
    coreModule_releasePerformanceCounter, plModule_releaseStreamEventPort.
  repeat keeps_object_step.
Qed.

Lemma keeps_object_release_all (phdl : Z) (l : list AcquiredResource) :
  keeps_object (release_all phdl l).
Proof.
  induction l as [|r rest IH]; cbn [release_all].
  - apply keeps_object_ret.
  - apply keeps_object_bind; [apply keeps_object_release_acquired | intros _; exact IH].
Qed.

(** [stop_profiling] writes to no field of the object: the session list,
    with the option of every record, is after the call what it was before. *)
Lemma keeps_object_stop_profiling (phdl : Z) : keeps_object (stop_profiling phdl).
Proof.
  intros w. unfold stop_profiling. rewrite bind_run. cbn [get_aie].
  destruct (to_size_t phdl <? _); [|reflexivity].
  destruct (index _ _) as [record|]; [|exact I].
  destruct (0 <=? option_ record); [|reflexivity].
  apply keeps_object_release_all.
Qed.

Lemma keeps_object_read_profiling (phdl : Z) : keeps_object (read_profiling phdl).
Proof.
  intros w. unfold read_profiling. rewrite bind_run. cbn [get_aie].
  destruct (index _ _) as [record|]; [|exact I].
  destruct (index _ _) as [r|]; [|exact I].
  destruct (decide _); [|reflexivity].
  apply keeps_object_bind; [apply keeps_object_ask | intros v; apply keeps_object_ret].
Qed.

(** ** Looking up a port *)

Lemma find_gmio_None (name : string) (l : list gmio_type) :
  find_gmio name l = None <-> forall g, g ∈ l -> gmio_name g <> name.
Proof.
  unfold find_gmio. split.
  - intros H g Hg Heq. apply list_elem_of_In in Hg.
    pose proof (find_none _ _ H g Hg) as Hneq. simpl in Hneq.
    apply String.eqb_neq in Hneq. contradiction.
  - intros H. destruct (find _ l) as [g|] eqn:Hf; [|reflexivity].
    apply find_some in Hf as [Hg Heq]. apply String.eqb_eq in Heq.
    apply list_elem_of_In in Hg. exfalso. eapply H; eauto.
Qed.

Lemma find_gmio_Some (name : string) (l : list gmio_type) :
  is_Some (find_gmio name l) <-> exists g, g ∈ l /\ gmio_name g = name.
Proof.
  split.
  - intros [g Hf]. unfold find_gmio in Hf. apply find_some in Hf as [Hg Heq].
    apply String.eqb_eq in Heq. apply list_elem_of_In in Hg. eauto.
  - intros (g & Hg & Heq). destruct (find_gmio name l) eqn:Hf; [eauto|].
    exfalso. eapply find_gmio_None; eauto.
Qed.

Lemma find_plio_None (name : string) (l : list plio_type) :
  find_plio name l = None <->
  forall p, p ∈ l -> plio_name p <> name /\ plio_logical_name p <> name.
Proof.
  unfold find_plio. split.
  - intros H p Hp. apply list_elem_of_In in Hp.
    destruct (find _ l) eqn:Hf1 in H; [discriminate|].
    pose proof (find_none _ _ Hf1 p Hp) as H1.
    pose proof (find_none _ _ H p Hp) as H2. simpl in H1, H2.
    apply String.eqb_neq in H1, H2. auto.
  - intros H.
    destruct (find (fun it => String.eqb (plio_name it) name) l) as [p|] eqn:Hf1.
    { apply find_some in Hf1 as [Hp Heq]. apply String.eqb_eq in Heq.
      apply list_elem_of_In in Hp. destruct (H p Hp). contradiction. }
    destruct (find (fun it => String.eqb (plio_logical_name it) name) l)
      as [p|] eqn:Hf2; [|reflexivity].
    apply find_some in Hf2 as [Hp Heq]. apply String.eqb_eq in Heq.
    apply list_elem_of_In in Hp. destruct (H p Hp). contradiction.
Qed.

Lemma find_plio_Some (name : string) (l : list plio_type) :
  is_Some (find_plio name l) <->
  exists p, p ∈ l /\ (plio_name p = name \/ plio_logical_name p = name).
Proof.
  split.
  - intros [p Hf]. unfold find_plio in Hf.
    destruct (find (fun it => String.eqb (plio_name it) name) l) as [p1|] eqn:Hf1.
    + injection Hf as <-. apply find_some in Hf1 as [Hp Heq].
      apply String.eqb_eq in Heq. apply list_elem_of_In in Hp. eauto.
    + apply find_some in Hf as [Hp Heq].
      apply String.eqb_eq in Heq. apply list_elem_of_In in Hp. eauto.
  - intros (p & Hp & Heq). destruct (find_plio name l) eqn:Hf; [eauto|].
    exfalso. destruct (proj1 (find_plio_None name l) Hf p Hp). tauto.
Qed.

(** ** Failures of a start *)

(** C7.  A port name that both tables know (the PLIO table by name or by
    logical name) makes [start_profiling] fail with [-EINVAL]; the world is
    after the failure what it was before: no request reached the pool and
    no call was made. *)
Theorem ambiguous_port_name_acquires_nothing
    (hdr : Headers) (option : Z) (port1_name port2_name : string) (value : Z) (w : World) :
  devInst (aie w) = true ->
  option = IO_STREAM_RUNNING_EVENT_COUNT hdr ->
  (exists g, g ∈ gmios (aie w) /\ gmio_name g = port1_name) ->
  (exists p, p ∈ plios (aie w) /\
             (plio_name p = port1_name \/ plio_logical_name p = port1_name)) ->
  start_profiling hdr option port1_name port2_name value w =
  Throws (xrt_core_error (- EINVAL)
            ("Can't start profiling: ambiguous port name '" ++ port1_name ++ "'")) w.
Proof.
  intros Hdev -> Hg Hp.
  apply find_gmio_Some in Hg as [g Hg]. apply find_plio_Some in Hp as [p Hp].
  unfold start_profiling. rewrite bind_run. cbn [get_aie].
  rewrite Hdev, Z.eqb_refl, Hg, Hp. reflexivity.
Qed.

Lemma ambiguous_port_name_acquires_nothing_witness :
  start_profiling hardware 3 "gmio0" "" 0 ambiguous_world =
  Throws (xrt_core_error (-22) "Can't start profiling: ambiguous port name 'gmio0'")
    ambiguous_world.
Proof.
  apply (ambiguous_port_name_acquires_nothing hardware 3 "gmio0" "" 0 ambiguous_world).
  - reflexivity.
  - reflexivity.
  - exists gmio0. split; [apply list_elem_of_here | reflexivity].
  - eexists. split; [apply list_elem_of_further, list_elem_of_here | right; reflexivity].
Defined.

(** C4.  When the pool does not grant both the event port and the counter,
    [start_profiling] gives back what it was granted and fails with
    [-EAGAIN].  The object, with its session list, and the pool are after
    the failure what they were before; the trace shows the two requests
    followed by the release of the granted resource. *)
Theorem partial_acquisition_is_unwound
    (hdr : Headers) (option : Z) (port1_name port2_name : string) (value : Z)
    (tile : XAie_LocType) (t : PLModule) (w : World) :
  devInst (aie w) = true ->
  option = IO_STREAM_RUNNING_EVENT_COUNT hdr ->
  monitored_tile (aie w) port1_name = Some tile ->
  index (shimTiles (pool w)) (Col tile) = Some t ->
  requestResource (pl_streamEventPorts t) (next_handle (aie w)) = None \/
  requestResource (pl_performanceCounters t) (next_handle (aie w)) = None ->
  exists w',
    start_profiling hdr option port1_name port2_name value w = Throws exhausted w' /\
    aie w' = aie w /\ pool w' = pool w /\
    trace w' = trace w ++
      unwinding tile (next_handle (aie w))
        (requestResource (pl_streamEventPorts t) (next_handle (aie w)))
        (requestResource (pl_performanceCounters t) (next_handle (aie w))).
Proof.
  intros Hdev -> Htile Ht Hnone.
  unfold start_profiling. rewrite bind_run. cbn [get_aie].
  rewrite Hdev, Z.eqb_refl. cbn [negb].
  unfold monitored_tile in Htile.
  assert (Hrun : forall mode stream,
    exists w', acquire_and_record (IO_STREAM_RUNNING_EVENT_COUNT hdr) tile mode stream w =
                 Throws exhausted w' /\
               aie w' = aie w /\ pool w' = pool w /\
               trace w' = trace w ++
                 unwinding tile (next_handle (aie w))
                   (requestResource (pl_streamEventPorts t) (next_handle (aie w)))
                   (requestResource (pl_performanceCounters t) (next_handle (aie w)))).
  { intros mode stream. rewrite (acquire_and_record_run _ _ _ _ t) by exact Ht.
    cbv zeta.
    destruct (requestResource (pl_streamEventPorts t) _) as [[i ports]|],
             (requestResource (pl_performanceCounters t) _) as [[j counters]|];
      try (eexists; split; [reflexivity|]; auto).
    destruct Hnone; discriminate. }
  destruct (find_gmio port1_name (gmios (aie w))) as [g|],
           (find_plio port1_name (plios (aie w))) as [p|]; try discriminate.
  - injection Htile as <-. apply Hrun.
  - injection Htile as <-. apply Hrun.
Qed.

(** The counters are taken, an event port is free: port 0 is granted and
    given back. *)
Lemma partial_acquisition_is_unwound_witness :
  exists w',
    start_profiling hardware 3 "gmio0" "" 0 no_counter_world = Throws exhausted w' /\
    aie w' = aie no_counter_world /\ pool w' = pool no_counter_world /\
    trace w' = [ requestStreamEventPort 0 0; requestPerformanceCounter 0 0;
                 releaseStreamEventPort 0 0 0 ].
Proof.
  apply (partial_acquisition_is_unwound hardware 3 "gmio0" "" 0 (XAie_TileLoc 0 0)
           {| pl_performanceCounters := [Some 7; Some 8];
              pl_streamEventPorts := [None; None] |} no_counter_world).
  - reflexivity.
  - reflexivity.
  - reflexivity.
  - reflexivity.
  - right. reflexivity.
Defined.

(** ** A port name no table knows *)

(** C6, as the code has it.  A transfer, a wait or a profiling start on a
    port name that the table (for profiling: either table) does not know
    fails with an [xrt_core::error] that carries [-EINVAL], the code of the
    invalid-argument failures, and a diagnostic that says the name was not
    found; the world is after the failure what it was before. *)
Theorem absent_port_fails_with_EINVAL (hdr : Headers) (name : string) (w : World) :
  devInst (aie w) = true ->
  (forall g, g ∈ gmios (aie w) -> gmio_name g <> name) ->
  (forall bo dir size offset,
     sync_bo hdr bo name dir size offset w =
       Throws (xrt_core_error (- EINVAL) "Can't sync BO: GMIO name not found") w /\
     sync_bo_nb hdr bo name dir size offset w =
       Throws (xrt_core_error (- EINVAL) "Can't sync BO: GMIO name not found") w) /\
  wait_gmio hdr name w =
    Throws (xrt_core_error (- EINVAL) "Can't wait GMIO: GMIO name not found") w /\
  (forall option port2_name value,
     option = IO_STREAM_RUNNING_EVENT_COUNT hdr ->
     (forall p, p ∈ plios (aie w) -> plio_name p <> name /\ plio_logical_name p <> name) ->
     start_profiling hdr option name port2_name value w =
       Throws (xrt_core_error (- EINVAL)
                 ("Can't start profiling: port name '" ++ name ++ "' not found")) w).
Proof.
  intros Hdev Hg. apply find_gmio_None in Hg.
  split; [|split].
  - intros bo dir size offset. unfold sync_bo, sync_bo_nb.
    rewrite !bind_run. cbn [get_aie]. rewrite Hdev, Hg. auto.
  - unfold wait_gmio. rewrite bind_run. cbn [get_aie]. rewrite Hdev, Hg. reflexivity.
  - intros option port2_name value -> Hp. apply find_plio_None in Hp.
    unfold start_profiling. rewrite bind_run. cbn [get_aie].
    rewrite Hdev, Z.eqb_refl, Hg, Hp. reflexivity.
Qed.

Lemma absent_port_fails_with_EINVAL_witness :
  wait_gmio hardware "gmio7" (sample_world []) =
  Throws (xrt_core_error (-22) "Can't wait GMIO: GMIO name not found") (sample_world []).
Proof.
  refine (proj1 (proj2
    (absent_port_fails_with_EINVAL hardware "gmio7" (sample_world []) _ _))).
  - reflexivity.
  - intros g Hg. apply list_elem_of_In in Hg. simpl in Hg.
    destruct Hg as [<- | []]. discriminate.
Defined.

(** C6, as the specification has it, fails: the error for an absent port
    is not distinct from the invalid-argument error.  A transfer on the
    unknown port ["gmio7"] and a transfer against the direction of the
    known port ["gmio0"] throw errors with one and the same code, [-EINVAL]. *)
Lemma absent_port_error_is_the_invalid_argument_error :
  exists e1 e2 w1 w2,
    sync_bo hardware sample_bo "gmio7" XCL_BO_SYNC_BO_GMIO_TO_AIE 256 0 (sample_world []) =
      Throws e1 w1 /\
    sync_bo hardware sample_bo "gmio0" XCL_BO_SYNC_BO_AIE_TO_GMIO 256 0 (sample_world []) =
      Throws e2 w2 /\
    error_code e1 = Some (- EINVAL) /\
    error_code e1 = error_code e2.
Proof.
  eexists _, _, _, _. split; [vm_compute; reflexivity|].
  split; [vm_compute; reflexivity|]. split; reflexivity.
Qed.

(** ** Reading a session *)

(** C8.  [read_profiling] looks at the first resource recorded for the
    handle.  When it is not a performance counter the call throws (the
    error of [read_profiling] for a resource order that does not match, with
    code [-EAGAIN]) and answers no value.  When it is a performance counter
    the call asks the hardware for that counter and returns the 32-bit
    value it gets. *)
Theorem read_profiling_checks_first_resource
    (phdl : Z) (record : EventRecord) (first : AcquiredResource) (w : World) :
  index (eventRecords (aie w)) phdl = Some record ->
  index (acquiredResources record) 0 = Some first ->
  (resource first <> performance_counter ->
   read_profiling phdl w = Throws order_mismatch w) /\
  (resource first = performance_counter ->
   forall value rest,
     script w = value :: rest ->
     0 <= value < 2 ^ 32 ->
     read_profiling phdl w =
       Returns value
         (answered w rest
            [XAie_PerfCounterGet (loc first) (module first) (to_u8 (id first))])).
Proof.
  intros Hrec Hfirst. unfold read_profiling. rewrite bind_run. cbn [get_aie].
  rewrite Hrec, Hfirst. split.
  - intros Hne. destruct (decide _); [contradiction|]. reflexivity.
  - intros Heq value rest Hs Hrange. destruct (decide _); [|contradiction].
    rewrite bind_run. unfold ask. rewrite Hs. cbn [mret M_ret].
    unfold to_u32. rewrite Z.mod_small by exact Hrange. reflexivity.
Qed.

Lemma read_profiling_checks_first_resource_witness :
  read_profiling 1 (recorded_world [99]) = Throws order_mismatch (recorded_world [99]) /\
  read_profiling 0 (recorded_world [99]) =
    Returns 99 (answered (recorded_world [99]) []
                  [XAie_PerfCounterGet (XAie_TileLoc 0 0) pl_module 0]).
Proof.
  split.
  - refine (proj1 (read_profiling_checks_first_resource 1 _ _ (recorded_world [99])
                     eq_refl eq_refl) _).
    discriminate.
  - refine (proj2 (read_profiling_checks_first_resource 0 _ _ (recorded_world [99])
                     eq_refl eq_refl) eq_refl 99 [] eq_refl _).
    lia.
Defined.

(** ** Handles *)

Lemma to_int_small (z : Z) : 0 <= z < 2 ^ 31 -> to_int z = z.
Proof. intros H. unfold to_int. rewrite Z.mod_small; lia. Qed.

Lemma index_length_app {A} (l : list A) (x : A) :
  Z.of_nat (length l) < 2 ^ 31 ->
  index (l ++ [x]) (Z.of_nat (length l)) = Some x.
Proof.
  intros H. unfold index, to_size_t. rewrite Z.mod_small by lia.
  rewrite Nat2Z.id. apply list_lookup_middle. reflexivity.
Qed.

(** However [acquire_and_record] ends: a return appends one record and
    answers the handle taken before; a failure is the exhaustion failure and
    leaves object and pool as they were. *)
Lemma acquire_and_record_cases (option : Z) (tile : XAie_LocType)
    (mode : XAie_StrmPortIntf) (stream : Z) (w : World) :
  match acquire_and_record option tile mode stream w with
  | Returns h w' =>
      h = next_handle (aie w) /\
      exists counter port,
        aie w' = with_eventRecords (aie w)
                   (eventRecords (aie w) ++ [session_record option tile counter port])
  | Throws e w' => e = exhausted /\ aie w' = aie w /\ pool w' = pool w
  | Undefined => True
  | Stalled _ => False
  end.
Proof.
  destruct (index (shimTiles (pool w)) (Col tile)) as [t|] eqn:Ht.
  - rewrite (acquire_and_record_run _ _ _ _ t) by exact Ht. cbv zeta.
    destruct (requestResource (pl_streamEventPorts t) _) as [[i ports]|],
             (requestResource (pl_performanceCounters t) _) as [[j counters]|];
      cbn [aie pool logged]; eauto.
  - unfold acquire_and_record, plModule_requestStreamEventPort.
    unfold mbind, M_bind, get_aie, call, get_pool. cbn [pool]. rewrite Ht. exact I.
Qed.

Lemma start_profiling_cases (hdr : Headers) (option : Z) (port1_name port2_name : string)
    (value : Z) (w : World) :
  match start_profiling hdr option port1_name port2_name value w with
  | Returns h w' =>
      h = next_handle (aie w) /\
      exists tile counter port,
        aie w' = with_eventRecords (aie w)
                   (eventRecords (aie w) ++ [session_record option tile counter port])
  | Throws e w' => aie w' = aie w /\ pool w' = pool w
  | Undefined => True
  | Stalled _ => False
  end.
Proof.
  unfold start_profiling. rewrite bind_run. cbn [get_aie].
  destruct (negb (devInst (aie w))); [cbn [throw]; auto|].
  destruct (negb (option =? _)); [cbn [throw]; auto|].
  destruct (find_gmio _ _) as [g|], (find_plio _ _) as [p|]; try (cbn [throw]; auto).
  - match goal with |- context [acquire_and_record ?o ?t ?m ?s ?w] =>
      pose proof (acquire_and_record_cases o t m s w) as H;
      destruct (acquire_and_record o t m s w)
    end; auto.
    + destruct H as (-> & c & i & H). eauto 6.
    + tauto.
  - match goal with |- context [acquire_and_record ?o ?t ?m ?s ?w] =>
      pose proof (acquire_and_record_cases o t m s w) as H;
      destruct (acquire_and_record o t m s w)
    end; auto.
    + destruct H as (-> & c & i & H). eauto 6.
    + tauto.
Qed.

(** The session list only grows under the calls of the profiling
    interface. *)
Lemma run_call_grows (hdr : Headers) (c : profiling_call) (w w' : World) :
  run_call hdr c w = Some w' ->
  eventRecords (aie w) `prefix_of` eventRecords (aie w').
Proof.
  destruct c as [option port1_name port2_name value | phdl | phdl]; cbn [run_call].
  - pose proof (start_profiling_cases hdr option port1_name port2_name value w) as Hc.
    destruct (start_profiling _ _ _ _ _ w) as [h w1| e w1 | | w1];
      cbn [world_after]; intros [= <-].
    + destruct Hc as (_ & tile & counter & port & ->). eexists. reflexivity.
    + destruct Hc as [-> _]. reflexivity.
    + contradiction.
  - pose proof (keeps_object_read_profiling phdl w) as Hk.
    destruct (read_profiling phdl w); cbn [world_after]; intros [= <-];
      rewrite Hk; reflexivity.
  - pose proof (keeps_object_stop_profiling phdl w) as Hk.
    destruct (stop_profiling phdl w); cbn [world_after]; intros [= <-];
      rewrite Hk; reflexivity.
Qed.

Lemma run_calls_grow (hdr : Headers) (cs : list profiling_call) (w w' : World) :
  run_calls hdr cs w = Some w' ->
  eventRecords (aie w) `prefix_of` eventRecords (aie w').
Proof.
  revert w. induction cs as [|c cs IH]; intros w; cbn [run_calls].
  - intros [= <-]. reflexivity.
  - destruct (run_call hdr c w) as [w1|] eqn:Hc; [|discriminate].
    intros H. etrans; [eapply run_call_grows; eauto | eauto].
Qed.

(** C9.  A start that returns answers the length the session list had
    before the call, and the list after the call is the list before with
    the new record appended, so the handle is the index of its record.
    Under any sequence of profiling calls (starts that return or fail,
    reads, stops) the list only grows at its end: every record, stopped or
    not, stays at its index, and a later start answers a larger handle. *)
Theorem handle_is_insertion_index (hdr : Headers) (w : World) :
  Z.of_nat (length (eventRecords (aie w))) < 2 ^ 31 ->
  (forall option port1_name port2_name value h w',
     start_profiling hdr option port1_name port2_name value w = Returns h w' ->
     h = Z.of_nat (length (eventRecords (aie w))) /\
     exists record,
       eventRecords (aie w') = eventRecords (aie w) ++ [record] /\
       option_ record = option /\
       index (eventRecords (aie w')) h = Some record) /\
  (forall phdl w',
     stop_profiling phdl w = Returns tt w' ->
     eventRecords (aie w') = eventRecords (aie w)) /\
  (forall calls w',
     run_calls hdr calls w = Some w' ->
     eventRecords (aie w) `prefix_of` eventRecords (aie w') /\
     forall i record,
       eventRecords (aie w) !! i = Some record ->
       eventRecords (aie w') !! i = Some record) /\
  (forall option port1_name port2_name value h w1 calls w2
          option' port1_name' port2_name' value' h' w3,
     start_profiling hdr option port1_name port2_name value w = Returns h w1 ->
     run_calls hdr calls w1 = Some w2 ->
     Z.of_nat (length (eventRecords (aie w2))) < 2 ^ 31 ->
     start_profiling hdr option' port1_name' port2_name' value' w2 = Returns h' w3 ->
     h < h').
Proof.
  intros Hlen.
  assert (Hstart : forall w0 option port1_name port2_name value h w',
    Z.of_nat (length (eventRecords (aie w0))) < 2 ^ 31 ->
    start_profiling hdr option port1_name port2_name value w0 = Returns h w' ->
    h = Z.of_nat (length (eventRecords (aie w0))) /\
    exists record,
      eventRecords (aie w') = eventRecords (aie w0) ++ [record] /\
      option_ record = option /\
      index (eventRecords (aie w')) h = Some record).
  { intros w0 option port1_name port2_name value h w' Hlen0 H.
    pose proof (start_profiling_cases hdr option port1_name port2_name value w0) as Hc.
    rewrite H in Hc. destruct Hc as (-> & tile & counter & port & Ha).
    unfold next_handle. rewrite to_int_small by lia.
    split; [reflexivity|].
    exists (session_record option tile counter port).
    rewrite Ha. cbn [eventRecords with_eventRecords].
    split; [reflexivity|]. split; [reflexivity|].
    apply index_length_app. exact Hlen0. }
  split; [|split; [|split]].
  - intros option port1_name port2_name value h w' H. eapply Hstart; eauto.
  - intros phdl w' H. pose proof (keeps_object_stop_profiling phdl w) as Hk.
    rewrite H in Hk. by rewrite Hk.
  - intros calls w' H. apply run_calls_grow in H as Hpre.
    split; [exact Hpre|].
    intros i record Hi. destruct Hpre as [k ->].
    by apply lookup_app_l_Some.
  - intros option port1_name port2_name value h w1 calls w2
           option' port1_name' port2_name' value' h' w3 H1 Hcalls Hlen2 H2.
    destruct (Hstart _ _ _ _ _ _ _ Hlen H1) as (-> & record & Hrec & _).
    destruct (Hstart _ _ _ _ _ _ _ Hlen2 H2) as (-> & _).
    apply run_calls_grow in Hcalls as [k Hk].
    rewrite Hk, Hrec, !length_app. simpl. lia.
Qed.

(** On the sample array the first start returns handle 0, the index of the
    record it appended. *)
Lemma handle_is_insertion_index_witness :
  0 = Z.of_nat (length (eventRecords (aie (sample_world [])))) /\
  exists record,
    eventRecords (aie session_world) = eventRecords (aie (sample_world [])) ++ [record] /\
    option_ record = 3 /\
    index (eventRecords (aie session_world)) 0 = Some record.
Proof.
  refine (proj1 (handle_is_insertion_index hardware (sample_world []) _)
            3 "gmio0"%string ""%string 0 0 session_world _).
  - simpl. lia.
  - vm_compute. reflexivity.
Defined.

(** Start, stop, start again: the second session gets handle 1 and the
    stopped record is still record 0. *)
Example stopped_handle_is_not_reused :
  exists w,
    (h0 ← start_profiling hardware 3 "gmio0" "" 0;
     stop_profiling h0;;
     h1 ← start_profiling hardware 3 "plio0" "" 0;
     mret (h0, h1)) (sample_world []) = Returns (0, 1) w /\
    eventRecords (aie w) =
      [session_record 3 (XAie_TileLoc 0 0) 0 0; session_record 3 (XAie_TileLoc 0 0) 0 0].
Proof. eexists. split; [vm_compute; reflexivity | reflexivity]. Qed.

(** ** Handles out of range *)

Lemma index_out_of_range {A} (v : list A) (i : Z) :
  - 2 ^ 31 <= i < 2 ^ 31 ->
  Z.of_nat (length v) < 2 ^ 31 ->
  ~ (0 <= i < Z.of_nat (length v)) ->
  Z.of_nat (length v) <= to_size_t i /\ index v i = None.
Proof.
  intros Hi Hv Hout.
  assert (Hge : Z.of_nat (length v) <= to_size_t i).
  { unfold to_size_t. destruct (Z.lt_ge_cases i 0).
    - replace (i mod 2 ^ 64) with (i + 2 ^ 64); [lia|].
      apply Z.mod_unique with (q := -1); lia.
    - rewrite Z.mod_small; lia. }
  split; [exact Hge|].
  unfold index. apply lookup_ge_None. lia.
Qed.

(** C10.  [read_profiling] indexes the session list with the handle as it
    comes.  For a handle below zero or not below the number of sessions the
    indexing is out of bounds: the call has no defined outcome, neither a
    value nor a thrown error, whereas [stop_profiling] on the same handle
    returns and changes nothing. *)
Theorem read_profiling_does_not_check_the_handle (phdl : Z) (w : World) :
  - 2 ^ 31 <= phdl < 2 ^ 31 ->
  Z.of_nat (length (eventRecords (aie w))) < 2 ^ 31 ->
  ~ (0 <= phdl < Z.of_nat (length (eventRecords (aie w)))) ->
  read_profiling phdl w = Undefined /\
  stop_profiling phdl w = Returns tt w.
Proof.
  intros Hi Hv Hout.
  destruct (index_out_of_range _ _ Hi Hv Hout) as [Hge Hnone].
  split.
  - unfold read_profiling. rewrite bind_run. cbn [get_aie]. rewrite Hnone. reflexivity.
  - unfold stop_profiling. rewrite bind_run. cbn [get_aie].
    destruct (Z.ltb_spec (to_size_t phdl) (Z.of_nat (length (eventRecords (aie w)))));
      [lia | reflexivity].
Qed.

Lemma read_profiling_does_not_check_the_handle_witness :
  (read_profiling (-1) session_world = Undefined /\
   stop_profiling (-1) session_world = Returns tt session_world) /\
  (read_profiling 1 session_world = Undefined /\
   stop_profiling 1 session_world = Returns tt session_world).
Proof.
  split.
  - apply (read_profiling_does_not_check_the_handle (-1) session_world);
      simpl; lia.
  - apply (read_profiling_does_not_check_the_handle 1 session_world);
      simpl; lia.
Defined.

(** ** Stopping twice *)

Lemma release_acquired_Returns (phdl : Z) (r : AcquiredResource) (w w' : World) :
  release_acquired phdl r w = Returns tt w' ->
  trace w' = trace w ++ release_calls phdl r.
Proof.
  unfold release_acquired, release_calls, plModule_releasePerformanceCounter,
    coreModule_releasePerformanceCounter, plModule_releaseStreamEventPort,
    mbind, M_bind, mret, M_ret, call, get_pool, put_pool, undefined.
  destruct r as [at_ m [| |] n]; cbn [resource module loc id];
    repeat (destruct (decide _); try done);
    destruct m; try done; cbn [pool trace];
    repeat match goal with
           | |- context [match index ?v ?i with _ => _ end] => destruct (index v i)
           end;
    try discriminate;
    intros [= <-]; cbn [trace];
    rewrite <- ?app_assoc; try reflexivity; by rewrite app_nil_r.
Qed.

Lemma release_all_Returns (phdl : Z) (l : list AcquiredResource) (w w' : World) :
  release_all phdl l w = Returns tt w' ->
  trace w' = trace w ++ flat_map (release_calls phdl) l.
Proof.
  revert w. induction l as [|r rest IH]; intros w; cbn [release_all flat_map].
  - intros [= <-]. by rewrite app_nil_r.
  - intros H. apply bind_Returns in H as ([] & w1 & H1 & H2).
    apply release_acquired_Returns in H1. apply IH in H2.
    rewrite H2, H1, <- app_assoc. reflexivity.
Qed.

(** The calls of a stop are a function of the session list alone, and the
    stop leaves the session list as it is: a second stop of the same handle
    makes the calls of the first. *)
Lemma stop_profiling_Returns (phdl : Z) (w w' : World) :
  stop_profiling phdl w = Returns tt w' ->
  aie w' = aie w /\ trace w' = trace w ++ stop_trace (aie w) phdl.
Proof.
  intros H. split.
  { pose proof (keeps_object_stop_profiling phdl w) as Hk. by rewrite H in Hk. }
  revert H. unfold stop_profiling, stop_trace. rewrite bind_run. cbn [get_aie].
  destruct (to_size_t phdl <? _).
  - destruct (index _ _) as [record|]; [|discriminate].
    destruct (0 <=? option_ record).
    + apply release_all_Returns.
    + intros [= <-]. by rewrite app_nil_r.
  - intros [= <-]. by rewrite app_nil_r.
Qed.

Lemma stop_profiling_twice (phdl : Z) (w w1 w2 : World) :
  stop_profiling phdl w = Returns tt w1 ->
  stop_profiling phdl w1 = Returns tt w2 ->
  trace w2 = (trace w ++ stop_trace (aie w) phdl) ++ stop_trace (aie w) phdl.
Proof.
  intros H1 H2.
  apply stop_profiling_Returns in H1 as [Ha1 Ht1].
  apply stop_profiling_Returns in H2 as [Ha2 Ht2].
  by rewrite Ht2, Ha1, Ht1.
Qed.

(** C2.  A second stop of a handle should find the session marked and do
    nothing.  The code never writes the option field that its guard
    [option >= 0] reads, so the second stop of handle 0 finds the record as
    the first stop found it, resets the counter and the event port in
    hardware again and calls the two releases again. *)
Theorem second_stop_releases_again :
  start_profiling hardware 3 "gmio0" "" 0 (sample_world []) = Returns 0 session_world /\
  exists w1 w2,
    stop_profiling 0 session_world = Returns tt w1 /\
    stop_profiling 0 w1 = Returns tt w2 /\
    option_ <$> eventRecords (aie w1) = [3] /\
    trace w1 = trace session_world ++ stop_calls /\
    trace w2 = trace w1 ++ stop_calls.
Proof.
  split; [vm_compute; reflexivity|].
  eexists _, _. split; [vm_compute; reflexivity|].
  split; [vm_compute; reflexivity|]. repeat split; reflexivity.
Qed.

(** The same slip lets a late stop of handle 0 reset the counter and the
    event port that a later session, handle 1, holds by then. *)
Example late_stop_resets_another_session :
  exists w,
    (stop_profiling 0;;
     h ← start_profiling hardware 3 "plio0" "" 0;
     stop_profiling 0;;
     mret h) session_world = Returns 1 w /\
    pool w = {| shimTiles := [ {| pl_performanceCounters := [Some 1; None];
                                  pl_streamEventPorts := [Some 1; None] |} ];
                aieTiles := [] |} /\
    drop 13 (trace w) = stop_calls.
Proof. eexists. split; [vm_compute; reflexivity|]. split; reflexivity. Qed.

(** * Further properties of the member functions *)

(** ** Argument checks *)

(** X1.  On an object whose [devInst] is null, [sync_bo], [sync_bo_nb],
    [wait_gmio] and [start_profiling] throw [-EINVAL] with a diagnostic
    that says the AIE is not initialized, whatever their arguments, and
    leave the world as it was. *)
Theorem uninitialised_object_refuses (hdr : Headers) (w : World) :
  devInst (aie w) = false ->
  (forall bo name dir size offset,
     sync_bo hdr bo name dir size offset w =
       Throws (xrt_core_error (- EINVAL) "Can't sync BO: AIE is not initialized") w /\
     sync_bo_nb hdr bo name dir size offset w =
       Throws (xrt_core_error (- EINVAL) "Can't sync BO: AIE is not initialized") w) /\
  (forall name,
     wait_gmio hdr name w =
       Throws (xrt_core_error (- EINVAL) "Can't wait GMIO: AIE is not initialized") w) /\
  (forall option port1_name port2_name value,
     start_profiling hdr option port1_name port2_name value w =
       Throws (xrt_core_error (- EINVAL) "Start profiling fails: AIE is not initialized") w).
Proof.
  intros Hdev. repeat split; intros;
    unfold sync_bo, sync_bo_nb, wait_gmio, start_profiling;
    rewrite bind_run; cbn [get_aie]; rewrite Hdev; reflexivity.
Qed.

Lemma uninitialised_object_refuses_witness :
  sync_bo_nb hardware sample_bo "gmio0" XCL_BO_SYNC_BO_GMIO_TO_AIE 256 0 uninitialised_world =
  Throws (xrt_core_error (-22) "Can't sync BO: AIE is not initialized") uninitialised_world.
Proof.
  refine (proj2 (proj1 (uninitialised_object_refuses hardware uninitialised_world _)
                   sample_bo "gmio0"%string XCL_BO_SYNC_BO_GMIO_TO_AIE 256 0)).
  reflexivity.
Defined.

Lemma direction_check_run (dir : xclBOSyncDirection) (gmio : gmio_type) (w : World) :
  match dir with
  | XCL_BO_SYNC_BO_GMIO_TO_AIE =>
      if negb (gmio_type_ gmio =? 0)
      then throw (xrt_core_error (- EINVAL) "Sync BO direction does not match GMIO type")
      else mret tt
  | XCL_BO_SYNC_BO_AIE_TO_GMIO =>
      if negb (gmio_type_ gmio =? 1)
      then throw (xrt_core_error (- EINVAL) "Sync BO direction does not match GMIO type")
      else mret tt
  | XCL_BO_SYNC_BO_OTHER =>
      throw (xrt_core_error (- EINVAL) "Can't sync BO: unknown direction.")
  end w =
  if direction_matches dir gmio then Returns tt w
  else Throws (xrt_core_error (- EINVAL) (direction_diagnostic dir)) w.
Proof.
  destruct dir; cbn [direction_matches direction_diagnostic];
    try destruct (gmio_type_ gmio =? _); reflexivity.
Qed.

(** X2.  A transfer against the direction of its GMIO (type 0 takes only
    GMIO_TO_AIE, type 1 only AIE_TO_GMIO, any other type or direction
    nothing) throws [-EINVAL] from [sync_bo] and from [sync_bo_nb] before
    the length is looked at, and leaves the world as it was: no descriptor
    is taken and no call is made. *)
Theorem wrong_direction_is_refused_first
    (hdr : Headers) (bo : xrtBufferHandle) (name : string) (gmio : gmio_type)
    (dir : xclBOSyncDirection) (size offset : Z) (w : World) :
  devInst (aie w) = true ->
  find_gmio name (gmios (aie w)) = Some gmio ->
  direction_matches dir gmio = false ->
  sync_bo hdr bo name dir size offset w =
    Throws (xrt_core_error (- EINVAL) (direction_diagnostic dir)) w /\
  sync_bo_nb hdr bo name dir size offset w =
    Throws (xrt_core_error (- EINVAL) (direction_diagnostic dir)) w.
Proof.
  intros Hdev Hg Hdir.
  assert (Hsub : submit_sync_bo hdr bo gmio dir size offset w =
                 Throws (xrt_core_error (- EINVAL) (direction_diagnostic dir)) w).
  { unfold submit_sync_bo. rewrite bind_run, direction_check_run, Hdir. reflexivity. }
  unfold sync_bo, sync_bo_nb. rewrite !bind_run. cbn [get_aie].
  rewrite Hdev, Hg. cbn [negb]. rewrite bind_run, Hsub. auto.
Qed.

Lemma wrong_direction_is_refused_first_witness :
  sync_bo hardware sample_bo "gmio0" XCL_BO_SYNC_BO_AIE_TO_GMIO 3 0 (sample_world []) =
    Throws (xrt_core_error (-22) "Sync BO direction does not match GMIO type")
      (sample_world []).
Proof.
  refine (proj1 (wrong_direction_is_refused_first hardware sample_bo "gmio0"%string gmio0
                   XCL_BO_SYNC_BO_AIE_TO_GMIO 3 0 (sample_world []) _ _ _));
    reflexivity.
Defined.

(** X3.  With a transfer-length mask that is not zero, a transfer of an odd
    number of bytes in the right direction throws [-EINVAL] ("size is not
    32 bits aligned") from [sync_bo] and from [sync_bo_nb] and leaves the
    world as it was. *)
Theorem odd_length_is_refused
    (hdr : Headers) (bo : xrtBufferHandle) (name : string) (gmio : gmio_type)
    (dir : xclBOSyncDirection) (size offset : Z) (w : World) :
  devInst (aie w) = true ->
  find_gmio name (gmios (aie w)) = Some gmio ->
  direction_matches dir gmio = true ->
  XAIEDMA_SHIM_TXFER_LEN32_MASK hdr <> 0 ->
  Z.odd size = true ->
  sync_bo hdr bo name dir size offset w =
    Throws (xrt_core_error (- EINVAL) "Sync AIE Bo fails: size is not 32 bits aligned.") w /\
  sync_bo_nb hdr bo name dir size offset w =
    Throws (xrt_core_error (- EINVAL) "Sync AIE Bo fails: size is not 32 bits aligned.") w.
Proof.
  intros Hdev Hg Hdir Hmask Hodd.
  assert (Hsub : submit_sync_bo hdr bo gmio dir size offset w =
    Throws (xrt_core_error (- EINVAL) "Sync AIE Bo fails: size is not 32 bits aligned.") w).
  { unfold submit_sync_bo. rewrite bind_run, direction_check_run, Hdir.
    rewrite bind_run, (size_check_tests_bit_0 hdr size Hmask), Hodd. reflexivity. }
  unfold sync_bo, sync_bo_nb. rewrite !bind_run. cbn [get_aie].
  rewrite Hdev, Hg. cbn [negb]. rewrite bind_run, Hsub. auto.
Qed.

Lemma odd_length_is_refused_witness :
  sync_bo_nb hardware sample_bo "gmio0" XCL_BO_SYNC_BO_GMIO_TO_AIE 255 0 (sample_world []) =
    Throws (xrt_core_error (-22) "Sync AIE Bo fails: size is not 32 bits aligned.")
      (sample_world []).
Proof.
  refine (proj2 (odd_length_is_refused hardware sample_bo "gmio0"%string gmio0
                   XCL_BO_SYNC_BO_GMIO_TO_AIE 255 0 (sample_world []) _ _ _ _ _));
    try reflexivity.
  discriminate.
Defined.

(** X4.  [start_profiling] with an option other than
    [IO_STREAM_RUNNING_EVENT_COUNT] throws [-EINVAL] ("unknown profiling
    option") before it looks up the port name, so also for a name no table
    knows, and leaves the world as it was. *)
Theorem unknown_profiling_option_is_refused
    (hdr : Headers) (option : Z) (port1_name port2_name : string) (value : Z) (w : World) :
  devInst (aie w) = true ->
  option <> IO_STREAM_RUNNING_EVENT_COUNT hdr ->
  start_profiling hdr option port1_name port2_name value w =
    Throws (xrt_core_error (- EINVAL) "Start profiling fails: unknown profiling option.") w.
Proof.
  intros Hdev Hopt. unfold start_profiling. rewrite bind_run. cbn [get_aie].
  rewrite Hdev. cbn [negb].
  destruct (Z.eqb_spec option (IO_STREAM_RUNNING_EVENT_COUNT hdr)); [contradiction|].
  reflexivity.
Qed.

Lemma unknown_profiling_option_is_refused_witness :
  start_profiling hardware 0 "gmio7" "" 0 (sample_world []) =
    Throws (xrt_core_error (-22) "Start profiling fails: unknown profiling option.")
      (sample_world []).
Proof.
  apply (unknown_profiling_option_is_refused hardware 0 "gmio7" "" 0 (sample_world [])).
  - reflexivity.
  - discriminate.
Defined.

(** ** A submission with an idle descriptor at hand *)

Lemma prepare_bd_hardware_run (hdr : Headers) (bd : BD) (bo : xrtBufferHandle)
    (addr : Z) (rest : list Z) (w : World) :
  AIESIM hdr = false ->
  bo_export bo <> XRT_NULL_BO_EXPORT hdr ->
  script w = 0 :: addr :: rest ->
  prepare_bd hdr bd bo w =
    Returns (bound_to bd bo addr)
      (answered w rest
         [ call_prepare_bd bd bo; xrtBOExport bo;
           ioctl_AIE_ATTACH_DMABUF (bo_export bo); mmap (bo_size bo) (bo_export bo) ]).
Proof.
  intros Hsim Hexp Hs.
  unfold prepare_bd, mbind, M_bind, mret, M_ret, call, ask, get_errno, throw, answered.
  cbn [aie pool script errno trace]. rewrite Hsim.
  destruct (Z.eqb_spec (bo_export bo) (XRT_NULL_BO_EXPORT hdr)); [contradiction|].
  cbn [aie pool script errno trace]. rewrite Hs. cbn [Z.eqb negb].
  cbn [aie pool script errno trace]. rewrite <- !app_assoc. reflexivity.
Qed.

Lemma prepare_bd_simulation_run (hdr : Headers) (bd : BD) (bo : xrtBufferHandle) (w : World) :
  AIESIM hdr = true ->
  prepare_bd hdr bd bo w = Returns bd (logged w [call_prepare_bd bd bo]).
Proof.
  intros Hsim. unfold prepare_bd. rewrite bind_run, call_run, Hsim. reflexivity.
Qed.

(** What [submit_sync_bo] does once the checks have passed and the idle
    queue is not empty, in terms of what [prepare_bd] does. *)
Lemma submit_sync_bo_with_idle (hdr : Headers) (bo : xrtBufferHandle) (gmio : gmio_type)
    (dir : xclBOSyncDirection) (size offset : Z) (c : DMAChannel) (bd0 bd' : BD)
    (q : list BD) (w w1 : World) :
  direction_matches dir gmio = true ->
  size_check hdr size = false ->
  chan_of (aie w) (gmio_shim_col gmio) (gmio_channel_number gmio) = Some c ->
  idle_bds c = bd0 :: q ->
  prepare_bd hdr bd0 bo
    (with_aie w (set_chan (aie w) (gmio_shim_col gmio) (gmio_channel_number gmio)
                   {| idle_bds := q; pend_bds := pend_bds c |})) = Returns bd' w1 ->
  submit_sync_bo hdr bo gmio dir size offset w =
    Returns tt
      (with_aie
         (logged w1 (queueing_calls hdr gmio (bd_num bd')
                       (to_size_t ((if AIESIM hdr then bo_address bo else vaddr bd') + offset))
                       (to_u32 size)))
         (set_chan (aie w) (gmio_shim_col gmio) (gmio_channel_number gmio)
            {| idle_bds := q; pend_bds := pend_bds c ++ [bd'] |})).
Proof.
  intros Hdir Hsz Hc Hi Hprep.
  assert (Hd : is_Some (index (shim_dma (aie w)) (gmio_shim_col gmio))).
  { unfold chan_of in Hc. destruct (index (shim_dma (aie w)) (gmio_shim_col gmio)); [eauto|done]. }
  destruct Hd as [dmap Hd].
  unfold submit_sync_bo. rewrite bind_run, direction_check_run, Hdir.
  rewrite bind_run, Hsz. cbn [mret M_ret].
  rewrite bind_run. cbn [get_aie]. rewrite Hd.
  rewrite bind_run.
  replace (find_free_bd hdr (length (script w)) _ _ _ _ _ w) with (Returns tt w).
  2:{ destruct (length (script w)); cbn [find_free_bd];
        rewrite bind_run, chan_get_run, Hc, Hi; reflexivity. }
  rewrite bind_run, chan_get_run, Hc, Hi. cbn [front].
  rewrite bind_run. cbn [mret M_ret].
  rewrite bind_run, pop_idle_run, Hc, Hi.
  rewrite bind_run, Hprep.
  apply prepare_bd_Returns in Hprep as (_ & Ha1 & _).
  repeat (rewrite bind_run, call_run; cbv iota beta).
  rewrite !logged_logged. rewrite push_pend_run. cbn [aie logged].
  rewrite Ha1. cbn [aie with_aie].
  rewrite chan_of_set_chan by (rewrite Hc; eauto).
  cbn [idle_bds pend_bds]. rewrite set_chan_set_chan. reflexivity.
Qed.

(** X5.  When the idle queue of the channel is not empty, a submission
    that passes the checks does not ask the hardware for completions and
    releases nothing.  It takes the descriptor at the head of the idle
    queue, binds the buffer to it (hardware build: export, attach, map),
    programs the mapped address plus the offset, as 64 bits, and the low 32
    bits of the length (the length parameter of the driver has 32 bits, so
    a length of [2 ^ 32 + 4] is programmed as 4), locks with the descriptor
    number, writes and pushes the descriptor, and puts it at the back of
    the pending queue.  In the simulation build the descriptor is queued as
    it was and the address is that of the buffer.  Length and offset are
    [size_t] values. *)
Theorem submission_with_idle_descriptor
    (hdr : Headers) (bo : xrtBufferHandle) (gmio : gmio_type)
    (dir : xclBOSyncDirection) (size offset : Z) (c : DMAChannel) (bd0 : BD)
    (q : list BD) (w : World) :
  0 <= size < 2 ^ 64 ->
  0 <= offset < 2 ^ 64 ->
  direction_matches dir gmio = true ->
  size_check hdr size = false ->
  chan_of (aie w) (gmio_shim_col gmio) (gmio_channel_number gmio) = Some c ->
  idle_bds c = bd0 :: q ->
  (AIESIM hdr = false ->
   bo_export bo <> XRT_NULL_BO_EXPORT hdr ->
   forall addr rest,
     script w = 0 :: addr :: rest ->
     submit_sync_bo hdr bo gmio dir size offset w =
       Returns tt
         {| aie := set_chan (aie w) (gmio_shim_col gmio) (gmio_channel_number gmio)
                     {| idle_bds := q;
                        pend_bds := pend_bds c ++ [bound_to bd0 bo addr] |};
            pool := pool w; script := rest; errno := errno w;
            trace := trace w ++
              [ call_prepare_bd bd0 bo; xrtBOExport bo;
                ioctl_AIE_ATTACH_DMABUF (bo_export bo);
                mmap (bo_size bo) (bo_export bo) ] ++
              queueing_calls hdr gmio (bd_num bd0) (to_size_t (addr + offset))
                (to_u32 size) |}) /\
  (AIESIM hdr = true ->
   submit_sync_bo hdr bo gmio dir size offset w =
     Returns tt
       {| aie := set_chan (aie w) (gmio_shim_col gmio) (gmio_channel_number gmio)
                   {| idle_bds := q; pend_bds := pend_bds c ++ [bd0] |};
          pool := pool w; script := script w; errno := errno w;
          trace := trace w ++
            [ call_prepare_bd bd0 bo ] ++
            queueing_calls hdr gmio (bd_num bd0) (to_size_t (bo_address bo + offset))
              (to_u32 size) |}).
Proof.
  intros _ _ Hdir Hsz Hc Hi. split.
  - intros Hsim Hexp addr rest Hs.
    rewrite (submit_sync_bo_with_idle hdr bo gmio dir size offset c bd0
               (bound_to bd0 bo addr) q w _ Hdir Hsz Hc Hi
               (prepare_bd_hardware_run hdr bd0 bo addr rest
                  (with_aie w (set_chan (aie w) (gmio_shim_col gmio)
                                 (gmio_channel_number gmio)
                                 {| idle_bds := q; pend_bds := pend_bds c |}))
                  Hsim Hexp Hs)).
    rewrite Hsim. unfold with_aie, logged, answered.
    cbn [aie pool script errno trace bound_to bd_num vaddr].
    rewrite <- !app_assoc. reflexivity.
  - intros Hsim.
    rewrite (submit_sync_bo_with_idle hdr bo gmio dir size offset c bd0 bd0 q w _
               Hdir Hsz Hc Hi (prepare_bd_simulation_run hdr bd0 bo _ Hsim)).
    rewrite Hsim. unfold with_aie, logged.
    cbn [aie pool script errno trace].
    rewrite <- !app_assoc. reflexivity.
Qed.

Lemma submission_with_idle_descriptor_witness :
  submit_sync_bo hardware sample_bo gmio0 XCL_BO_SYNC_BO_GMIO_TO_AIE (2 ^ 32 + 4) 16
    (sample_world [0; 4096]) =
  Returns tt
    {| aie := set_chan sample_aie 0 0
                {| idle_bds := [fresh_bd 1; fresh_bd 2; fresh_bd 3];
                   pend_bds := [bound_to (fresh_bd 0) sample_bo 4096] |};
       pool := sample_pool; script := []; errno := 5;
       trace := [ call_prepare_bd (fresh_bd 0) sample_bo; xrtBOExport sample_bo;
                  ioctl_AIE_ATTACH_DMABUF 7; mmap 256 7;
                  XAie_DmaSetAddrLen 4112 4; XAie_DmaSetLock 0 0; XAie_DmaEnableBd;
                  XAie_DmaWriteBd (XAie_TileLoc 0 0) 0;
                  XAie_DmaChannelPushBdToQueue (XAie_TileLoc 0 0) 0 DMA_MM2S 0 ] |}.
Proof.
  refine (proj1 (submission_with_idle_descriptor hardware sample_bo gmio0
                   XCL_BO_SYNC_BO_GMIO_TO_AIE (2 ^ 32 + 4) 16
                   {| idle_bds := [fresh_bd 0; fresh_bd 1; fresh_bd 2; fresh_bd 3];
                      pend_bds := [] |}
                   (fresh_bd 0) [fresh_bd 1; fresh_bd 2; fresh_bd 3]
                   (sample_world [0; 4096]) _ _ _ _ _ _) _ _ 4096 [] _);
    try reflexivity; try lia.
  discriminate.
Defined.

(** ** Blocking transfers and sequences of transfers *)

Lemma find_free_bd_needs_channel (hdr : Headers) (rounds : nat) (col chan : Z)
    (tile : XAie_LocType) (pchan : Z) (gmdir : XAie_DmaDirection) (w : World) :
  chan_of (aie w) col chan = None ->
  find_free_bd hdr rounds col chan tile pchan gmdir w = Undefined.
Proof.
  intros Hc. destruct rounds; cbn [find_free_bd];
    rewrite bind_run, chan_get_run, Hc; reflexivity.
Qed.

Lemma submit_sync_bo_needs_channel (hdr : Headers) (bo : xrtBufferHandle)
    (gmio : gmio_type) (dir : xclBOSyncDirection) (size offset : Z) (w w' : World) :
  submit_sync_bo hdr bo gmio dir size offset w = Returns tt w' ->
  is_Some (chan_of (aie w) (gmio_shim_col gmio) (gmio_channel_number gmio)).
Proof.
  intros H.
  destruct (chan_of (aie w) (gmio_shim_col gmio) (gmio_channel_number gmio)) eqn:Hc;
    [eauto|exfalso].
  unfold submit_sync_bo in H. rewrite bind_run, direction_check_run in H.
  destruct (direction_matches dir gmio); [|discriminate].
  rewrite bind_run in H. destruct (size_check hdr size); [discriminate|].
  cbn [mret M_ret] in H. rewrite bind_run in H. cbn [get_aie] in H.
  destruct (index (shim_dma (aie w)) (gmio_shim_col gmio)); [|discriminate].
  rewrite bind_run, find_free_bd_needs_channel in H by exact Hc. discriminate.
Qed.

Lemma wait_sync_bo_needs_channel (hdr : Headers) (col chan : Z) (tile : XAie_LocType)
    (gmdir : XAie_DmaDirection) (timeout : Z) (w : World) :
  chan_of (aie w) col chan = None ->
  match wait_sync_bo hdr col chan tile gmdir timeout w with
  | Returns _ _ | Throws _ _ => False
  | _ => True
  end.
Proof.
  intros Hc. unfold wait_sync_bo. rewrite bind_run.
  destruct (wait_for_done _ _ _ _ _ w) as [[] w1| e w1 | | w1] eqn:Hdone; try exact I.
  - apply wait_for_done_Returns in Hdone as (Ha & _).
    rewrite bind_run, chan_get_run, Ha, Hc. exact I.
  - eapply wait_for_done_never_throws; eauto.
Qed.

(** X6.  A blocking [sync_bo] that returns leaves the pending queue of the
    channel empty.  Every descriptor that was pending, and then the one
    just submitted, has been handed to [clear_bd], in that order.  The
    descriptor used is the one that heads the idle queue once the pending
    ones are behind it, and it ends at the back of the idle queue, so the
    idle queue holds as many descriptors as the channel had in both
    queues. *)
Theorem blocking_sync_leaves_nothing_pending
    (hdr : Headers) (bo : xrtBufferHandle) (name : string) (gmio : gmio_type)
    (dir : xclBOSyncDirection) (size offset : Z) (w w' : World) :
  find_gmio name (gmios (aie w)) = Some gmio ->
  sync_bo hdr bo name dir size offset w = Returns tt w' ->
  exists c bd0 rest bd',
    chan_of (aie w) (gmio_shim_col gmio) (gmio_channel_number gmio) = Some c /\
    idle_bds c ++ map (unbound hdr) (pend_bds c) = bd0 :: rest /\
    bd_num bd' = bd_num bd0 /\
    chan_of (aie w') (gmio_shim_col gmio) (gmio_channel_number gmio) =
      Some {| idle_bds := rest ++ [unbound hdr bd']; pend_bds := [] |} /\
    length (rest ++ [unbound hdr bd']) = slots c /\
    cleared (trace w') = cleared (trace w) ++ pend_bds c ++ [bd'].
Proof.
  intros Hg H. unfold sync_bo in H. rewrite bind_run in H. cbn [get_aie] in H.
  destruct (negb (devInst (aie w))); [discriminate|]. rewrite Hg in H.
  apply bind_Returns in H as ([] & w1 & Hsub & H).
  destruct (submit_sync_bo_needs_channel _ _ _ _ _ _ _ _ Hsub) as [c Hc].
  destruct (submit_sync_bo_Returns _ _ _ _ _ _ _ _ _ Hc Hsub)
    as (n & bd0 & q & bd' & Hn & Hi & Hnum & Ha1 & _ & Ht1).
  rewrite bind_run in H. cbn [get_aie] in H.
  destruct (index (shim_dma (aie w1)) (gmio_shim_col gmio)); [|discriminate].
  assert (Hc1 : chan_of (aie w1) (gmio_shim_col gmio) (gmio_channel_number gmio) =
                Some {| idle_bds := q; pend_bds := drop n (pend_bds c) ++ [bd'] |}).
  { rewrite Ha1. apply chan_of_set_chan. rewrite Hc; eauto. }
  destruct (wait_sync_bo_Returns _ _ _ _ _ _ _ _ _ Hc1 H) as (Ha2 & _ & _ & Ht2).
  cbn [idle_bds pend_bds] in Ha2, Ht2.
  assert (Hall : idle_bds c ++ map (unbound hdr) (pend_bds c) =
                 bd0 :: q ++ map (unbound hdr) (drop n (pend_bds c))).
  { rewrite <- (take_drop n (pend_bds c)) at 1.
    rewrite map_app, app_assoc. cbn [drained idle_bds] in Hi. rewrite Hi. reflexivity. }
  exists c, bd0, (q ++ map (unbound hdr) (drop n (pend_bds c))), bd'.
  repeat split; auto.
  - rewrite Ha2, Ha1, set_chan_set_chan.
    rewrite chan_of_set_chan by (rewrite Hc; eauto).
    rewrite map_app, app_assoc. reflexivity.
  - apply (f_equal length) in Hall. unfold slots.
    cbn [length] in Hall.
    rewrite ?length_app, ?length_map in Hall.
    rewrite ?length_app, ?length_map. cbn [length]. lia.
  - rewrite Ht2, Ht1, <- !app_assoc. f_equal.
    rewrite app_assoc, take_drop. reflexivity.
Qed.

(** Two polls of a busy hardware, then done: the blocking transfer on the
    sample array returns with descriptor 0 back in the idle queue, behind
    the others. *)
Lemma blocking_sync_leaves_nothing_pending_witness :
  exists w' bd',
    sync_bo hardware sample_bo "gmio0" XCL_BO_SYNC_BO_GMIO_TO_AIE 256 0
      (sample_world [0; 4096; 1; 1; 0; 0]) = Returns tt w' /\
    bd_num bd' = 0 /\
    chan_of (aie w') 0 0 =
      Some {| idle_bds := [fresh_bd 1; fresh_bd 2; fresh_bd 3; with_vaddr bd' 0];
              pend_bds := [] |} /\
    cleared (trace w') = [bd'].
Proof.
  destruct (sync_bo hardware sample_bo "gmio0" XCL_BO_SYNC_BO_GMIO_TO_AIE 256 0
              (sample_world [0; 4096; 1; 1; 0; 0])) as [[] w'| | |] eqn:Hrun;
    try (vm_compute in Hrun; discriminate).
  destruct (blocking_sync_leaves_nothing_pending hardware sample_bo "gmio0"%string gmio0
              XCL_BO_SYNC_BO_GMIO_TO_AIE 256 0 (sample_world [0; 4096; 1; 1; 0; 0]) w'
              eq_refl Hrun) as (c & bd0 & rest & bd' & Hc & Hi & Hnum & Hc' & _ & Ht).
  injection Hc as <-. simpl in Hi. injection Hi as <- <-.
  exists w', bd'. repeat split; auto.
Defined.

(** X7.  Over any sequence of [sync_bo], [sync_bo_nb] and [wait_gmio] calls
    that all return, every channel of every shim DMA holds as many
    descriptors, idle and pending together, as before the first call. *)
Theorem returning_transfers_conserve_descriptors
    (hdr : Headers) (calls : list dma_call) (w w' : World) :
  run_dma_calls hdr calls w = Returns tt w' ->
  forall col chan,
    slots <$> chan_of (aie w') col chan = slots <$> chan_of (aie w) col chan.
Proof.
  revert w. induction calls as [|c calls IH]; intros w H col chan.
  - injection H as <-. reflexivity.
  - cbn [run_dma_calls] in H. apply bind_Returns in H as ([] & w1 & H1 & H2).
    rewrite (IH _ H2). clear IH H2.
    destruct c as [bo name dir size offset | bo name dir size offset | name];
      cbn [run_dma_call] in H1.
    + unfold sync_bo in H1. rewrite bind_run in H1. cbn [get_aie] in H1.
      destruct (negb (devInst (aie w))); [discriminate|].
      destruct (find_gmio name (gmios (aie w))) as [gmio|]; [|discriminate].
      apply bind_Returns in H1 as ([] & w2 & Hsub & H1).
      destruct (submit_sync_bo_needs_channel _ _ _ _ _ _ _ _ Hsub) as [c Hc].
      rewrite <- (submit_sync_bo_conserves _ _ _ _ _ _ _ _ _ Hc Hsub col chan).
      rewrite bind_run in H1. cbn [get_aie] in H1.
      destruct (index (shim_dma (aie w2)) (gmio_shim_col gmio)); [|discriminate].
      destruct (chan_of (aie w2) (gmio_shim_col gmio) (gmio_channel_number gmio))
        as [c2|] eqn:Hc2.
      * apply (wait_sync_bo_conserves _ _ _ _ _ _ _ _ _ Hc2 H1).
      * pose proof (wait_sync_bo_needs_channel hdr _ _ (XAie_TileLoc (gmio_shim_col gmio) 0)
                      (gm_direction gmio) 0 w2 Hc2) as Hno.
        rewrite H1 in Hno. contradiction.
    + unfold sync_bo_nb in H1. rewrite bind_run in H1. cbn [get_aie] in H1.
      destruct (negb (devInst (aie w))); [discriminate|].
      destruct (find_gmio name (gmios (aie w))) as [gmio|]; [|discriminate].
      destruct (submit_sync_bo_needs_channel _ _ _ _ _ _ _ _ H1) as [c Hc].
      apply (submit_sync_bo_conserves _ _ _ _ _ _ _ _ _ Hc H1).
    + unfold wait_gmio in H1. rewrite bind_run in H1. cbn [get_aie] in H1.
      destruct (negb (devInst (aie w))); [discriminate|].
      destruct (find_gmio name (gmios (aie w))) as [gmio|]; [|discriminate].
      destruct (index (shim_dma (aie w)) (gmio_shim_col gmio)); [|discriminate].
      destruct (chan_of (aie w) (gmio_shim_col gmio) (gmio_channel_number gmio))
        as [c|] eqn:Hc.
      * apply (wait_sync_bo_conserves _ _ _ _ _ _ _ _ _ Hc H1).
      * pose proof (wait_sync_bo_needs_channel hdr _ _ (XAie_TileLoc (gmio_shim_col gmio) 0)
                      (gm_direction gmio) 0 w Hc) as Hno.
        rewrite H1 in Hno. contradiction.
Qed.

(** Two non-blocking transfers, a wait and a blocking transfer on the
    sample array: channel 0 has its four descriptors. *)
Lemma returning_transfers_conserve_descriptors_witness :
  exists w',
    run_dma_calls hardware
      [ SyncNb sample_bo "gmio0" XCL_BO_SYNC_BO_GMIO_TO_AIE 256 0;
        SyncNb sample_bo "gmio0" XCL_BO_SYNC_BO_GMIO_TO_AIE 128 0;
        WaitGmio "gmio0";
        Sync sample_bo "gmio0" XCL_BO_SYNC_BO_GMIO_TO_AIE 64 0 ]
      (sample_world [0; 4096; 0; 8192; 0; 0; 0; 0; 12288; 0; 0]) = Returns tt w' /\
    slots <$> chan_of (aie w') 0 0 = Some 4%nat.
Proof.
  destruct (run_dma_calls hardware _ (sample_world [0; 4096; 0; 8192; 0; 0; 0; 0; 12288; 0; 0]))
    as [[] w'| | |] eqn:Hrun; try (vm_compute in Hrun; discriminate).
  exists w'. split; [reflexivity|].
  rewrite (returning_transfers_conserve_descriptors hardware _ _ w' Hrun 0 0).
  reflexivity.
Defined.

(** X8.  [wait_gmio] never loses a descriptor, also when it throws: whether
    it returns or throws (not initialized, unknown name, column out of
    range, or a detach request the kernel refuses in the middle of the
    drain), every channel holds as many descriptors as before. *)
Theorem wait_gmio_keeps_every_descriptor
    (hdr : Headers) (name : string) (w w' : World) :
  (wait_gmio hdr name w = Returns tt w' \/ exists e, wait_gmio hdr name w = Throws e w') ->
  forall col chan,
    slots <$> chan_of (aie w') col chan = slots <$> chan_of (aie w) col chan.
Proof.
  intros H col chan. unfold wait_gmio in H. rewrite bind_run in H. cbn [get_aie] in H.
  destruct (negb (devInst (aie w))).
  { destruct H as [H | [e H]]; [discriminate | by injection H as _ <-]. }
  destruct (find_gmio name (gmios (aie w))) as [gmio|].
  2:{ destruct H as [H | [e H]]; [discriminate | by injection H as _ <-]. }
  destruct (index (shim_dma (aie w)) (gmio_shim_col gmio)).
  2:{ destruct H as [H | [e H]]; [discriminate | by injection H as _ <-]. }
  destruct (chan_of (aie w) (gmio_shim_col gmio) (gmio_channel_number gmio))
    as [c|] eqn:Hc.
  - destruct H as [H | [e H]].
    + apply (wait_sync_bo_conserves _ _ _ _ _ _ _ _ _ Hc H).
    + apply (wait_sync_bo_failure_conserves _ _ _ _ _ _ _ _ _ _ Hc H).
  - pose proof (wait_sync_bo_needs_channel hdr _ _ (XAie_TileLoc (gmio_shim_col gmio) 0)
                  (gm_direction gmio) 0 w Hc) as Hno.
    destruct H as [H | [e H]]; rewrite H in Hno; contradiction.
Qed.

(** The kernel refuses the detach of [bd_B]: the wait throws, [bd_A] is
    idle, [bd_B] still pending, four descriptors in all. *)
Lemma wait_gmio_keeps_every_descriptor_witness :
  exists e w',
    wait_gmio hardware "gmio0" (busy_world [0; 0; 1]) = Throws e w' /\
    slots <$> chan_of (aie w') 0 0 = Some 4%nat.
Proof.
  destruct (wait_gmio hardware "gmio0" (busy_world [0; 0; 1])) as [| e w' | |] eqn:Hrun;
    try (vm_compute in Hrun; discriminate).
  exists e, w'. split; [reflexivity|].
  rewrite (wait_gmio_keeps_every_descriptor hardware "gmio0" (busy_world [0; 0; 1]) w'
             (or_intror (ex_intro _ e Hrun)) 0 0).
  reflexivity.
Defined.

(** ** The busy wait *)

Lemma find_free_bd_stalls (hdr : Headers) (rounds : nat) (col chan : Z)
    (tile : XAie_LocType) (pchan : Z) (gmdir : XAie_DmaDirection)
    (c : DMAChannel) (dmap : ShimDMA) (w : World) :
  chan_of (aie w) col chan = Some c ->
  idle_bds c = [] ->
  index (shim_dma (aie w)) col = Some dmap ->
  Forall (fun npend => maxqSize dmap <= to_u8 npend) (script w) ->
  exists w',
    find_free_bd hdr rounds col chan tile pchan gmdir w = Stalled w' /\
    aie w' = aie w /\ pool w' = pool w /\
    cleared (trace w') = cleared (trace w).
Proof.
  revert w. induction rounds as [|rounds IH]; intros w Hc Hi Hd Hall.
  - cbn [find_free_bd]. rewrite bind_run, chan_get_run, Hc, Hi. eauto.
  - cbn [find_free_bd]. rewrite bind_run, chan_get_run, Hc, Hi.
    rewrite bind_run. unfold ask.
    destruct (script w) as [|npend rest] eqn:Hs; [eauto|].
    inversion Hall as [|? ? Hnp Hrest]; subst.
    rewrite bind_run. cbn [get_aie aie]. rewrite Hd.
    replace (Z.to_nat (maxqSize dmap - to_u8 npend)) with 0%nat by lia.
    rewrite bind_run. cbn [drain_completed mret M_ret].
    match goal with |- context [find_free_bd _ _ _ _ _ _ _ ?w1] =>
      destruct (IH w1) as (w' & Hrun & Ha & Hp & Ht); auto
    end.
    exists w'. repeat split; auto.
    rewrite Ht. cbn [trace]. rewrite cleared_app. cbn [cleared omap].
    by rewrite app_nil_r.
Qed.

(** X9.  The busy wait of a submission has no bound of its own.  With the
    idle queue empty, as long as every answer of
    [XAie_DmaGetPendingBdCount] is at least the queue size of the shim DMA,
    [submit_sync_bo] neither returns nor throws: it is still polling when
    the answers run out, and it has changed no queue, released no
    descriptor and left the pool alone. *)
Theorem busy_wait_polls_until_a_completion
    (hdr : Headers) (bo : xrtBufferHandle) (gmio : gmio_type)
    (dir : xclBOSyncDirection) (size offset : Z)
    (c : DMAChannel) (dmap : ShimDMA) (w : World) :
  direction_matches dir gmio = true ->
  size_check hdr size = false ->
  chan_of (aie w) (gmio_shim_col gmio) (gmio_channel_number gmio) = Some c ->
  idle_bds c = [] ->
  index (shim_dma (aie w)) (gmio_shim_col gmio) = Some dmap ->
  Forall (fun npend => maxqSize dmap <= to_u8 npend) (script w) ->
  exists w',
    submit_sync_bo hdr bo gmio dir size offset w = Stalled w' /\
    aie w' = aie w /\ pool w' = pool w /\
    cleared (trace w') = cleared (trace w).
Proof.
  intros Hdir Hsz Hc Hi Hd Hall.
  unfold submit_sync_bo. rewrite bind_run, direction_check_run, Hdir.
  rewrite bind_run, Hsz. cbn [mret M_ret].
  rewrite bind_run. cbn [get_aie]. rewrite Hd. rewrite bind_run.
  destruct (find_free_bd_stalls hdr (length (script w)) (gmio_shim_col gmio)
              (gmio_channel_number gmio) (XAie_TileLoc (gmio_shim_col gmio) 0)
              (to_u32 (CONVERT_LCHANL_TO_PCHANL hdr (gmio_channel_number gmio)))
              (gm_direction gmio) c dmap w Hc Hi Hd Hall) as (w' & -> & H).
  eauto.
Qed.

Lemma busy_wait_polls_until_a_completion_witness :
  exists w',
    submit_sync_bo hardware sample_bo gmio0 XCL_BO_SYNC_BO_GMIO_TO_AIE 256 0
      (full_world [4; 4; 4; 4; 4]) = Stalled w' /\
    aie w' = aie (full_world [4; 4; 4; 4; 4]) /\
    pool w' = pool (full_world [4; 4; 4; 4; 4]) /\
    cleared (trace w') = [].
Proof.
  apply (busy_wait_polls_until_a_completion hardware sample_bo gmio0
           XCL_BO_SYNC_BO_GMIO_TO_AIE 256 0 full_channel
           {| configured := true; maxqSize := 4;
              dma_chan := [ full_channel;
                            {| idle_bds := []; pend_bds := [] |};
                            {| idle_bds := []; pend_bds := [] |};
                            {| idle_bds := []; pend_bds := [] |} ] |}
           (full_world [4; 4; 4; 4; 4])); try reflexivity.
  repeat constructor; vm_compute; discriminate.
Defined.

(** ** Binding and releasing a buffer *)

(** X10.  In the hardware build the release of a descriptor undoes its
    binding: [prepare_bd] attaches the descriptor the buffer exports as and
    maps the size of the buffer, and [clear_bd] on the descriptor it leaves
    unmaps that very address with that very size and detaches that very
    descriptor.  The hardware descriptor keeps its number through both and
    ends with a null address. *)
Theorem release_undoes_binding
    (hdr : Headers) (bd : BD) (bo : xrtBufferHandle) (addr : Z) (rest : list Z) (w : World) :
  AIESIM hdr = false ->
  bo_export bo <> XRT_NULL_BO_EXPORT hdr ->
  script w = 0 :: addr :: 0 :: rest ->
  (bd' ← prepare_bd hdr bd bo; clear_bd hdr bd') w =
    Returns {| bd_num := bd_num bd; buf_fd := bo_export bo; size := bo_size bo; vaddr := 0 |}
      (answered w rest
         [ call_prepare_bd bd bo; xrtBOExport bo;
           ioctl_AIE_ATTACH_DMABUF (bo_export bo); mmap (bo_size bo) (bo_export bo);
           call_clear_bd (bound_to bd bo addr);
           munmap addr (bo_size bo); ioctl_AIE_DETACH_DMABUF (bo_export bo) ]).
Proof.
  intros Hsim Hexp Hs.
  rewrite bind_run, (prepare_bd_hardware_run hdr bd bo addr (0 :: rest) w Hsim Hexp Hs).
  rewrite clear_bd_run, Hsim. cbn [script answered Z.eqb].
  unfold answered. cbn [aie pool script errno trace bound_to vaddr size buf_fd].
  rewrite <- app_assoc. reflexivity.
Qed.

Lemma release_undoes_binding_witness :
  (bd' ← prepare_bd hardware (fresh_bd 2) sample_bo; clear_bd hardware bd')
    (sample_world [0; 4096; 0]) =
  Returns {| bd_num := 2; buf_fd := 7; size := 256; vaddr := 0 |}
    (answered (sample_world [0; 4096; 0]) []
       [ call_prepare_bd (fresh_bd 2) sample_bo; xrtBOExport sample_bo;
         ioctl_AIE_ATTACH_DMABUF 7; mmap 256 7;
         call_clear_bd (bound_to (fresh_bd 2) sample_bo 4096);
         munmap 4096 256; ioctl_AIE_DETACH_DMABUF 7 ]).
Proof.
  apply (release_undoes_binding hardware (fresh_bd 2) sample_bo 4096 [] (sample_world [0; 4096; 0]));
    try reflexivity.
  discriminate.
Defined.

(** X11.  Binding a buffer in the hardware build fails in two places and
    nowhere else.  A buffer that does not export throws [-errno] before
    anything is attached; a refused attach throws [-errno] before anything
    is mapped, and the exported descriptor is not closed.  The answer of
    [mmap] is not looked at: whatever it is, failure value included,
    [prepare_bd] returns with it as the address of the descriptor. *)
Theorem binding_fails_on_export_and_attach_only
    (hdr : Headers) (bd : BD) (bo : xrtBufferHandle) (w : World) :
  AIESIM hdr = false ->
  (bo_export bo = XRT_NULL_BO_EXPORT hdr ->
   prepare_bd hdr bd bo w =
     Throws (xrt_core_error (- errno w) "Sync AIE Bo: fail to export BO.")
       (logged w [call_prepare_bd bd bo; xrtBOExport bo])) /\
  (bo_export bo <> XRT_NULL_BO_EXPORT hdr ->
   forall ret rest,
     script w = ret :: rest -> ret <> 0 ->
     prepare_bd hdr bd bo w =
       Throws (xrt_core_error (- errno w) "Sync AIE Bo: fail to attach DMA buf.")
         (answered w rest [call_prepare_bd bd bo; xrtBOExport bo;
                           ioctl_AIE_ATTACH_DMABUF (bo_export bo)])) /\
  (bo_export bo <> XRT_NULL_BO_EXPORT hdr ->
   forall addr rest,
     script w = 0 :: addr :: rest ->
     exists w',
       prepare_bd hdr bd bo w = Returns (bound_to bd bo addr) w' /\ script w' = rest).
Proof.
  intros Hsim. split; [|split].
  - intros Hexp.
    unfold prepare_bd, mbind, M_bind, mret, M_ret, call, get_errno, throw, logged.
    cbn [aie pool script errno trace]. rewrite Hsim, Hexp, Z.eqb_refl.
    cbn [aie pool script errno trace]. rewrite <- app_assoc. reflexivity.
  - intros Hexp ret rest Hs Hret.
    unfold prepare_bd, mbind, M_bind, mret, M_ret, call, ask, get_errno, throw, answered.
    cbn [aie pool script errno trace]. rewrite Hsim.
    destruct (Z.eqb_spec (bo_export bo) (XRT_NULL_BO_EXPORT hdr)); [contradiction|].
    cbn [aie pool script errno trace]. rewrite Hs.
    destruct (Z.eqb_spec ret 0); [contradiction|].
    cbn [negb aie pool script errno trace]. rewrite <- !app_assoc. reflexivity.
  - intros Hexp addr rest Hs.
    rewrite (prepare_bd_hardware_run hdr bd bo addr rest w Hsim Hexp Hs). eauto.
Qed.

Lemma binding_fails_on_export_and_attach_only_witness :
  prepare_bd hardware (fresh_bd 0) stale_bo (sample_world [0; 4096]) =
    Throws (xrt_core_error (-5) "Sync AIE Bo: fail to export BO.")
      (logged (sample_world [0; 4096]) [call_prepare_bd (fresh_bd 0) stale_bo; xrtBOExport stale_bo]) /\
  exists w',
    prepare_bd hardware (fresh_bd 0) sample_bo (sample_world [0; -1]) =
      Returns (bound_to (fresh_bd 0) sample_bo (-1)) w' /\ script w' = [].
Proof.
  split.
  - refine (proj1 (binding_fails_on_export_and_attach_only hardware (fresh_bd 0) stale_bo
                     (sample_world [0; 4096]) eq_refl) eq_refl).
  - refine (proj2 (proj2 (binding_fails_on_export_and_attach_only hardware (fresh_bd 0)
                            sample_bo (sample_world [0; -1]) eq_refl)) _ (-1) [] eq_refl).
    discriminate.
Defined.

(** ** Sessions that start and stop *)





(** What a start does when the pool grants both requests. *)
Lemma start_profiling_granted
    (hdr : Headers) (opt : Z) (port1_name port2_name : string) (value : Z)
    (tile : XAie_LocType) (mode : XAie_StrmPortIntf) (stream : Z) (t : PLModule)
    (i j : nat) (ports counters : list (option Z)) (w : World) :
  devInst (aie w) = true ->
  opt = IO_STREAM_RUNNING_EVENT_COUNT hdr ->
  monitored_port (aie w) port1_name = Some (tile, mode, stream) ->
  index (shimTiles (pool w)) (Col tile) = Some t ->
  requestResource (pl_streamEventPorts t) (next_handle (aie w)) = Some (i, ports) ->
  requestResource (pl_performanceCounters t) (next_handle (aie w)) = Some (j, counters) ->
  start_profiling hdr opt port1_name port2_name value w =
    Returns (next_handle (aie w))
      {| aie := with_eventRecords (aie w)
                  (eventRecords (aie w) ++ [session_record opt tile j i]);
         pool := set_shim (pool w) (Col tile)
                   {| pl_performanceCounters := counters; pl_streamEventPorts := ports |};
         script := script w; errno := errno w;
         trace := trace w ++
           [ requestStreamEventPort (Col tile) (next_handle (aie w));
             requestPerformanceCounter (Col tile) (next_handle (aie w));
             XAie_EventSelectStrmPort tile (to_u8 (Z.of_nat i)) mode stream;
             XAie_PerfCounterControlSet tile (to_u8 (Z.of_nat j)) (Z.of_nat i) ] |}.
Proof.
  intros Hdev -> Hport Ht Hi Hj.
  unfold start_profiling. rewrite bind_run. cbn [get_aie].
  rewrite Hdev, Z.eqb_refl. cbn [negb].
  unfold monitored_port in Hport.
  destruct (find_gmio port1_name (gmios (aie w))) as [g|],
           (find_plio port1_name (plios (aie w))) as [p|]; try discriminate;
    injection Hport as <- <- <-;
    rewrite (acquire_and_record_run _ _ _ _ t) by exact Ht;
    cbv zeta; rewrite Hi, Hj; reflexivity.
Qed.

(** X13.  A start that gets both resources returns the handle, programs
    the event port for the stream of the named port (master side for a GMIO
    of type 1 and for a master PLIO, slave side otherwise) and the counter
    to run on that port's event, and appends one record that lists the
    counter first and the event port second, although the event port was
    requested first. *)
Theorem start_records_counter_then_port
    (hdr : Headers) (opt : Z) (port1_name port2_name : string) (value : Z)
    (tile : XAie_LocType) (mode : XAie_StrmPortIntf) (stream : Z) (t : PLModule)
    (i j : nat) (ports counters : list (option Z)) (w : World) :
  devInst (aie w) = true ->
  opt = IO_STREAM_RUNNING_EVENT_COUNT hdr ->
  monitored_port (aie w) port1_name = Some (tile, mode, stream) ->
  index (shimTiles (pool w)) (Col tile) = Some t ->
  requestResource (pl_streamEventPorts t) (next_handle (aie w)) = Some (i, ports) ->
  requestResource (pl_performanceCounters t) (next_handle (aie w)) = Some (j, counters) ->
  start_profiling hdr opt port1_name port2_name value w =
    Returns (next_handle (aie w))
      {| aie := with_eventRecords (aie w)
                  (eventRecords (aie w) ++ [session_record opt tile j i]);
         pool := set_shim (pool w) (Col tile)
                   {| pl_performanceCounters := counters; pl_streamEventPorts := ports |};
         script := script w; errno := errno w;
         trace := trace w ++
           [ requestStreamEventPort (Col tile) (next_handle (aie w));
             requestPerformanceCounter (Col tile) (next_handle (aie w));
             XAie_EventSelectStrmPort tile (to_u8 (Z.of_nat i)) mode stream;
             XAie_PerfCounterControlSet tile (to_u8 (Z.of_nat j)) (Z.of_nat i) ] |}.
Proof. apply start_profiling_granted. Qed.

Lemma start_records_counter_then_port_witness :
  start_profiling hardware 3 "out0" "" 0 (sample_world []) =
    Returns 0
      {| aie := with_eventRecords sample_aie [session_record 3 (XAie_TileLoc 0 0) 0 0];
         pool := {| shimTiles := [ {| pl_performanceCounters := [Some 0; None];
                                      pl_streamEventPorts := [Some 0; None] |} ];
                    aieTiles := [] |};
         script := []; errno := 5;
         trace := [ requestStreamEventPort 0 0; requestPerformanceCounter 0 0;
                    XAie_EventSelectStrmPort (XAie_TileLoc 0 0) 0 XAIE_STRMSW_MASTER 5;
                    XAie_PerfCounterControlSet (XAie_TileLoc 0 0) 0 0 ] |}.
Proof.
  apply (start_records_counter_then_port hardware 3 "out0" "" 0 (XAie_TileLoc 0 0)
           XAIE_STRMSW_MASTER 5
           {| pl_performanceCounters := [None; None]; pl_streamEventPorts := [None; None] |}
           0%nat 0%nat [Some 0; None] [Some 0; None] (sample_world []));
    reflexivity.
Defined.

(** X14.  In the port lookup of [start_profiling] a PLIO name takes
    precedence over a logical name, wherever the entries stand in the
    table: when some PLIO has the name, the lookup answers a PLIO with that
    name (the first one); a PLIO is found by its logical name only when no
    PLIO has the name. *)
Theorem plio_name_shadows_logical_name (name : string) (l : list plio_type) :
  ((exists q, q ∈ l /\ plio_name q = name) ->
   exists p, find_plio name l = Some p /\ plio_name p = name) /\
  ((forall q, q ∈ l -> plio_name q <> name) ->
   forall p, find_plio name l = Some p -> plio_logical_name p = name).
Proof.
  unfold find_plio. split.
  - intros (q & Hq & Hname).
    destruct (find (fun it => String.eqb (plio_name it) name) l) as [p|] eqn:Hf.
    + exists p. split; [reflexivity|].
      apply find_some in Hf as [_ Heq]. by apply String.eqb_eq in Heq.
    + exfalso. apply list_elem_of_In in Hq.
      pose proof (find_none _ _ Hf q Hq) as Hneq. cbn beta in Hneq.
      apply String.eqb_neq in Hneq. contradiction.
  - intros Hnone p.
    destruct (find (fun it => String.eqb (plio_name it) name) l) as [p1|] eqn:Hf.
    + apply find_some in Hf as [Hin Heq]. apply String.eqb_eq in Heq.
      apply list_elem_of_In in Hin. destruct (Hnone p1 Hin Heq).
    + intros Hf2. apply find_some in Hf2 as [_ Heq]. by apply String.eqb_eq in Heq.
Qed.

(** ["out1"] is the logical name of the first PLIO and the name of the
    second: the lookup answers the second. *)
Lemma plio_name_shadows_logical_name_witness :
  exists p, find_plio "out1" shadowing_plios = Some p /\ plio_name p = "out1"%string /\
            plio_shim_col p = 5.
Proof.
  destruct (proj1 (plio_name_shadows_logical_name "out1" shadowing_plios)) as (p & Hp & Hn).
  - eexists. split; [apply list_elem_of_further, list_elem_of_here | reflexivity].
  - exists p. split; [exact Hp|]. split; [exact Hn|].
    vm_compute in Hp. injection Hp as <-. reflexivity.
Defined.

Lemma quiet_ret {A} (a : A) : quiet (mret a).
Proof. intros w. cbn. auto. Qed.

Lemma quiet_undefined {A} : quiet (@undefined A).
Proof. intros w. exact I. Qed.

Lemma quiet_call (e : Event) : quiet (call e).
Proof. intros w. cbn. auto. Qed.

Lemma quiet_put_pool (p : ResourcePool) : quiet (put_pool p).
Proof. intros w. cbn. auto. Qed.

Lemma quiet_bind {A B} (m : M A) (k : A -> M B) :
  quiet m -> (forall a, quiet (k a)) -> quiet (m ≫= k).
Proof.
  intros Hm Hk w. rewrite bind_run. specialize (Hm w).
  destruct (m w) as [a w1| e w1 | | w1]; auto.
  destruct Hm as (Ha & Hs & He).
  specialize (Hk a w1). destruct (k a w1); auto.
  destruct Hk as (-> & -> & ->). auto.
Qed.

Lemma quiet_get_pool {B} (k : ResourcePool -> M B) :
  (forall p, quiet (k p)) -> quiet (get_pool ≫= k).
Proof. intros Hk. apply quiet_bind; [intros w; cbn; auto | exact Hk]. Qed.

Ltac quiet_step :=
  first
    [ apply quiet_get_pool; intro
    | apply quiet_bind; [| intro]
    | match goal with
      | |- quiet (match ?x with _ => _ end) => destruct x
      | |- quiet (if ?b then _ else _) => destruct b
      end
    | apply quiet_ret | apply quiet_undefined | apply quiet_call | apply quiet_put_pool ].

Lemma quiet_release_acquired (phdl : Z) (r : AcquiredResource) :
  quiet (release_acquired phdl r).
Proof.
  unfold release_acquired, plModule_releasePerformanceCounter,
    coreModule_releasePerformanceCounter, plModule_releaseStreamEventPort.
  repeat quiet_step.
Qed.

Lemma quiet_release_all (phdl : Z) (l : list AcquiredResource) :
  quiet (release_all phdl l).
Proof.
  induction l as [|r rest IH]; cbn [release_all].
  - apply quiet_ret.
  - apply quiet_bind; [apply quiet_release_acquired | intros _; exact IH].
Qed.

(** X15.  [stop_profiling] never throws and never waits for the hardware:
    for every handle and in every state it makes its calls and returns (or,
    where a recorded tile does not exist in the pool, has no defined
    outcome).  When it returns, the fields of the object, session list and
    queues included, and the answers still to come are what they were. *)
Theorem stop_profiling_never_throws (phdl : Z) (w : World) :
  match stop_profiling phdl w with
  | Returns _ w' => aie w' = aie w /\ script w' = script w /\ errno w' = errno w
  | Undefined => True
  | Throws _ _ | Stalled _ => False
  end.
Proof.
  unfold stop_profiling. rewrite bind_run. cbn [get_aie].
  destruct (to_size_t phdl <? _); [|cbn; auto].
  destruct (index _ _) as [record|]; [|exact I].
  destruct (0 <=? option_ record); [|cbn; auto].
  apply quiet_release_all.
Qed.

Lemma to_u8_slot (n : nat) : (n < 256)%nat -> to_u8 (to_size_t (Z.of_nat n)) = Z.of_nat n.
Proof.
  intros H. unfold to_u8, to_size_t.
  rewrite (Z.mod_small (Z.of_nat n) (2 ^ 64)) by lia.
  apply Z.mod_small. lia.
Qed.

(** X16.  Stopping a session gives back what its start took.  After a
    start that was granted counter [j] and event port [i] of a PL module
    with at most 256 counters and 256 event ports, a stop of the returned
    handle resets the counter, releases it under that handle, resets the
    event port and releases it under that handle, in this order, and the
    pool of owner slots is what it was before the start. *)
Theorem stop_gives_back_what_start_took
    (hdr : Headers) (opt : Z) (port1_name port2_name : string) (value : Z)
    (tile : XAie_LocType) (mode : XAie_StrmPortIntf) (stream : Z) (t : PLModule)
    (i j : nat) (ports counters : list (option Z)) (w : World) :
  devInst (aie w) = true ->
  opt = IO_STREAM_RUNNING_EVENT_COUNT hdr ->
  0 <= opt ->
  Z.of_nat (length (eventRecords (aie w))) < 2 ^ 31 ->
  monitored_port (aie w) port1_name = Some (tile, mode, stream) ->
  index (shimTiles (pool w)) (Col tile) = Some t ->
  (length (pl_performanceCounters t) <= 256)%nat ->
  (length (pl_streamEventPorts t) <= 256)%nat ->
  requestResource (pl_streamEventPorts t) (next_handle (aie w)) = Some (i, ports) ->
  requestResource (pl_performanceCounters t) (next_handle (aie w)) = Some (j, counters) ->
  exists w1 w2,
    start_profiling hdr opt port1_name port2_name value w =
      Returns (next_handle (aie w)) w1 /\
    stop_profiling (next_handle (aie w)) w1 = Returns tt w2 /\
    pool w2 = pool w /\
    trace w2 = trace w1 ++
      [ XAie_PerfCounterReset tile pl_module (Z.of_nat j);
        XAie_PerfCounterResetControlReset tile pl_module (Z.of_nat j);
        releasePerformanceCounter pl_module tile (next_handle (aie w)) (Z.of_nat j);
        XAie_EventSelectStrmPortReset tile (Z.of_nat i);
        releaseStreamEventPort (Col tile) (next_handle (aie w)) (Z.of_nat i) ].
Proof.
  intros Hdev Hopt Hpos Hlen Hport Ht Hnc Hnp Hi Hj.
  pose proof (start_profiling_granted hdr opt port1_name port2_name value tile mode stream t
                i j ports counters w Hdev Hopt Hport Ht Hi Hj) as Hstart.
  pose proof (requestResource_Some _ _ _ _ Hi) as [Hfi _].
  pose proof (requestResource_Some _ _ _ _ Hj) as [Hfj _].
  apply lookup_lt_Some in Hfi, Hfj.
  assert (Hh : next_handle (aie w) = Z.of_nat (length (eventRecords (aie w)))).
  { unfold next_handle. apply to_int_small. lia. }
  revert Hi Hj Hstart. rewrite Hh. intros Hi Hj Hstart.
  set (h := Z.of_nat (length (eventRecords (aie w)))) in *.
  match type of Hstart with _ = Returns _ ?W => set (w1 := W) in * end.
  assert (Hstop : stop_profiling h w1 =
    Returns tt
      {| aie := aie w1; pool := pool w; script := script w1; errno := errno w1;
         trace := trace w1 ++
           [ XAie_PerfCounterReset tile pl_module (Z.of_nat j);
             XAie_PerfCounterResetControlReset tile pl_module (Z.of_nat j);
             releasePerformanceCounter pl_module tile h (Z.of_nat j);
             XAie_EventSelectStrmPortReset tile (Z.of_nat i);
             releaseStreamEventPort (Col tile) h (Z.of_nat i) ] |}).
  { unfold stop_profiling. rewrite bind_run.
    cbn [get_aie aie eventRecords with_eventRecords w1].
    unfold w1 at 1 2. cbn [aie eventRecords with_eventRecords].
    rewrite length_app. cbn [length].
    destruct (Z.ltb_spec (to_size_t h) (Z.of_nat (length (eventRecords (aie w)) + 1)));
      [|unfold to_size_t in *; rewrite Z.mod_small in * by lia; lia].
    unfold h at 1. rewrite index_length_app by exact Hlen.
    cbn [option_ session_record].
    destruct (Z.leb_spec 0 opt); [|lia].
    cbn [acquiredResources session_record release_all].
    unfold release_acquired.
    cbn [resource module loc id].
    repeat (destruct (decide _); try done).
    rewrite !to_u8_slot by lia.
    unfold mbind, M_bind, call, mret, M_ret. cbv beta iota.
    cbn [aie pool script errno trace].
    rewrite (plModule_releasePerformanceCounter_run tile h (Z.of_nat j)
               {| pl_performanceCounters := counters; pl_streamEventPorts := ports |})
      by (cbn [pool]; eapply index_set_shim; eauto).
    cbn [pl_performanceCounters pl_streamEventPorts].
    rewrite (release_after_request _ _ _ _ Hj).
    unfold with_pool, logged. cbn [aie pool script errno trace].
    rewrite (plModule_releaseStreamEventPort_run (Col tile) h (Z.of_nat i)
               {| pl_performanceCounters := pl_performanceCounters t;
                  pl_streamEventPorts := ports |})
      by (cbn [pool]; rewrite set_shim_set_shim; eapply index_set_shim; eauto).
    cbn [pl_performanceCounters pl_streamEventPorts].
    rewrite (release_after_request _ _ _ _ Hi).
    unfold with_pool, logged. cbn [aie pool script errno trace].
    rewrite !set_shim_set_shim, set_shim_id by (destruct t; exact Ht).
    subst w1. cbn [aie pool script errno trace].
    rewrite <- !app_assoc. reflexivity. }
  eexists _, _. split; [exact Hstart|]. split; [exact Hstop|]. split; reflexivity.
Qed.

Lemma stop_gives_back_what_start_took_witness :
  exists w1 w2,
    start_profiling hardware 3 "gmio0" "" 0 (sample_world []) = Returns 0 w1 /\
    stop_profiling 0 w1 = Returns tt w2 /\
    pool w2 = sample_pool /\
    trace w2 = trace w1 ++ stop_calls.
Proof.
  apply (stop_gives_back_what_start_took hardware 3 "gmio0" "" 0 (XAie_TileLoc 0 0)
           XAIE_STRMSW_SLAVE 2
           {| pl_performanceCounters := [None; None]; pl_streamEventPorts := [None; None] |}
           0%nat 0%nat [Some 0; None] [Some 0; None] (sample_world []));
    try reflexivity; simpl; lia.
Defined.

(** * Construction and reset *)

(** ** The loops of the constructor *)

Lemma answer_run (w : World) (a : Z) (rest : list Z) :
  script w = a :: rest -> answer w = Returns a (with_script w rest).
Proof. intros H. unfold answer. rewrite H. reflexivity. Qed.

Lemma ask_run (e : Event) (w : World) (a : Z) (rest : list Z) :
  script w = a :: rest -> ask e w = Returns a (answered w rest [e]).
Proof. intros H. unfold ask. rewrite H. reflexivity. Qed.

Lemma answered_nil (w : World) (rest : list Z) :
  script w = rest -> answered w rest [] = w.
Proof. intros <-. unfold answered. rewrite app_nil_r. destruct w; reflexivity. Qed.

Lemma answered_answered (w : World) (r1 r2 : list Z) (e1 e2 : list Event) :
  answered (answered w r1 e1) r2 e2 = answered w r2 (e1 ++ e2).
Proof. unfold answered; cbn. rewrite app_assoc. reflexivity. Qed.

Lemma to_size_t_small (z : Z) : 0 <= z < 2 ^ 31 -> to_size_t z = z.
Proof. intros H. unfold to_size_t. apply Z.mod_small. lia. Qed.

Lemma allocate_bds_run (n : nat) (i chan : Z) (dma : ShimDMA) (c : DMAChannel) :
  index (dma_chan dma) chan = Some c ->
  allocate_bds n i chan dma =
    Some (with_dma_chan dma
            (<[Z.to_nat (to_size_t chan) :=
                 {| idle_bds := idle_bds c ++
                      ((fun k => fresh_bd (chan * maxqSize dma + k)) <$> seqZ i (Z.of_nat n));
                    pend_bds := pend_bds c |}]> (dma_chan dma))).
Proof.
  revert i dma c. induction n as [|n IH]; intros i dma c Hc.
  - cbn [allocate_bds]. change (seqZ i (Z.of_nat 0)) with (@nil Z).
    cbn [fmap list_fmap]. rewrite app_nil_r.
    destruct c as [ci cp]. cbn [idle_bds pend_bds].
    rewrite list_insert_id by exact Hc. destruct dma; reflexivity.
  - cbn [allocate_bds]. rewrite Hc.
    assert (Hlt : (Z.to_nat (to_size_t chan) < length (dma_chan dma))%nat)
      by (apply lookup_lt_is_Some; eexists; exact Hc).
    erewrite IH.
    2:{ unfold index. cbn [with_dma_chan dma_chan].
        apply list_lookup_insert_eq. exact Hlt. }
    cbn [with_dma_chan dma_chan maxqSize configured idle_bds pend_bds].
    rewrite list_insert_insert_eq.
    unfold push. rewrite <- app_assoc.
    replace (Z.of_nat (S n)) with (Z.succ (Z.of_nat n)) by lia.
    rewrite (seqZ_cons i) by lia. rewrite Z.pred_succ. cbn [fmap list_fmap].
    replace (Z.succ i) with (i + 1) by lia. reflexivity.
Qed.

Lemma setup_gmio_run (hdr : Headers) (numCols : Z) (shim : list ShimDMA) (g : gmio_type)
    (dma : ShimDMA) (c : DMAChannel) (Q : Z) (rest : list Z) (w : World) :
  (numCols <? gmio_shim_col g) = false ->
  index shim (gmio_shim_col g) = Some dma ->
  index (dma_chan dma) (gmio_channel_number g) = Some c ->
  0 <= Q < 256 ->
  script w = Q :: rest ->
  setup_gmio hdr numCols shim g w =
    Returns (<[Z.to_nat (to_size_t (gmio_shim_col g)) :=
                 {| configured := true; maxqSize := Q;
                    dma_chan :=
                      <[Z.to_nat (to_size_t (gmio_channel_number g)) :=
                          {| idle_bds := idle_bds c ++ numbered (gmio_channel_number g) Q;
                             pend_bds := pend_bds c |}]> (dma_chan dma) |}]> shim)
            (answered w rest (gmio_calls hdr (negb (configured dma)) g)).
Proof.
  intros Hcol Hdma Hc HQ Hs. unfold setup_gmio. rewrite Hcol, Hdma.
  assert (Hu : to_u8 Q = Q) by (unfold to_u8; apply Z.mod_small; lia).
  rewrite bind_run.
  destruct (configured dma) eqn:Hconf; cbn [negb].
  - cbn [mret M_ret]. cbv iota beta.
    rewrite bind_run, call_run. cbv iota beta.
    rewrite bind_run, call_run. cbv iota beta.
    rewrite bind_run, (ask_run _ _ Q rest) by exact Hs. cbv iota beta.
    rewrite Hu.
    rewrite (allocate_bds_run _ 0 _ _ c) by exact Hc.
    cbn [with_maxqSize maxqSize]. rewrite Z2Nat.id by lia.
    unfold numbered, with_dma_chan, with_maxqSize, gmio_calls, answered, logged.
    cbn [configured maxqSize dma_chan aie pool script errno trace app].
    rewrite Hconf, <- !app_assoc. reflexivity.
  - rewrite bind_run, call_run. cbv iota beta. cbn [mret M_ret]. cbv iota beta.
    rewrite bind_run, call_run. cbv iota beta.
    rewrite bind_run, call_run. cbv iota beta.
    rewrite bind_run, (ask_run _ _ Q rest) by exact Hs. cbv iota beta.
    rewrite Hu.
    rewrite (allocate_bds_run _ 0 _ _ c) by exact Hc.
    cbn [with_maxqSize with_configured maxqSize]. rewrite Z2Nat.id by lia.
    unfold numbered, with_dma_chan, with_maxqSize, with_configured, gmio_calls,
      answered, logged.
    cbn [configured maxqSize dma_chan aie pool script errno trace app].
    rewrite <- !app_assoc. reflexivity.
Qed.

Lemma idle_after_cons (g : gmio_type) (l : list gmio_type) (Q col chan : Z) :
  idle_after (g :: l) Q col chan =
  (if (gmio_shim_col g =? col) && (gmio_channel_number g =? chan)
   then numbered chan Q else []) ++ idle_after l Q col chan.
Proof. reflexivity. Qed.

(** The loop over GMIOs that are all on the array: the shim DMA of a column
    is configured exactly when a GMIO of that column came before. *)
Lemma setup_gmios_run (hdr : Headers) (CH : nat) (Q numCols : Z) (l : list gmio_type) :
  0 <= Q < 256 ->
  Z.of_nat CH < 2 ^ 31 ->
  forall (seen : list Z) (shim : list ShimDMA) (w : World) (rest : list Z),
  Z.of_nat (length shim) <= numCols ->
  Z.of_nat (length shim) < 2 ^ 31 ->
  Forall (fun d => length (dma_chan d) = CH) shim ->
  (forall i d, shim !! i = Some d ->
     configured d = existsb (Z.eqb (Z.of_nat i)) seen) ->
  Forall (fun g => 0 <= gmio_shim_col g < Z.of_nat (length shim) /\
                   0 <= gmio_channel_number g < Z.of_nat CH) l ->
  script w = replicate (length l) Q ++ rest ->
  exists shim',
    setup_gmios hdr numCols shim l w =
      Returns shim' (answered w rest (setup_calls hdr seen l)) /\
    length shim' = length shim /\
    forall i j c, grid shim i j = Some c ->
      grid shim' i j =
        Some {| idle_bds := idle_bds c ++ idle_after l Q (Z.of_nat i) (Z.of_nat j);
                pend_bds := pend_bds c |}.
Proof.
  intros HQ HCH. induction l as [|g l IH];
    intros seen shim w rest Hle Hlen Hshape Hconf Hl Hs.
  - exists shim. cbn [setup_gmios setup_calls]. split; [|split; [reflexivity|]].
    + rewrite answered_nil by exact Hs. reflexivity.
    + intros i j c Hg. rewrite Hg. cbn [idle_after flat_map]. rewrite app_nil_r.
      destruct c; reflexivity.
  - apply Forall_cons in Hl as [[Hcol Hchan] Hl].
    assert (Hpc : to_size_t (gmio_shim_col g) = gmio_shim_col g)
      by (apply to_size_t_small; lia).
    assert (Hpk : to_size_t (gmio_channel_number g) = gmio_channel_number g)
      by (apply to_size_t_small; lia).
    destruct (lookup_lt_is_Some_2 shim (Z.to_nat (gmio_shim_col g))) as [dma Hdma];
      [lia|].
    assert (Hdlen : length (dma_chan dma) = CH).
    { rewrite Forall_lookup in Hshape. exact (Hshape _ _ Hdma). }
    assert (Hdconf : configured dma = existsb (Z.eqb (gmio_shim_col g)) seen).
    { rewrite (Hconf _ _ Hdma), Z2Nat.id by lia. reflexivity. }
    destruct (lookup_lt_is_Some_2 (dma_chan dma) (Z.to_nat (gmio_channel_number g)))
      as [c0 Hc0]; [lia|].
    cbn [setup_gmios setup_calls]. rewrite bind_run.
    erewrite (setup_gmio_run hdr numCols shim g dma c0 Q
                (replicate (length l) Q ++ rest)).
    2:{ apply Z.ltb_ge. lia. }
    2:{ unfold index. rewrite Hpc. exact Hdma. }
    2:{ unfold index. rewrite Hpk. exact Hc0. }
    2:{ exact HQ. }
    2:{ exact Hs. }
    cbv iota beta. rewrite Hpc, Hpk, Hdconf.
    match goal with |- context [setup_gmios _ _ ?s _ ?w1] =>
      destruct (IH (gmio_shim_col g :: seen) s w1 rest)
        as (shim' & Hrun & Hlen' & Hgrid) end.
    { rewrite length_insert. exact Hle. }
    { rewrite length_insert. exact Hlen. }
    { apply Forall_insert; [exact Hshape|]. cbn [dma_chan].
      rewrite length_insert. exact Hdlen. }
    { intros i d Hd. cbn [existsb].
      destruct (decide (i = Z.to_nat (gmio_shim_col g))) as [->|Hi].
      - rewrite list_lookup_insert_eq in Hd
          by (apply lookup_lt_is_Some; eexists; exact Hdma).
        injection Hd as <-. cbn [configured].
        rewrite Z2Nat.id, Z.eqb_refl by lia. reflexivity.
      - rewrite list_lookup_insert_ne in Hd by auto.
        replace (Z.of_nat i =? gmio_shim_col g) with false
          by (symmetry; apply Z.eqb_neq; lia).
        exact (Hconf _ _ Hd). }
    { rewrite length_insert. exact Hl. }
    { reflexivity. }
    exists shim'. split.
    { rewrite Hrun, answered_answered. reflexivity. }
    split.
    { rewrite Hlen', length_insert. reflexivity. }
    intros i j c Hg. rewrite idle_after_cons.
    unfold grid in Hg. destruct (shim !! i) as [d|] eqn:Hd; [|discriminate].
    destruct (decide (i = Z.to_nat (gmio_shim_col g))) as [->|Hi].
    + rewrite Hdma in Hd. injection Hd as <-.
      destruct (decide (j = Z.to_nat (gmio_channel_number g))) as [->|Hj].
      * rewrite Hc0 in Hg. injection Hg as <-.
        rewrite (Hgrid _ _ {| idle_bds := idle_bds c0 ++ numbered (gmio_channel_number g) Q;
                               pend_bds := pend_bds c0 |}).
        2:{ unfold grid. rewrite list_lookup_insert_eq
              by (apply lookup_lt_is_Some; eexists; exact Hdma).
            cbn [dma_chan]. apply list_lookup_insert_eq.
            apply lookup_lt_is_Some; eexists; exact Hc0. }
        cbn [idle_bds pend_bds]. rewrite !Z2Nat.id by lia. rewrite !Z.eqb_refl.
        cbn [andb]. rewrite <- app_assoc. reflexivity.
      * rewrite (Hgrid _ _ c).
        2:{ unfold grid. rewrite list_lookup_insert_eq
              by (apply lookup_lt_is_Some; eexists; exact Hdma).
            cbn [dma_chan]. rewrite list_lookup_insert_ne by auto. exact Hg. }
        replace (gmio_channel_number g =? Z.of_nat j) with false
          by (symmetry; apply Z.eqb_neq; lia).
        rewrite andb_false_r. reflexivity.
    + rewrite (Hgrid _ _ c).
      2:{ unfold grid. rewrite list_lookup_insert_ne by auto. rewrite Hd. exact Hg. }
      replace (gmio_shim_col g =? Z.of_nat i) with false
        by (symmetry; apply Z.eqb_neq; lia).
      reflexivity.
Qed.

Lemma grid_blank (geo : Geometry) (n i j : nat) :
  (i < n)%nat -> (j < XAIEDMA_SHIM_MAX_NUM_CHANNELS geo)%nat ->
  grid (replicate n (blank_shim_dma geo)) i j = Some {| idle_bds := []; pend_bds := [] |}.
Proof.
  intros Hi Hj. unfold grid. rewrite lookup_replicate_2 by exact Hi.
  cbn [blank_shim_dma dma_chan]. apply lookup_replicate_2. exact Hj.
Qed.

(** The constructor up to its loop, when the driver grants the partition
    descriptor and the configuration initialises. *)
Lemma ctor_prologue (hdr : Headers) (geo : Geometry) (device_plios : list plio_type)
    (device_gmios : list gmio_type) (fdv : Z) (rest : list Z) (w : World) :
  script w = (if AIESIM hdr then [] else [0; fdv]) ++ 0 :: rest ->
  Aie_ctor hdr geo device_plios device_gmios w =
  match setup_gmios hdr (XAIE_NUM_COLS geo)
          (replicate (Z.to_nat (XAIE_NUM_COLS geo)) (blank_shim_dma geo))
          device_gmios (answered w rest (opening_calls hdr)) with
  | Returns shim w' =>
      Returns {| devInst := true; fd := if AIESIM hdr then 0 else fdv;
                 gmios := device_gmios; plios := device_plios;
                 numCols := XAIE_NUM_COLS geo; shim_dma := shim; eventRecords := [] |}
              (with_pool
                 (logged w' [Resources_AIE_initialize (XAIE_NUM_COLS geo)
                               (XAIE_NUM_ROWS geo)])
                 (initial_pool geo))
  | Throws e w' => Throws e w'
  | Undefined => Undefined
  | Stalled w' => Stalled w'
  end.
Proof.
  intros Hs. unfold Aie_ctor, opening_calls. rewrite bind_run.
  destruct (AIESIM hdr) eqn:Hsim.
  - cbn [app] in Hs. cbn [mret M_ret]. cbv iota beta.
    rewrite bind_run, (ask_run _ _ _ _ Hs). cbv iota beta. cbn [Z.eqb negb].
    rewrite bind_run. cbn [app].
    destruct (setup_gmios _ _ _ _ _) as [shim w'| | |]; reflexivity.
  - cbn [app] in Hs. rewrite bind_run, (ask_run _ _ _ _ Hs). cbv iota beta.
    cbn [Z.eqb negb].
    rewrite (answer_run _ fdv (0 :: rest)) by reflexivity.
    cbv iota beta.
    rewrite bind_run.
    rewrite (ask_run _ _ 0 rest) by reflexivity. cbv iota beta. cbn [Z.eqb negb].
    rewrite bind_run.
    change (answered (with_script (answered w (fdv :: 0 :: rest) [getPartitionFd 1 0])
                        (0 :: rest)) rest [XAie_CfgInitialize])
      with (answered (answered w rest [getPartitionFd 1 0]) rest [XAie_CfgInitialize]).
    rewrite answered_answered. cbn [app].
    destruct (setup_gmios _ _ _ _ _) as [shim w'| | |]; reflexivity.
Qed.

Lemma blank_not_configured (geo : Geometry) (n i : nat) (d : ShimDMA) :
  replicate n (blank_shim_dma geo) !! i = Some d ->
  configured d = existsb (Z.eqb (Z.of_nat i)) [].
Proof. intros H. apply lookup_replicate in H as [-> _]. reflexivity. Qed.

Lemma construction_run (hdr : Headers) (geo : Geometry) (device_plios : list plio_type)
    (device_gmios : list gmio_type) (Q fdv : Z) (rest : list Z) (w : World) :
  0 <= XAIE_NUM_COLS geo < 2 ^ 31 ->
  Z.of_nat (XAIEDMA_SHIM_MAX_NUM_CHANNELS geo) < 2 ^ 31 ->
  Forall (within geo) device_gmios ->
  0 <= Q < 256 ->
  script w = ctor_answers hdr fdv (length device_gmios) Q rest ->
  exists a,
    Aie_ctor hdr geo device_plios device_gmios w =
      Returns a (with_pool (answered w rest (construction_calls hdr geo device_gmios))
                   (initial_pool geo)) /\
    devInst a = true /\ eventRecords a = [] /\
    forall col chan,
      0 <= col < XAIE_NUM_COLS geo ->
      0 <= chan < Z.of_nat (XAIEDMA_SHIM_MAX_NUM_CHANNELS geo) ->
      chan_of a col chan =
        Some {| idle_bds := idle_after device_gmios Q col chan; pend_bds := [] |}.
Proof.
  intros Hcols HCH Hin HQ Hs.
  rewrite (ctor_prologue hdr geo device_plios device_gmios fdv
             (replicate (length device_gmios) Q ++ rest) w Hs).
  destruct (setup_gmios_run hdr (XAIEDMA_SHIM_MAX_NUM_CHANNELS geo) Q (XAIE_NUM_COLS geo)
              device_gmios HQ HCH []
              (replicate (Z.to_nat (XAIE_NUM_COLS geo)) (blank_shim_dma geo))
              (answered w (replicate (length device_gmios) Q ++ rest) (opening_calls hdr))
              rest)
    as (shim' & Hrun & Hlen & Hgrid).
  { rewrite length_replicate. lia. }
  { rewrite length_replicate. lia. }
  { apply Forall_replicate. cbn [blank_shim_dma dma_chan]. apply length_replicate. }
  { intros i d. apply blank_not_configured. }
  { rewrite length_replicate, Z2Nat.id by lia. exact Hin. }
  { reflexivity. }
  rewrite Hrun. eexists. split.
  { f_equal. unfold construction_calls, with_pool, logged, answered.
    cbn [aie pool script errno trace]. rewrite <- !app_assoc. reflexivity. }
  split; [reflexivity|]. split; [reflexivity|].
  intros col chan Hcol Hchan. unfold chan_of, index. cbn [shim_dma].
  rewrite !to_size_t_small by lia.
  assert (Hb : grid (replicate (Z.to_nat (XAIE_NUM_COLS geo)) (blank_shim_dma geo))
                 (Z.to_nat col) (Z.to_nat chan) =
               Some {| idle_bds := []; pend_bds := [] |})
    by (apply grid_blank; lia).
  specialize (Hgrid _ _ _ Hb).
  rewrite !Z2Nat.id in Hgrid by lia. exact Hgrid.
Qed.

Lemma idle_after_range (l : list gmio_type) (Q col chan : Z) (bd : BD) :
  bd ∈ idle_after l Q col chan -> chan * Q <= bd_num bd < chan * Q + Q.
Proof.
  induction l as [|g l IH]; [intros H; inversion H|].
  rewrite idle_after_cons, elem_of_app. intros [H|H]; [|exact (IH H)].
  destruct (_ && _); [|inversion H].
  unfold numbered in H. apply list_elem_of_fmap in H as (i & -> & Hi).
  apply elem_of_seqZ in Hi. cbn [fresh_bd bd_num]. lia.
Qed.

Lemma idle_after_copies (l : list gmio_type) (Q col chan : Z) :
  idle_after l Q col chan =
  mjoin (replicate (users l col chan) (numbered chan Q)).
Proof.
  unfold users. induction l as [|g l IH]; [reflexivity|].
  rewrite idle_after_cons, IH, filter_cons.
  destruct (decide _) as [[Hc Hk]|Hn].
  - rewrite Hc, Hk, !Z.eqb_refl. reflexivity.
  - destruct (gmio_shim_col g =? col) eqn:Hc; [|reflexivity].
    destruct (gmio_channel_number g =? chan) eqn:Hk; [|reflexivity].
    apply Z.eqb_eq in Hc, Hk. tauto.
Qed.

Lemma setup_gmios_app (hdr : Headers) (numCols : Z) (l1 l2 : list gmio_type) :
  forall (shim : list ShimDMA) (w : World),
  setup_gmios hdr numCols shim (l1 ++ l2) w =
  match setup_gmios hdr numCols shim l1 w with
  | Returns shim1 w1 => setup_gmios hdr numCols shim1 l2 w1
  | Throws e w1 => Throws e w1
  | Undefined => Undefined
  | Stalled w1 => Stalled w1
  end.
Proof.
  induction l1 as [|g l1 IH]; intros shim w; [reflexivity|].
  cbn [app setup_gmios]. rewrite !bind_run.
  destruct (setup_gmio hdr numCols shim g w); try reflexivity. apply IH.
Qed.

(** ** The object the constructor builds *)

(** X17.  When every GMIO of the device is on a column of the array and on
    a channel of its shim DMA, the driver grants the partition descriptor,
    the configuration initialises and the hardware answers the queue size
    [Q] for each GMIO, the constructor returns an object with [devInst]
    set and no profiling session, and leaves the pool initialised.  Its
    calls are [getPartitionFd] (hardware build), [XAie_CfgInitialize], for
    each GMIO [XAie_DmaDescInit] (the first time its column is met),
    [XAie_DmaChannelEnable], [XAie_DmaSetAxi] and
    [XAie_DmaGetMaxQueueSize], and last the initialisation of the pool.
    Channel [chan] of column [col] has nothing pending, and idle, for each
    GMIO on that column and channel in the order of the device's list, the
    descriptors [chan * Q], ..., [chan * Q + Q - 1]; channels no GMIO names
    are empty. *)
Theorem construction_numbers_descriptors (hdr : Headers) (geo : Geometry)
    (device_plios : list plio_type) (device_gmios : list gmio_type) (Q fdv : Z)
    (rest : list Z) (w : World) :
  0 <= XAIE_NUM_COLS geo < 2 ^ 31 ->
  Z.of_nat (XAIEDMA_SHIM_MAX_NUM_CHANNELS geo) < 2 ^ 31 ->
  Forall (within geo) device_gmios ->
  0 <= Q < 256 ->
  script w = ctor_answers hdr fdv (length device_gmios) Q rest ->
  exists a,
    Aie_ctor hdr geo device_plios device_gmios w =
      Returns a (with_pool (answered w rest (construction_calls hdr geo device_gmios))
                   (initial_pool geo)) /\
    devInst a = true /\ eventRecords a = [] /\
    forall col chan,
      0 <= col < XAIE_NUM_COLS geo ->
      0 <= chan < Z.of_nat (XAIEDMA_SHIM_MAX_NUM_CHANNELS geo) ->
      chan_of a col chan =
        Some {| idle_bds := idle_after device_gmios Q col chan; pend_bds := [] |}.
Proof. apply construction_run. Qed.

Lemma construction_numbers_descriptors_witness :
  exists a,
    Aie_ctor hardware sample_geometry [plio0] [gmio0; gmio1] (ctor_world [0; 3; 0; 4; 4]) =
      Returns a
        {| aie := aie (ctor_world []); pool := sample_pool; script := []; errno := 0;
           trace :=
             [ getPartitionFd 1 0; XAie_CfgInitialize;
               XAie_DmaDescInit (XAie_TileLoc 0 0);
               XAie_DmaChannelEnable (XAie_TileLoc 0 0) 0 DMA_MM2S;
               XAie_DmaSetAxi 0 4 0 0 0;
               XAie_DmaGetMaxQueueSize (XAie_TileLoc 0 0);
               XAie_DmaChannelEnable (XAie_TileLoc 0 0) 0 DMA_S2MM;
               XAie_DmaSetAxi 0 4 0 0 0;
               XAie_DmaGetMaxQueueSize (XAie_TileLoc 0 0);
               Resources_AIE_initialize 50 9 ] |} /\
    devInst a = true /\ eventRecords a = [] /\
    forall col chan, 0 <= col < 50 -> 0 <= chan < 4 ->
      chan_of a col chan =
        Some {| idle_bds := idle_after [gmio0; gmio1] 4 col chan; pend_bds := [] |}.
Proof.
  apply (construction_numbers_descriptors hardware sample_geometry [plio0]
           [gmio0; gmio1] 4 3 [] (ctor_world [0; 3; 0; 4; 4])).
  - cbn; lia.
  - cbn; lia.
  - repeat constructor; cbn; lia.
  - lia.
  - reflexivity.
Defined.

(** X18.  After such a construction every idle descriptor of channel
    [chan] has a number from [chan * Q] up to [chan * Q + Q - 1], so two
    distinct channels of a column never hold the same descriptor number. *)
Theorem channels_never_share_a_descriptor (hdr : Headers) (geo : Geometry)
    (device_plios : list plio_type) (device_gmios : list gmio_type) (Q fdv : Z)
    (rest : list Z) (w : World) :
  0 <= XAIE_NUM_COLS geo < 2 ^ 31 ->
  Z.of_nat (XAIEDMA_SHIM_MAX_NUM_CHANNELS geo) < 2 ^ 31 ->
  Forall (within geo) device_gmios ->
  0 <= Q < 256 ->
  script w = ctor_answers hdr fdv (length device_gmios) Q rest ->
  exists a w',
    Aie_ctor hdr geo device_plios device_gmios w = Returns a w' /\
    forall col chan chan' c c' bd bd',
      0 <= col < XAIE_NUM_COLS geo ->
      0 <= chan < Z.of_nat (XAIEDMA_SHIM_MAX_NUM_CHANNELS geo) ->
      0 <= chan' < Z.of_nat (XAIEDMA_SHIM_MAX_NUM_CHANNELS geo) ->
      chan <> chan' ->
      chan_of a col chan = Some c ->
      chan_of a col chan' = Some c' ->
      bd ∈ idle_bds c -> bd' ∈ idle_bds c' ->
      chan * Q <= bd_num bd < chan * Q + Q /\ bd_num bd <> bd_num bd'.
Proof.
  intros Hcols HCH Hin HQ Hs.
  destruct (construction_run hdr geo device_plios device_gmios Q fdv rest w
              Hcols HCH Hin HQ Hs) as (a & Hrun & _ & _ & Hq).
  exists a. eexists. split; [exact Hrun|].
  intros col chan chan' c c' bd bd' Hcol Hk Hk' Hne Hc Hc' Hbd Hbd'.
  rewrite (Hq col chan Hcol Hk) in Hc. rewrite (Hq col chan' Hcol Hk') in Hc'.
  injection Hc as <-. injection Hc' as <-. cbn [idle_bds] in Hbd, Hbd'.
  apply idle_after_range in Hbd, Hbd'. split; [exact Hbd|]. nia.
Qed.

Lemma channels_never_share_a_descriptor_witness :
  exists a w',
    Aie_ctor hardware sample_geometry [plio0] [gmio0; gmio1] (ctor_world [0; 3; 0; 4; 4]) =
      Returns a w' /\
    forall col chan chan' c c' bd bd',
      0 <= col < 50 -> 0 <= chan < 4 -> 0 <= chan' < 4 -> chan <> chan' ->
      chan_of a col chan = Some c ->
      chan_of a col chan' = Some c' ->
      bd ∈ idle_bds c -> bd' ∈ idle_bds c' ->
      chan * 4 <= bd_num bd < chan * 4 + 4 /\ bd_num bd <> bd_num bd'.
Proof.
  apply (channels_never_share_a_descriptor hardware sample_geometry [plio0]
           [gmio0; gmio1] 4 3 [] (ctor_world [0; 3; 0; 4; 4])).
  - cbn; lia.
  - cbn; lia.
  - repeat constructor; cbn; lia.
  - lia.
  - reflexivity.
Defined.

(** X19.  The constructor does not check that a channel is named once: a
    channel of a column that [k] GMIOs of the device name has, after the
    construction, the descriptors [chan * Q], ..., [chan * Q + Q - 1] idle
    [k] times over, [k * Q] descriptors in all, and a channel no GMIO names
    has none. *)
Theorem shared_channel_multiplies_descriptors (hdr : Headers) (geo : Geometry)
    (device_plios : list plio_type) (device_gmios : list gmio_type) (Q fdv : Z)
    (rest : list Z) (w : World) :
  0 <= XAIE_NUM_COLS geo < 2 ^ 31 ->
  Z.of_nat (XAIEDMA_SHIM_MAX_NUM_CHANNELS geo) < 2 ^ 31 ->
  Forall (within geo) device_gmios ->
  0 <= Q < 256 ->
  script w = ctor_answers hdr fdv (length device_gmios) Q rest ->
  exists a w',
    Aie_ctor hdr geo device_plios device_gmios w = Returns a w' /\
    forall col chan,
      0 <= col < XAIE_NUM_COLS geo ->
      0 <= chan < Z.of_nat (XAIEDMA_SHIM_MAX_NUM_CHANNELS geo) ->
      exists c,
        chan_of a col chan = Some c /\
        idle_bds c = mjoin (replicate (users device_gmios col chan) (numbered chan Q)) /\
        pend_bds c = [] /\
        slots c = (users device_gmios col chan * Z.to_nat Q)%nat.
Proof.
  intros Hcols HCH Hin HQ Hs.
  destruct (construction_run hdr geo device_plios device_gmios Q fdv rest w
              Hcols HCH Hin HQ Hs) as (a & Hrun & _ & _ & Hq).
  exists a. eexists. split; [exact Hrun|].
  intros col chan Hcol Hk. eexists. split; [exact (Hq col chan Hcol Hk)|].
  unfold slots. cbn [idle_bds pend_bds length].
  rewrite idle_after_copies. split; [reflexivity|]. split; [reflexivity|].
  rewrite Nat.add_0_r.
  induction (users device_gmios col chan) as [|k IH]; [reflexivity|].
  change (mjoin (replicate (S k) (numbered chan Q)))
    with (numbered chan Q ++ mjoin (replicate k (numbered chan Q))).
  rewrite length_app, IH.
  unfold numbered. rewrite length_fmap, length_seqZ. lia.
Qed.

Lemma shared_channel_multiplies_descriptors_witness :
  exists a w',
    Aie_ctor hardware sample_geometry [plio0] [gmio0; gmio0] (ctor_world [0; 3; 0; 4; 4]) =
      Returns a w' /\
    forall col chan, 0 <= col < 50 -> 0 <= chan < 4 ->
      exists c,
        chan_of a col chan = Some c /\
        idle_bds c = mjoin (replicate (users [gmio0; gmio0] col chan) (numbered chan 4)) /\
        pend_bds c = [] /\
        slots c = (users [gmio0; gmio0] col chan * 4)%nat.
Proof.
  apply (shared_channel_multiplies_descriptors hardware sample_geometry [plio0]
           [gmio0; gmio0] 4 3 [] (ctor_world [0; 3; 0; 4; 4])).
  - cbn; lia.
  - cbn; lia.
  - repeat constructor; cbn; lia.
  - lia.
  - reflexivity.
Defined.

(** X20.  The column check of the constructor is [shim_col > numCols]: a
    GMIO on a column past the array stops the construction after the GMIOs
    before it were set up, with [-EINVAL] and the diagnostic naming the
    GMIO when the column is greater than [XAIE_NUM_COLS], but with
    [std::out_of_range] from [shim_dma.at] when the column equals
    [XAIE_NUM_COLS].  No driver call is made for that GMIO and the pool is
    not initialised. *)
Theorem column_beyond_the_array_stops_construction (hdr : Headers) (geo : Geometry)
    (device_plios : list plio_type) (pre post : list gmio_type) (g : gmio_type)
    (Q fdv : Z) (rest : list Z) (w : World) :
  0 <= XAIE_NUM_COLS geo < 2 ^ 31 ->
  Z.of_nat (XAIEDMA_SHIM_MAX_NUM_CHANNELS geo) < 2 ^ 31 ->
  Forall (within geo) pre ->
  0 <= Q < 256 ->
  script w = ctor_answers hdr fdv (length pre) Q rest ->
  XAIE_NUM_COLS geo <= gmio_shim_col g < 2 ^ 31 ->
  Aie_ctor hdr geo device_plios (pre ++ g :: post) w =
    Throws (if gmio_shim_col g =? XAIE_NUM_COLS geo then std_out_of_range
            else xrt_core_error (- EINVAL) (column_diagnostic g))
           (answered w rest (opening_calls hdr ++ setup_calls hdr [] pre)).
Proof.
  intros Hcols HCH Hin HQ Hs Hg.
  rewrite (ctor_prologue hdr geo device_plios _ fdv
             (replicate (length pre) Q ++ rest) w Hs).
  rewrite setup_gmios_app.
  destruct (setup_gmios_run hdr (XAIEDMA_SHIM_MAX_NUM_CHANNELS geo) Q (XAIE_NUM_COLS geo)
              pre HQ HCH []
              (replicate (Z.to_nat (XAIE_NUM_COLS geo)) (blank_shim_dma geo))
              (answered w (replicate (length pre) Q ++ rest) (opening_calls hdr)) rest)
    as (shim' & Hrun & Hlen & _).
  { rewrite length_replicate. lia. }
  { rewrite length_replicate. lia. }
  { apply Forall_replicate. cbn [blank_shim_dma dma_chan]. apply length_replicate. }
  { intros i d. apply blank_not_configured. }
  { rewrite length_replicate, Z2Nat.id by lia. exact Hin. }
  { reflexivity. }
  rewrite Hrun, answered_answered. rewrite length_replicate in Hlen.
  cbn [setup_gmios]. rewrite bind_run. unfold setup_gmio.
  destruct (gmio_shim_col g =? XAIE_NUM_COLS geo) eqn:Heq.
  - apply Z.eqb_eq in Heq.
    replace (XAIE_NUM_COLS geo <? gmio_shim_col g) with false
      by (symmetry; apply Z.ltb_ge; lia).
    unfold index. rewrite to_size_t_small by lia.
    rewrite (lookup_ge_None_2 shim') by lia. reflexivity.
  - apply Z.eqb_neq in Heq.
    replace (XAIE_NUM_COLS geo <? gmio_shim_col g) with true
      by (symmetry; apply Z.ltb_lt; lia).
    reflexivity.
Qed.

Lemma column_beyond_the_array_stops_construction_witness :
  Aie_ctor hardware sample_geometry [plio0] ([gmio0] ++ gmio_off :: [gmio1])
    (ctor_world [0; 3; 0; 4]) =
  Throws std_out_of_range
    {| aie := aie (ctor_world []); pool := pool (ctor_world []); script := [];
       errno := 0;
       trace :=
         [ getPartitionFd 1 0; XAie_CfgInitialize;
           XAie_DmaDescInit (XAie_TileLoc 0 0);
           XAie_DmaChannelEnable (XAie_TileLoc 0 0) 0 DMA_MM2S;
           XAie_DmaSetAxi 0 4 0 0 0;
           XAie_DmaGetMaxQueueSize (XAie_TileLoc 0 0) ] |}.
Proof.
  apply (column_beyond_the_array_stops_construction hardware sample_geometry [plio0]
           [gmio0] [gmio1] gmio_off 4 3 [] (ctor_world [0; 3; 0; 4])).
  - cbn; lia.
  - cbn; lia.
  - repeat constructor; cbn; lia.
  - lia.
  - reflexivity.
  - cbn; lia.
Defined.

(** ** A construction that fails *)









(** ** Reset *)

(** X22.  In the hardware build [reset] on an initialised object calls
    [XAie_Finish], nulls [devInst] and then asks the driver to reset the
    array, and returns or throws the driver's own code with the diagnostic
    "Fail to reset AIE Array"; queues and sessions are as before.  Either
    way the object is uninitialised afterwards: a second [reset], also
    after a failed one, throws [-EINVAL] without asking the driver, and so
    do [getDevInst] and [sync_bo]. *)
Theorem reset_nulls_devInst (hdr : Headers) (w : World) (ret : Z) (rest : list Z) :
  AIESIM hdr = false ->
  devInst (aie w) = true ->
  script w = ret :: rest ->
  let w1 := answered (with_aie w (with_devInst (aie w) false)) rest
              [XAie_Finish; resetAIEArray 1] in
  reset hdr w =
    (if ret =? 0 then Returns tt w1
     else Throws (xrt_core_error ret "Fail to reset AIE Array") w1) /\
  reset hdr w1 =
    Throws (xrt_core_error (- EINVAL) "Can't Reset AIE: AIE is not initialized") w1 /\
  getDevInst w1 = Throws (xrt_core_error (- EINVAL) "AIE is not initialized") w1 /\
  forall bo name dir size offset,
    sync_bo hdr bo name dir size offset w1 =
      Throws (xrt_core_error (- EINVAL) "Can't sync BO: AIE is not initialized") w1.
Proof.
  intros Hsim Hdev Hs w1. split; [|split; [|split]].
  - unfold reset. rewrite Hsim, bind_run. cbn [get_aie]. rewrite Hdev. cbn [negb].
    rewrite bind_run, call_run. cbv iota beta.
    rewrite bind_run. cbn [put_aie]. rewrite bind_run.
    erewrite ask_run by (cbn [script logged]; exact Hs). cbv iota beta.
    unfold w1, answered, with_aie, logged. cbn [aie pool script errno trace].
    rewrite <- !app_assoc. destruct (ret =? 0); reflexivity.
  - unfold reset. rewrite Hsim. reflexivity.
  - reflexivity.
  - intros. reflexivity.
Qed.

Lemma reset_nulls_devInst_witness :
  reset hardware (sample_world [5]) =
    Throws (xrt_core_error 5 "Fail to reset AIE Array")
      (answered (with_aie (sample_world [5]) (with_devInst sample_aie false)) []
         [XAie_Finish; resetAIEArray 1]) /\
  reset hardware
    (answered (with_aie (sample_world [5]) (with_devInst sample_aie false)) []
       [XAie_Finish; resetAIEArray 1]) =
    Throws (xrt_core_error (-22) "Can't Reset AIE: AIE is not initialized")
      (answered (with_aie (sample_world [5]) (with_devInst sample_aie false)) []
         [XAie_Finish; resetAIEArray 1]).
Proof.
  pose proof (reset_nulls_devInst hardware (sample_world [5]) 5 []
                eq_refl eq_refl eq_refl) as (H1 & H2 & _).
  split; [exact H1|exact H2].
Defined.

(** * [xrt_core::utils] *)

(** ** Status words *)

Lemma string_app_assoc (a b c : string) : ((a ++ b) ++ c = a ++ (b ++ c))%string.
Proof. induction a as [|x a IH]; [reflexivity|]. cbn. rewrite IH. reflexivity. Qed.

Lemma string_app_nil_r (a : string) : (a ++ "" = a)%string.
Proof. induction a as [|x a IH]; [reflexivity|]. cbn. rewrite IH. reflexivity. Qed.

Lemma fold_flags_bar (val : Z) (table : list (Z * string)) (s : string) :
  fold_flags val table (s, "|"%char) =
  ((s ++ barred (set_flags val table))%string, "|"%char).
Proof.
  revert s. induction table as [|[m n] table IH]; intros s.
  - cbn. rewrite string_app_nil_r. reflexivity.
  - unfold fold_flags, set_flags in *. cbn [foldl fst snd]. rewrite filter_cons.
    unfold status_flag at 2. cbn [fst snd].
    destruct (decide (Z.land val m <> 0)) as [Hset|Hclear].
    + replace (Z.land val m =? 0) with false by (symmetry; apply Z.eqb_neq; exact Hset).
      cbn [negb]. rewrite IH. cbn [fmap list_fmap snd barred foldr].
      f_equal. rewrite string_app_assoc. reflexivity.
    + replace (Z.land val m =? 0) with true
        by (symmetry; apply Z.eqb_eq; destruct (Z.eq_dec (Z.land val m) 0); tauto).
      cbn [negb]. apply IH.
Qed.

Lemma fold_flags_open (val : Z) (table : list (Z * string)) :
  fold_flags val table (EmptyString, "("%char) =
  match set_flags val table with
  | [] => (EmptyString, "("%char)
  | n :: rest => (("(" ++ n ++ barred rest)%string, "|"%char)
  end.
Proof.
  induction table as [|[m n] table IH]; [reflexivity|].
  unfold fold_flags, set_flags in *. cbn [foldl fst snd]. rewrite filter_cons.
  unfold status_flag at 2. cbn [fst snd].
  destruct (decide (Z.land val m <> 0)) as [Hset|Hclear].
  - replace (Z.land val m =? 0) with false by (symmetry; apply Z.eqb_neq; exact Hset).
    cbn [negb fmap list_fmap snd].
    pose proof (fold_flags_bar val table (String "(" n)) as Hbar.
    unfold fold_flags, set_flags in Hbar. cbn [append]. rewrite Hbar. reflexivity.
  - replace (Z.land val m =? 0) with true
      by (symmetry; apply Z.eqb_eq; destruct (Z.eq_dec (Z.land val m) 0); tauto).
    cbn [negb]. exact IH.
Qed.

Lemma status_text (val : Z) (table : list (Z * string)) (none : string) :
  (let st := fold_flags val table (EmptyString, "("%char) in
   if negb (String.length (fst st) =? 0)%nat then (fst st ++ ")")%string else none) =
  match set_flags val table with
  | [] => none
  | l => joined l
  end.
Proof.
  cbv zeta. rewrite fold_flags_open.
  destruct (set_flags val table) as [|n rest]; [reflexivity|].
  cbn [fst joined append String.length Nat.eqb negb].
  rewrite !string_app_assoc. reflexivity.
Qed.

(** X23.  [parse_firewall_status] lists, between parentheses and with a bar
    between two of them, the names of the bits 0 to 4 and 16 to 20 that are
    set, in this order.  Every other bit is ignored when one of these is
    set; with none of them set the text is "(GOOD)" for zero and
    "(UNKNOWN)" for every other word. *)
Theorem firewall_status_lists_the_set_bits (val : Z) :
  parse_firewall_status val =
  match set_flags val firewall_table with
  | [] => if val =? 0 then "(GOOD)"%string else "(UNKNOWN)"%string
  | l => joined l
  end.
Proof.
  exact (status_text val firewall_table
           (if val =? 0 then "(GOOD)"%string else "(UNKNOWN)"%string)).
Qed.

(** X24.  [parse_cu_status] answers "(CRASHED)" for the word of all ones,
    although every status bit is set in it, and "(--)" for zero.  For every
    other word it lists the names of the set bits among start, done, idle,
    ready and continue (named RESTART) in this order, between parentheses
    and with a bar between two of them, or "(UNKNOWN)" when none is set. *)
Theorem cu_status_lists_the_set_bits (ert : Ert) (val : Z) :
  parse_cu_status ert val =
  if val =? 2 ^ 32 - 1 then "(CRASHED)"%string
  else if val =? 0 then "(--)"%string
  else match set_flags val (cu_table ert) with
       | [] => "(UNKNOWN)"%string
       | l => joined l
       end.
Proof.
  unfold parse_cu_status.
  destruct (val =? 2 ^ 32 - 1); [reflexivity|].
  destruct (val =? 0); [reflexivity|].
  exact (status_text val (cu_table ert) "(UNKNOWN)"%string).
Qed.

(** ** Sizes *)

Lemma shiftr_zero (size bs : Z) :
  0 <= bs -> 0 <= size -> (Z.shiftr size bs =? 0) = (size <? 2 ^ bs).
Proof.
  intros Hbs Hsize. rewrite Z.shiftr_div_pow2 by exact Hbs.
  assert (Hpos : 0 < 2 ^ bs) by (apply Z.pow_pos_nonneg; lia).
  destruct (Z.ltb_spec size (2 ^ bs)) as [Hlt|Hge].
  - apply Z.eqb_eq. apply Z.div_small. lia.
  - apply Z.eqb_neq. intros Hz.
    pose proof (Z.div_le_lower_bound size (2 ^ bs) 1 Hpos ltac:(lia)). lia.
Qed.

Lemma div_pow_succ (size j : Z) :
  0 <= j -> size / 1024 / 1024 ^ j = size / 1024 ^ (j + 1).
Proof.
  intros Hj. rewrite Z.pow_add_r, Z.pow_1_r by lia.
  rewrite Z.div_div by (try apply Z.pow_pos_nonneg; lia).
  f_equal. lia.
Qed.

Lemma unit_loop_run (bs : Z) (j : nat) :
  0 <= bs ->
  forall (rounds : nat) (size i : Z) (ret : string),
  0 <= size ->
  2 ^ bs <= size / 1024 ^ Z.of_nat j ->
  size / 1024 ^ (Z.of_nat j + 1) < 2 ^ bs ->
  i + Z.of_nat j < 8 ->
  (j < rounds)%nat ->
  unit_loop rounds bs size i ret =
    (i + Z.of_nat j + 1, to_string (size / 1024 ^ Z.of_nat j)).
Proof.
  intros Hbs. induction j as [|j IH]; intros rounds size i ret Hsize Hlow Hup Hi Hr.
  - change (Z.of_nat 0) with 0 in *. rewrite Z.pow_0_r, Z.div_1_r in *.
    change (1024 ^ (0 + 1)) with 1024 in Hup.
    destruct rounds as [|rounds]; [lia|]. cbn [unit_loop].
    rewrite shiftr_zero by assumption.
    replace (size <? 2 ^ bs) with false by (symmetry; apply Z.ltb_ge; lia).
    replace (i <? 8) with true by (symmetry; apply Z.ltb_lt; lia).
    cbn [negb andb]. rewrite Z.add_0_r.
    destruct rounds as [|rounds]; [reflexivity|]. cbn [unit_loop].
    rewrite shiftr_zero, Z.shiftr_div_pow2 by (try apply Z.shiftr_nonneg; lia).
    change (2 ^ 10) with 1024.
    replace (size / 1024 <? 2 ^ bs) with true by (symmetry; apply Z.ltb_lt; lia).
    reflexivity.
  - assert (Hp : 0 < 1024 ^ Z.of_nat (S j)) by (apply Z.pow_pos_nonneg; lia).
    assert (Hle : size / 1024 ^ Z.of_nat (S j) <= size).
    { apply Z.div_le_upper_bound; [exact Hp|]. nia. }
    destruct rounds as [|rounds]; [lia|]. cbn [unit_loop].
    rewrite shiftr_zero by assumption.
    replace (size <? 2 ^ bs) with false by (symmetry; apply Z.ltb_ge; lia).
    replace (i <? 8) with true by (symmetry; apply Z.ltb_lt; lia).
    cbn [negb andb]. rewrite Z.shiftr_div_pow2 by lia. change (2 ^ 10) with 1024.
    rewrite (IH rounds (size / 1024) (i + 1) (to_string size)).
    + rewrite div_pow_succ by lia.
      replace (Z.of_nat j + 1) with (Z.of_nat (S j)) by lia.
      f_equal. lia.
    + apply Z.div_pos; lia.
    + rewrite div_pow_succ by lia.
      replace (Z.of_nat j + 1) with (Z.of_nat (S j)) by lia. exact Hlow.
    + rewrite div_pow_succ by lia.
      replace (Z.of_nat j + 1 + 1) with (Z.of_nat (S j) + 1) by lia. exact Hup.
    + lia.
    + lia.
Qed.

Lemma unit_lookup (j : Z) :
  0 <= j < 8 -> exists u, unit_ !! Z.to_nat j = Some u /\ index unit_ j = Some u.
Proof.
  intros Hj. unfold index. rewrite to_size_t_small by lia.
  destruct (lookup_lt_is_Some_2 unit_ (Z.to_nat j)) as [u Hu]; [cbn; lia|].
  exists u. split; exact Hu.
Qed.

Lemma unit_convert_quotient (size j : Z) :
  64 <= size < 2 ^ 64 ->
  0 <= j ->
  (if Z.land size (size - 1) =? 0 then 1 else 64) <= size / 1024 ^ j ->
  size / 1024 ^ (j + 1) < (if Z.land size (size - 1) =? 0 then 1 else 64) ->
  exists u,
    unit_ !! Z.to_nat j = Some u /\
    unit_convert size = Some (to_string (size / 1024 ^ j) ++ " " ++ u)%string.
Proof.
  intros Hsize Hj Hlow Hup.
  assert (Hj6 : j <= 6).
  { destruct (Z.le_gt_cases j 6) as [|Hgt]; [assumption|exfalso].
    assert (Hbig : 2 ^ 64 <= 1024 ^ j).
    { transitivity (1024 ^ 7); [vm_compute; discriminate|].
      apply Z.pow_le_mono_r; lia. }
    rewrite Z.div_small in Hlow by lia.
    destruct (Z.land size (size - 1) =? 0); lia. }
  destruct (unit_lookup j ltac:(lia)) as (u & Hu & Hidx).
  exists u. split; [exact Hu|].
  unfold unit_convert.
  replace (size <? 64) with false by (symmetry; apply Z.ltb_ge; lia).
  set (bs := if Z.land size (size - 1) =? 0 then 0 else 6).
  assert (Hbs : 0 <= bs) by (unfold bs; destruct (_ =? _); lia).
  assert (Hpow : 2 ^ bs = if Z.land size (size - 1) =? 0 then 1 else 64)
    by (unfold bs; destruct (_ =? _); reflexivity).
  rewrite (unit_loop_run bs (Z.to_nat j) Hbs 8%nat size 0 EmptyString);
    rewrite ?Z2Nat.id by lia; try lia.
  replace (0 + j + 1 - 1) with j by lia. rewrite Hidx. reflexivity.
Qed.

(** X25.  For a size of 64 or more, [unit_convert] prints the size divided
    by a power of 1024, rounded down, and the unit of that power.  For a
    size with [size & (size - 1)] zero it is the largest power that leaves a
    quotient of at least 1; for every other size the largest power that
    leaves a quotient of at least 64, so the number printed is between 64
    and 65535 and what is below the unit is dropped: 1536 prints as
    "1536 Byte" and 1048577 as "1024 KB". *)
Theorem unit_convert_prints_the_quotient (size j : Z) :
  64 <= size < 2 ^ 64 ->
  0 <= j ->
  (if Z.land size (size - 1) =? 0 then 1 else 64) <= size / 1024 ^ j ->
  size / 1024 ^ (j + 1) < (if Z.land size (size - 1) =? 0 then 1 else 64) ->
  exists u,
    unit_ !! Z.to_nat j = Some u /\
    unit_convert size = Some (to_string (size / 1024 ^ j) ++ " " ++ u)%string.
Proof. apply unit_convert_quotient. Qed.

Lemma unit_convert_prints_the_quotient_witness :
  unit_convert 1536 = Some "1536 Byte"%string /\
  unit_convert 1048577 = Some "1024 KB"%string.
Proof.
  split.
  - destruct (unit_convert_prints_the_quotient 1536 0) as (u & Hu & H);
      [lia | lia | vm_compute; discriminate | reflexivity |].
    injection Hu as <-. exact H.
  - destruct (unit_convert_prints_the_quotient 1048577 1) as (u & Hu & H);
      [lia | lia | vm_compute; discriminate | reflexivity |].
    injection Hu as <-. exact H.
Defined.

Lemma land_pow2_pred (k : Z) : 0 <= k -> Z.land (2 ^ k) (2 ^ k - 1) = 0.
Proof.
  intros Hk. replace (2 ^ k - 1) with (Z.ones k) by (rewrite Z.ones_equiv; lia).
  rewrite Z.land_ones by exact Hk. apply Z.mod_same. apply Z.pow_nonzero; lia.
Qed.

(** X26.  A size [2 ^ k] with [k] from 6 to 63 prints as [2 ^ (k mod 10)]
    with the unit number [k / 10], which is the size exactly. *)
Theorem power_of_two_sizes_print_exactly (k : Z) :
  6 <= k < 64 ->
  exists u,
    unit_ !! Z.to_nat (k / 10) = Some u /\
    unit_convert (2 ^ k) = Some (to_string (2 ^ (k mod 10)) ++ " " ++ u)%string /\
    2 ^ (k mod 10) * 1024 ^ (k / 10) = 2 ^ k.
Proof.
  intros Hk.
  pose proof (Z.div_mod k 10 ltac:(lia)) as Hdm.
  pose proof (Z.mod_pos_bound k 10 ltac:(lia)) as Hm.
  assert (Hq : 0 <= k / 10) by (apply Z.div_pos; lia).
  assert (H1024 : forall j, 0 <= j -> 1024 ^ j = 2 ^ (10 * j)).
  { intros j Hj. rewrite Z.pow_mul_r by lia. reflexivity. }
  assert (Hexact : 2 ^ k = 2 ^ (k mod 10) * 1024 ^ (k / 10)).
  { rewrite H1024 by exact Hq. rewrite <- Z.pow_add_r by lia. f_equal. lia. }
  assert (Hdiv : 2 ^ k / 1024 ^ (k / 10) = 2 ^ (k mod 10)).
  { rewrite Hexact at 1. apply Z.div_mul. apply Z.pow_nonzero; lia. }
  assert (Hsmall : 2 ^ k / 1024 ^ (k / 10 + 1) = 0).
  { apply Z.div_small. split; [apply Z.pow_nonneg; lia|].
    rewrite H1024 by lia. apply Z.pow_lt_mono_r; lia. }
  destruct (unit_convert_quotient (2 ^ k) (k / 10)) as (u & Hu & H).
  - split; [change 64 with (2 ^ 6); apply Z.pow_le_mono_r; lia
           |apply Z.pow_lt_mono_r; lia].
  - exact Hq.
  - rewrite land_pow2_pred, Z.eqb_refl by lia. rewrite Hdiv.
    pose proof (Z.pow_pos_nonneg 2 (k mod 10)). lia.
  - rewrite land_pow2_pred, Z.eqb_refl by lia. rewrite Hsmall. lia.
  - exists u. split; [exact Hu|]. rewrite Hdiv in H. split; [exact H|].
    symmetry. exact Hexact.
Qed.

Lemma power_of_two_sizes_print_exactly_witness :
  unit_convert 65536 = Some "64 KB"%string.
Proof.
  destruct (power_of_two_sizes_print_exactly 16) as (u & Hu & H & _); [lia|].
  injection Hu as <-. exact H.
Defined.

Lemma unit_loop_index (rounds : nat) (bs : Z) :
  forall (size i : Z) (ret : string),
  0 <= i <= 8 -> i <= fst (unit_loop rounds bs size i ret) <= 8.
Proof.
  induction rounds as [|rounds IH]; intros size i ret Hi; [cbn; lia|].
  cbn [unit_loop]. destruct (negb _); cbn [andb fst]; [|lia].
  destruct (Z.ltb_spec i 8); cbn [fst]; [|lia].
  specialize (IH (Z.shiftr size 10) (i + 1) (to_string size)). lia.
Qed.

(** X27.  For every [size_t], [unit_convert] reads [unit] at an index from
    0 to 7: the loop has run at least once when [unit[i-1]] is read, and at
    most eight times. *)
Theorem unit_convert_stays_in_the_table (size : Z) :
  0 <= size < 2 ^ 64 ->
  exists i ret u,
    0 <= i < 8 /\ unit_ !! Z.to_nat i = Some u /\
    unit_convert size = Some (ret ++ " " ++ u)%string.
Proof.
  intros Hsize. unfold unit_convert.
  destruct (Z.ltb_spec size 64) as [Hlt|Hge].
  - exists 0, (to_string size), "Byte"%string. repeat split; lia.
  - set (bs := if Z.land size (size - 1) =? 0 then 0 else 6).
    assert (Hbs : 0 <= bs <= 6) by (unfold bs; destruct (_ =? _); lia).
    change (unit_loop 8 bs size 0 EmptyString)
      with (if negb (Z.shiftr size bs =? 0) && (0 <? 8)
            then unit_loop 7 bs (Z.shiftr size 10) (0 + 1) (to_string size)
            else (0, EmptyString)).
    rewrite shiftr_zero by lia.
    assert (Hp : 2 ^ bs <= 64) by (change 64 with (2 ^ 6); apply Z.pow_le_mono_r; lia).
    replace (size <? 2 ^ bs) with false by (symmetry; apply Z.ltb_ge; lia).
    cbn [negb andb Z.ltb Z.compare].
    pose proof (unit_loop_index 7 bs (Z.shiftr size 10) (0 + 1) (to_string size)
                  ltac:(lia)) as Hi.
    destruct (unit_loop 7 bs (Z.shiftr size 10) (0 + 1) (to_string size)) as [i ret].
    cbn [fst] in Hi.
    destruct (unit_lookup (i - 1) ltac:(lia)) as (u & Hu & Hidx).
    exists (i - 1), ret, u. rewrite Hidx. repeat split; try lia. exact Hu.
Qed.

Lemma unit_convert_stays_in_the_table_witness :
  exists i ret u,
    0 <= i < 8 /\ unit_ !! Z.to_nat i = Some u /\
    unit_convert (2 ^ 64 - 1) = Some (ret ++ " " ++ u)%string.
Proof. apply (unit_convert_stays_in_the_table (2 ^ 64 - 1)). lia. Defined.

(** * [xrt_core::query] *)








Lemma parse_entry_bar (val : string) (b b' : bars) :
  found_at_0 "bar" val = false ->
  parse_entry val b = Converted b' -> bar b' = bar b.
Proof.
  intros Hbar. unfold parse_entry. rewrite Hbar.
  destruct (found_at_0 "rbar" val).
  { destruct (stoll _); [|discriminate..]. intros [= <-]. reflexivity. }
  destruct (found_at_0 "exp_bar" val).
  { destruct (stoll _); [|discriminate..]. intros [= <-]. reflexivity. }
  destruct (found_at_0 "remap" val).
  { destruct (stoll _); [|discriminate..]. intros [= <-]. reflexivity. }
  intros [= <-]. reflexivity.
Qed.

Lemma parse_entries_bar (config : list string) :
  Forall (fun val => found_at_0 "bar" val = false) config ->
  forall b b', parse_entries config b = Converted b' -> bar b' = bar b.
Proof.
  induction 1 as [|val config Hval _ IH]; intros b b'; cbn [parse_entries].
  - intros [= <-]. reflexivity.
  - destruct (parse_entry val b) as [b1| |] eqn:H1; [|discriminate..].
    intros H2. rewrite (IH _ _ H2). exact (parse_entry_bar val b b1 Hval H1).
Qed.

(** X29.  When no entry of the query begins with "bar", every answer
    [p2p_config::parse] returns is "not supported" with the diagnostic that
    the P2P BAR was not found, whatever the other entries say. *)
Theorem no_bar_entry_is_not_supported (config : list string)
    (answer : value_type * string) :
  Forall (fun val => found_at_0 "bar" val = false) config ->
  p2p_config_parse config = Converted answer ->
  answer = (not_supported,
            "P2P config failed. P2P is not supported. Can't find P2P BAR."%string).
Proof.
  intros Hno. unfold p2p_config_parse. fold no_bars.
  destruct (parse_entries config no_bars) as [b| |] eqn:Hb; [|discriminate..].
  rewrite (parse_entries_bar config Hno _ _ Hb). cbn [no_bars bar Z.eqb].
  intros [= <-]. reflexivity.
Qed.

Lemma no_bar_entry_is_not_supported_witness :
  p2p_config_parse ["rbar:3"; "exp_bar:4"; "remap:1"]%string =
  Converted (not_supported,
             "P2P config failed. P2P is not supported. Can't find P2P BAR."%string).
Proof.
  assert (H : exists a, p2p_config_parse ["rbar:3"; "exp_bar:4"; "remap:1"]%string =
                        Converted a) by (eexists; reflexivity).
  destruct H as [a Ha]. rewrite Ha. f_equal.
  apply (no_bar_entry_is_not_supported ["rbar:3"; "exp_bar:4"; "remap:1"]%string a);
    [repeat constructor|exact Ha].
Defined.
